(** * ScryfallCardGolf: a shallow embedding of [card_golf.py]

    The script runs a daily contest: it posts two random cards, records the
    contest in a JSON log keyed by its start time, and later scans the
    replies for a winning query.  Python values that come from JSON (the log,
    the card database answers, the items of the reply stream) are embedded as
    the type [json]; a Python exception is the [Raise] case of [result]; the
    file system, the log output and the clock are the [World] that every
    operation threads through.  What lies outside the script (the HTTP and
    Twitter clients, [glob], the URL parser, the constants of the package's
    [__init__] module) is collected in the record [Env].

    Embedded are the contest log ([write_to_json_db], [load_json_db]), the
    liveness check ([is_active_contest_already]), the results scan
    ([test_query], [get_results], [write_results]), and the image and
    posting steps ([merge_card_images], [resize_image], [send_tweet]). *)

From stdpp Require Import gmap strings list fin_maps.
From Stdlib Require Import ZArith String Ascii Lia.

#[local] Set Warnings "-register-all".
#[local] Open Scope string_scope.
#[local] Open Scope Z_scope.

(* ===================================================================== *)
(** ** Exceptions and results *)
(* ===================================================================== *)

(** The exception classes the script can meet.  [JSONDecodeError],
    [UnicodeDecodeError] and [UnicodeEncodeError] are subclasses of
    [ValueError]; the two Unicode errors are siblings: encoding a [str]
    raises [UnicodeEncodeError], which [except UnicodeDecodeError] does not
    catch.  [IOError] stands for [OSError] and its subclasses;
    [ExternalError] is any failure of a remote service.  [NotModelled] marks
    the few corners the embedding leaves out (they are named where they
    occur). *)
Inductive exn : Type :=
  | KeyError | IndexError | TypeError | AttributeError
  | ValueError | JSONDecodeError | UnicodeDecodeError | UnicodeEncodeError
  | IOError | OverflowError | ExternalError | NotModelled.

Inductive result (A : Type) : Type :=
  | Ok (a : A)
  | Raise (e : exn).
Arguments Ok {A} a.
Arguments Raise {A} e.

(** [except ValueError] also catches its subclasses. *)
Definition is_ValueError (e : exn) : bool :=
  match e with
  | ValueError | JSONDecodeError | UnicodeDecodeError | UnicodeEncodeError => true
  | _ => false
  end.

Definition is_KeyError (e : exn) : bool :=
  match e with KeyError => true | _ => false end.

Definition is_IOError (e : exn) : bool :=
  match e with IOError => true | _ => false end.

Definition is_UnicodeDecodeError (e : exn) : bool :=
  match e with UnicodeDecodeError => true | _ => false end.

Definition rbind {A B} (r : result A) (k : A -> result B) : result B :=
  match r with
  | Ok a => k a
  | Raise e => Raise e
  end.

(* ===================================================================== *)
(** ** JSON values and the Python operations on them *)
(* ===================================================================== *)

(** A parsed JSON document.  Numbers are integers (no float reaches a
    decision of the script); a JSON object is a finite map, so two objects
    with the same members are equal whatever the order they were written
    in, as for Python's [dict].  A string is held as the bytes of its
    UTF-8 encoding. *)
Inductive json : Type :=
  | JNull
  | JBool (b : bool)
  | JInt (n : Z)
  | JStr (s : string)
  | JList (l : list json)
  | JDict (d : gmap string json).

(** [bool] is a subclass of [int] in Python: [True == 1]. *)
Definition json_num (v : json) : option Z :=
  match v with
  | JBool b => Some (if b then 1 else 0)
  | JInt n => Some n
  | _ => None
  end.

(** Python's [==] on JSON values. *)
Fixpoint py_eqb (a b : json) {struct a} : bool :=
  match a, b with
  | JNull, JNull => true
  | JStr s, JStr t => bool_decide (s = t)
  | JList l, JList m =>
      (fix go (l m : list json) : bool :=
         match l, m with
         | [], [] => true
         | x :: l', y :: m' => py_eqb x y && go l' m'
         | _, _ => false
         end) l m
  | JDict d, JDict e =>
      bool_decide (size d = size e) &&
      map_fold (fun k v acc =>
                  acc && match e !! k with
                         | Some w => py_eqb v w
                         | None => false
                         end) true d
  | (JBool _ | JInt _), (JBool _ | JInt _) =>
      bool_decide (json_num a = json_num b)
  | _, _ => false
  end.

(** [x in l] for a list [l]. *)
Definition py_in_list (x : json) (l : list json) : bool :=
  existsb (py_eqb x) l.

(** [sub in s] for two strings. *)
Fixpoint is_prefix (p s : string) : bool :=
  match p, s with
  | EmptyString, _ => true
  | String a p', String b s' => Ascii.eqb a b && is_prefix p' s'
  | String _ _, EmptyString => false
  end.

Fixpoint str_contains (sub s : string) : bool :=
  is_prefix sub s ||
  match s with
  | EmptyString => false
  | String _ s' => str_contains sub s'
  end.

(** [v[k]] for a string key [k]. *)
Definition getitem (v : json) (k : string) : result json :=
  match v with
  | JDict d => match d !! k with
               | Some x => Ok x
               | None => Raise KeyError
               end
  | _ => Raise TypeError
  end.

(** [v[i]] for an integer literal [i] (0 or 1 in the script).  A JSON object
    has string keys only, so an integer subscript is a [KeyError]. *)
Definition getindex (v : json) (i : nat) : result json :=
  match v with
  | JList l => match l !! i with
               | Some x => Ok x
               | None => Raise IndexError
               end
  | JStr s => match String.get i s with
              | Some c => Ok (JStr (String c EmptyString))
              | None => Raise IndexError
              end
  | JDict _ => Raise KeyError
  | _ => Raise TypeError
  end.

(** [k in v] for a string [k]: key membership for a dict, element membership
    for a list, substring for a string. *)
Definition contains (k : string) (v : json) : result bool :=
  match v with
  | JDict d => Ok (bool_decide (is_Some (d !! k)))
  | JList l => Ok (py_in_list (JStr k) l)
  | JStr s => Ok (str_contains k s)
  | _ => Raise TypeError
  end.

(** The keys of [v.keys()], in some order: only [max] is taken of them. *)
Definition dict_keys (v : json) : result (list string) :=
  match v with
  | JDict d => Ok (map_to_list d).*1
  | _ => Raise AttributeError
  end.

(** [max] of a sequence of strings; the empty sequence is a [ValueError].
    Python orders strings by code point, which is the order of their UTF-8
    bytes. *)
Definition str_max (a b : string) : string :=
  if String.leb a b then b else a.

Definition py_max (l : list string) : result string :=
  match l with
  | [] => Raise ValueError
  | k :: l' => Ok (foldr str_max k l')
  end.

(** The elements a [for] loop over [v] visits.  For a dict these are its
    keys and for a string its characters; the script only ever subscripts
    them with a string, which fails on the first one, so neither the order
    of the keys nor the width of a character matters. *)
Fixpoint str_chars (s : string) : list json :=
  match s with
  | EmptyString => []
  | String c s' => JStr (String c EmptyString) :: str_chars s'
  end.

Definition py_iter (v : json) : result (list json) :=
  match v with
  | JList l => Ok l
  | JDict d => Ok (JStr <$> (map_to_list d).*1)
  | JStr s => Ok (str_chars s)
  | _ => Raise TypeError
  end.

(** [str.lower()], on the ASCII letters.  A byte of a non-ASCII character is
    left as it is; no such byte is an ['o'] or an ['r']. *)
Definition lower_ascii (c : ascii) : ascii :=
  let n := N_of_ascii c in
  if ((65 <=? n) && (n <=? 90))%N then ascii_of_N (n + 32) else c.

Fixpoint lower (s : string) : string :=
  match s with
  | EmptyString => EmptyString
  | String c s' => String (lower_ascii c) (lower s')
  end.

(** [len(s)]: the number of code points of [s].  In UTF-8 every code point
    has exactly one byte that is not a continuation byte (a byte of the
    form [10xxxxxx]); those are the bytes counted. *)
Definition is_continuation (c : ascii) : bool :=
  let n := N_of_ascii c in ((128 <=? n) && (n <? 192))%N.

Fixpoint code_points (s : string) : nat :=
  match s with
  | EmptyString => O
  | String c s' =>
      if is_continuation c then code_points s' else S (code_points s')
  end.

Definition py_len (s : string) : Z := Z.of_nat (code_points s).

(* ===================================================================== *)
(** ** Dates: [datetime], [strftime], [strptime] *)
(* ===================================================================== *)

(** A naive [datetime.datetime]. *)
Record datetime : Type := mkDatetime {
  year : Z; month : Z; day : Z;
  hour : Z; minute : Z; second : Z; microsecond : Z
}.

Definition is_leap (y : Z) : bool :=
  (y mod 4 =? 0) && (negb (y mod 100 =? 0) || (y mod 400 =? 0)).

Definition days_in_month (y m : Z) : Z :=
  if m =? 2 then (if is_leap y then 29 else 28)
  else if (m =? 4) || (m =? 6) || (m =? 9) || (m =? 11) then 30
  else 31.

(** The checks of the [datetime] constructor ([MINYEAR = 1],
    [MAXYEAR = 9999]). *)
Definition valid_datetime (d : datetime) : bool :=
  (1 <=? year d) && (year d <=? 9999) &&
  (1 <=? month d) && (month d <=? 12) &&
  (1 <=? day d) && (day d <=? days_in_month (year d) (month d)) &&
  (0 <=? hour d) && (hour d <=? 23) &&
  (0 <=? minute d) && (minute d <=? 59) &&
  (0 <=? second d) && (second d <=? 59) &&
  (0 <=? microsecond d) && (microsecond d <=? 999999).

(** The proleptic Gregorian ordinal of a date (1 for 0001-01-01), and the
    microseconds elapsed since the start of day 0. *)
Definition days_before_year (y : Z) : Z :=
  let y' := y - 1 in y' * 365 + y' / 4 - y' / 100 + y' / 400.

Definition days_before_month (y m : Z) : Z :=
  match m with
  | 1 => 0 | 2 => 31 | 3 => 59 | 4 => 90 | 5 => 120 | 6 => 151
  | 7 => 181 | 8 => 212 | 9 => 243 | 10 => 273 | 11 => 304 | _ => 334
  end + (if (2 <? m) && is_leap y then 1 else 0).

Definition toordinal (d : datetime) : Z :=
  days_before_year (year d) + days_before_month (year d) (month d) + day d.

Definition to_micros (d : datetime) : Z :=
  (((toordinal d * 24 + hour d) * 60 + minute d) * 60 + second d) * 1000000
  + microsecond d.

Definition day_micros : Z := 86400 * 1000000.

(** [d + datetime.timedelta(days=1)]: the same time on the next calendar
    day; past 9999-12-31 it is an [OverflowError]. *)
Definition add_one_day (d : datetime) : result datetime :=
  let with_date y m dd :=
    mkDatetime y m dd (hour d) (minute d) (second d) (microsecond d) in
  if day d <? days_in_month (year d) (month d)
  then Ok (with_date (year d) (month d) (day d + 1))
  else if month d <? 12
  then Ok (with_date (year d) (month d + 1) 1)
  else if year d <? 9999
  then Ok (with_date (year d + 1) 1 1)
  else Raise OverflowError.

(** [a > b] on naive datetimes: the fields are compared in order. *)
Fixpoint lex_gtb (a b : list Z) : bool :=
  match a, b with
  | x :: a', y :: b' => (y <? x) || ((x =? y) && lex_gtb a' b')
  | _, _ => false
  end.

Definition dt_fields (d : datetime) : list Z :=
  [year d; month d; day d; hour d; minute d; second d; microsecond d].

Definition dt_gtb (a b : datetime) : bool :=
  lex_gtb (dt_fields a) (dt_fields b).

(** *** [time.strftime('%Y-%m-%d_%H:%M:%S')] *)

Definition digit (n : Z) : ascii := ascii_of_N (48 + Z.to_N n).

Definition pad2 (n : Z) (rest : string) : string :=
  String (digit (n / 10)) (String (digit (n mod 10)) rest).

Definition pad4 (n : Z) (rest : string) : string :=
  String (digit (n / 1000)) (String (digit (n / 100 mod 10)) (pad2 (n mod 100) rest)).

Definition strftime (d : datetime) : string :=
  pad4 (year d) (String "-" (pad2 (month d) (String "-" (pad2 (day d)
    (String "_" (pad2 (hour d) (String ":" (pad2 (minute d)
      (String ":" (pad2 (second d) "")))))))))).

(** *** [datetime.strptime(key, '%Y-%m-%d_%H:%M:%S')]

    The library turns the format into one regular expression,
    [(\d\d\d\d)-(1[0-2]|0[1-9]|[1-9])-(3[0-1]|[1-2]\d|0[1-9]|[1-9]| [1-9])_]
    [(2[0-3]|[0-1]\d|\d):([0-5]\d|\d):(6[0-1]|[0-5]\d|\d)], which must match
    the whole key, and passes the numbers to the [datetime] constructor.
    Every failure is a [ValueError].  A field is followed by a character
    that is not a digit (or by the end of the key), so where two digits are
    present only the two-digit alternatives can lead to a match.

    In the library [\d] also matches the decimal digits of other scripts
    than ASCII, and [int] reads them.  The digits read here are the ASCII
    ones: a key that matches here is parsed by the library to the same
    time, a key of ASCII characters that does not match here fails in the
    library too, and what the library does with a key that has a
    character outside ASCII is left out of the embedding. *)

Definition is_ascii (c : ascii) : bool := (N_of_ascii c <? 128)%N.

Fixpoint is_ascii_string (s : string) : bool :=
  match s with
  | EmptyString => true
  | String c s' => is_ascii c && is_ascii_string s'
  end.

Definition digit_val (c : ascii) : option Z :=
  let n := N_of_ascii c in
  if ((48 <=? n) && (n <=? 57))%N then Some (Z.of_N (n - 48)) else None.

Definition take_field (two : Z -> Z -> bool) (one : Z -> bool) (s : string)
  : option (Z * string) :=
  match s with
  | String a r =>
      match digit_val a with
      | Some x =>
          match r with
          | String b r' =>
              match digit_val b with
              | Some y => if two x y then Some (10 * x + y, r') else None
              | None => if one x then Some (x, r) else None
              end
          | EmptyString => if one x then Some (x, r) else None
          end
      | None => None
      end
  | EmptyString => None
  end.

Definition take_year (s : string) : option (Z * string) :=
  match s with
  | String a (String b (String c (String d r))) =>
      match digit_val a, digit_val b, digit_val c, digit_val d with
      | Some w, Some x, Some y, Some z =>
          Some (1000 * w + 100 * x + 10 * y + z, r)
      | _, _, _, _ => None
      end
  | _ => None
  end.

Definition take_month : string -> option (Z * string) :=
  take_field (fun x y => ((x =? 1) && (y <=? 2)) || ((x =? 0) && (1 <=? y)))
             (fun x => 1 <=? x).

Definition take_day (s : string) : option (Z * string) :=
  match s with
  | String " " (String b r) =>
      match digit_val b with
      | Some y => if 1 <=? y then Some (y, r) else None
      | None => None
      end
  | _ =>
      take_field (fun x y => ((x =? 3) && (y <=? 1)) || (x =? 1) || (x =? 2)
                             || ((x =? 0) && (1 <=? y)))
                 (fun x => 1 <=? x) s
  end.

Definition take_hour : string -> option (Z * string) :=
  take_field (fun x y => ((x =? 2) && (y <=? 3)) || (x <=? 1)) (fun _ => true).

Definition take_minute : string -> option (Z * string) :=
  take_field (fun x _ => x <=? 5) (fun _ => true).

Definition take_second : string -> option (Z * string) :=
  take_field (fun x y => ((x =? 6) && (y <=? 1)) || (x <=? 5)) (fun _ => true).

Definition expect (c : ascii) (s : string) : option string :=
  match s with
  | String a r => if Ascii.eqb a c then Some r else None
  | EmptyString => None
  end.

Definition match_key (s : string) : option datetime :=
  '(y, s) ← take_year s; s ← expect "-" s;
  '(m, s) ← take_month s; s ← expect "-" s;
  '(d, s) ← take_day s; s ← expect "_" s;
  '(h, s) ← take_hour s; s ← expect ":" s;
  '(mi, s) ← take_minute s; s ← expect ":" s;
  '(sec, s) ← take_second s;
  match s with
  | EmptyString => Some (mkDatetime y m d h mi sec 0)
  | _ => None
  end.

Definition strptime (s : string) : result datetime :=
  match match_key s with
  | Some d => if valid_datetime d then Ok d else Raise ValueError
  | None => if is_ascii_string s then Raise ValueError else Raise NotModelled
  end.

(* ===================================================================== *)
(** ** Images, files, the world and the environment *)
(* ===================================================================== *)

Definition color : Type := Z * Z * Z.
Definition black : color := (0, 0, 0).

(** A decoded raster image: [im.size] is [(width, height)]. *)
Record image : Type := mkImage {
  width : Z;
  height : Z;
  pixel : Z -> Z -> color
}.

(** What a file holds: a JSON document (what [json.load] reads back from
    what [json.dumps] wrote), an image, or something that is neither. *)
Inductive file : Type :=
  | FJson (doc : json)
  | FImage (im : image)
  | FOther.

Inductive log_level : Type := DEBUG | INFO | WARNING | ERROR.

(** A call of the [logging] module: the level, the message template and the
    values formatted into it. *)
Record log_record : Type := mkLog {
  level : log_level;
  template : string;
  args : list json
}.

(** The state the script acts on: the files, the log output, the wall clock
    at the time of the run, the number of HTTP requests made so far and the
    statuses posted (message and media). *)
Record World : Type := mkWorld {
  fs : gmap string file;
  logged : list log_record;
  now : datetime;
  http_requests : nat;
  posted : list (string * file)
}.

Definition set_fs (f : gmap string file) (w : World) : World :=
  mkWorld f (logged w) (now w) (http_requests w) (posted w).
Definition add_log (r : log_record) (w : World) : World :=
  mkWorld (fs w) (logged w ++ [r]) (now w) (http_requests w) (posted w).
Definition count_request (w : World) : World :=
  mkWorld (fs w) (logged w) (now w) (S (http_requests w)) (posted w).
Definition add_post (p : string * file) (w : World) : World :=
  mkWorld (fs w) (logged w) (now w) (http_requests w) (posted w ++ [p]).

(** The answer of [twitter_api.request]: its HTTP status code and what
    [TwitterResponse(status, False).json()] makes of it. *)
Record twitter_status : Type := mkStatus {
  status_code : Z;
  status_json : result json
}.

(** Everything the script takes from outside.  The three constants come
    from the package's [__init__] module, which is not part of the source
    at hand. *)
Record Env : Type := mkEnv {
  TEMP_CARD_DIR : string;
  TWEET_DATABASE : string;
  TWEETER_ACCOUNT : string;
  (** [requests.get(url).json()] for the [n]-th request of the run *)
  requests_get_json : nat -> string -> result json;
  (** [urlparse.parse_qs(urlparse.urlparse(url).query)] *)
  parse_qs : string -> gmap string (list string);
  (** [glob.glob(pattern)] on the current files *)
  glob : gmap string file -> string -> list string;
  (** [twitter_api.request('statuses/update_with_media', ...)] *)
  update_with_media : string -> file -> result twitter_status;
  (** the items [TwitterPager(...).get_iterator()] yields, in order *)
  search_tweets : list json;
  (** the pixels PIL's resampling filter computes for a new size *)
  resample : image -> Z * Z -> Z -> Z -> color
}.

(* ===================================================================== *)
(** ** The monad of the script: state and exceptions *)
(* ===================================================================== *)

Definition Py (A : Type) : Type := World -> result A * World.

Definition ret {A} (a : A) : Py A := fun w => (Ok a, w).

Definition raise {A} (e : exn) : Py A := fun w => (Raise e, w).

Definition bind {A B} (m : Py A) (k : A -> Py B) : Py B :=
  fun w =>
    match m w with
    | (Ok a, w') => k a w'
    | (Raise e, w') => (Raise e, w')
    end.

(** A pure expression that may raise. *)
Definition lift {A} (r : result A) : Py A := fun w => (r, w).

(** [try: m except E: handler], [catches] telling the classes [E] covers.
    The effects of [m] up to the exception stay. *)
Definition try_except {A} (m : Py A) (catches : exn -> bool) (handler : Py A)
  : Py A :=
  fun w =>
    match m w with
    | (Ok a, w') => (Ok a, w')
    | (Raise e, w') => if catches e then handler w' else (Raise e, w')
    end.

Declare Scope py_scope.
Delimit Scope py_scope with py.
Notation "x <- m ;; k" := (bind m (fun x => k))
  (at level 100, m at next level, right associativity) : py_scope.
Notation "m ;; k" := (bind m (fun _ => k))
  (at level 100, right associativity) : py_scope.
Notation "x <~ r ;; k" := (rbind r (fun x => k))
  (at level 100, r at next level, right associativity) : py_scope.
#[local] Open Scope py_scope.

Definition logging (lvl : log_level) (tpl : string) (xs : list json) : Py unit :=
  fun w => (Ok tt, add_log (mkLog lvl tpl xs) w).

(** [os.path.isfile] *)
Definition isfile (path : string) : Py bool :=
  fun w => (Ok (bool_decide (is_Some (fs w !! path))), w).

(** [with open(path) as f: json.load(f)] *)
Definition json_load (path : string) : Py json :=
  fun w =>
    match fs w !! path with
    | Some (FJson doc) => (Ok doc, w)
    | Some (FImage _) => (Raise UnicodeDecodeError, w)
    | Some FOther => (Raise JSONDecodeError, w)
    | None => (Raise IOError, w)
    end.

(** [with open(path, mode='w') as f: f.write(json.dumps(doc, ...))];
    writing a file always succeeds in this embedding. *)
Definition json_dump (path : string) (doc : json) : Py unit :=
  fun w => (Ok tt, set_fs (<[path := FJson doc]> (fs w)) w).

(** [time.strftime('%Y-%m-%d_%H:%M:%S')] and [datetime.datetime.now()] *)
Definition time_strftime : Py string := fun w => (Ok (strftime (now w)), w).
Definition datetime_now : Py datetime := fun w => (Ok (now w), w).

(** [max(db.keys())] *)
Definition max_key (db : json) : result string :=
  keys <~ dict_keys db ;; py_max keys.

(* ===================================================================== *)
(** ** The script *)
(* ===================================================================== *)

(** PIL's [Image.thumbnail(size)]: the new size keeps the proportions, each
    side cut down to the bound in turn (the quotient is truncated, and no
    side falls under one pixel); an image that already fits is left alone. *)
Definition thumbnail_size (bound size : Z * Z) : Z * Z :=
  let '(x, y) := size in
  let '(x, y) :=
    if fst bound <? x then (fst bound, Z.max (y * fst bound / x) 1) else (x, y) in
  if snd bound <? y then (Z.max (x * snd bound / y) 1, snd bound) else (x, y).

(** [PIL.Image.new('RGB', (w, h))] and [canvas.paste(im, (x_offset, 0))] *)
Definition new_image (w h : Z) : image := mkImage w h (fun _ _ => black).

Definition paste (canvas im : image) (ox oy : Z) : image :=
  mkImage (width canvas) (height canvas)
    (fun x y =>
       if (ox <=? x) && (x <? ox + width im) && (x <? width canvas)
          && (oy <=? y) && (y <? oy + height im) && (y <? height canvas)
       then pixel im (x - ox) (y - oy)
       else pixel canvas x y).

(** [sum(widths)] and [max(heights)] *)
Definition sum_Z (l : list Z) : Z := foldr Z.add 0 l.

Definition max_Z (l : list Z) : result Z :=
  match l with
  | [] => Raise ValueError
  | h :: l' => Ok (foldr Z.max h l')
  end.

(** [name.replace('//', '_')] *)
Fixpoint replace_slashes (s : string) : string :=
  match s with
  | String "/" (String "/" r) => String "_" (replace_slashes r)
  | String c r => String c (replace_slashes r)
  | EmptyString => EmptyString
  end.

(** [feeds += entry] for a document [feeds] that is not a dict.  Extending a
    list by a dict (its keys in insertion order) or by a string (its
    characters) is left out of the embedding. *)
Definition iadd (feeds entry : json) : result json :=
  match feeds, entry with
  | JList l, JList e => Ok (JList (l ++ e)%list)
  | JList _, (JDict _ | JStr _) => Raise NotModelled
  | JStr a, JStr b => Ok (JStr (a ++ b))
  | (JBool _ | JInt _), (JBool _ | JInt _) =>
      match json_num feeds, json_num entry with
      | Some a, Some b => Ok (JInt (a + b))
      | _, _ => Raise TypeError
      end
  | _, _ => Raise TypeError
  end.

Definition is_dict (v : json) : bool :=
  match v with JDict _ => true | _ => false end.

(** The verdict of one turn of a [for] loop. *)
Inductive control : Type := Continue | Break.

Section Script.

Variable env : Env.

(** [download_contents(url)], in its default mode ['json'], the one the
    functions embedded here use. *)
Definition download_contents (url : string) : Py json :=
  response <- (fun w => (requests_get_json env (http_requests w) url,
                         count_request w)) ;;
  logging DEBUG "Downloaded URL {0}" [JStr url] ;;
  ret response.

Definition PIL_open (path : string) : Py image :=
  fun w =>
    match fs w !! path with
    | Some (FImage im) => (Ok im, w)
    | _ => (Raise IOError, w)
    end.

Definition PIL_save (path : string) (im : image) : Py unit :=
  fun w => (Ok tt, set_fs (<[path := FImage im]> (fs w)) w).

Definition thumbnail (bound : Z * Z) (im : image) : image :=
  let size := thumbnail_size bound (width im, height im) in
  if bool_decide (size = (width im, height im)) then im
  else mkImage (fst size) (snd size) (resample env im size).

Definition resize_image (url_to_open : string) : Py unit :=
  try_except
    (im <- PIL_open url_to_open ;;
     PIL_save url_to_open (thumbnail (1024, 512) im))
    is_IOError
    (logging ERROR "Cannot create thumbnail for {0}" [JStr url_to_open]).

(** [open(path, 'rb')] *)
Definition open_rb (path : string) : Py file :=
  fun w =>
    match fs w !! path with
    | Some f => (Ok f, w)
    | None => (Raise IOError, w)
    end.

Definition twitter_request (message : string) (photo : file) : Py twitter_status :=
  fun w =>
    match update_with_media env message photo with
    | Ok st => (Ok st, add_post (message, photo) w)
    | Raise e => (Raise e, w)
    end.

(** [url_to_media] may be [None].  The value returned is the [id_str] of the
    answer, or [-1]. *)
Definition send_tweet (message_to_tweet : string) (url_to_media : option string)
  : Py json :=
  logging DEBUG "Tweet to send: {0}" [JStr message_to_tweet] ;;
  returned <-
    try_except
      (match url_to_media with
       | Some url =>
           resize_image url ;;
           photo <- open_rb url ;;
           status <- twitter_request message_to_tweet photo ;;
           logging DEBUG "Twitter Status Code: {0}" [JInt (status_code status)] ;;
           response <- lift (status_json status) ;;
           logging DEBUG "Twitter Response Parsed: {0}" [response] ;;
           id <- lift (getitem response "id_str") ;;
           ret (Some id)
       | None => ret None
       end)
      is_UnicodeDecodeError
      (logging ERROR
         "Your message could not be encoded.  Perhaps it contains non-ASCII characters? " [] ;;
       ret None) ;;
  match returned with
  | Some id => ret id
  | None => ret (JInt (-1))
  end.

(** The loop that pastes the images side by side. *)
Fixpoint paste_all (new_im : image) (x_offset : Z) (images : list string)
  : Py image :=
  match images with
  | [] => ret new_im
  | path :: rest =>
      im <- PIL_open path ;;
      paste_all (paste new_im im x_offset 0) (x_offset + width im) rest
  end.

Fixpoint open_all (paths : list string) : Py (list image) :=
  match paths with
  | [] => ret []
  | path :: rest =>
      im <- PIL_open path ;; ims <- open_all rest ;; ret (im :: ims)
  end.

Definition card_file_name (card : json) : result string :=
  name <~ getitem card "name" ;;
  match name with
  | JStr s => Ok (replace_slashes s)
  | _ => Raise AttributeError
  end.

(** With no image at all, unpacking the zipped sizes into [widths, heights]
    is a [ValueError]; it is raised here where the heights are needed. *)
Definition merge_card_images (cards : list json) : Py string :=
  cards_to_merge <- (fun w => (Ok (glob env (fs w) (TEMP_CARD_DIR env ++ "*.png")), w)) ;;
  images <- open_all cards_to_merge ;;
  max_height <- lift (max_Z (height <$> images)) ;;
  let total_width := sum_Z (width <$> images) in
  let new_im := new_image total_width max_height in
  new_im <- paste_all new_im 0 cards_to_merge ;;
  name0 <- lift (match cards !! 0%nat with
                 | Some c => card_file_name c
                 | None => Raise IndexError
                 end) ;;
  name1 <- lift (match cards !! 1%nat with
                 | Some c => card_file_name c
                 | None => Raise IndexError
                 end) ;;
  let save_url := TEMP_CARD_DIR env ++ "/" ++ name0 ++ "-" ++ name1 ++ ".png" in
  PIL_save save_url new_im ;;
  logging DEBUG "Saved merged image to {0}" [JStr save_url] ;;
  ret save_url.

Definition write_to_json_db (file_name : string) (entry : json) : Py unit :=
  let feeds := if is_dict entry then JDict ∅ else JList [] in
  exists_ <- isfile file_name ;;
  if negb exists_ then
    feeds <- match feeds with
             | JDict d => key <- time_strftime ;; ret (JDict (<[key := entry]> d))
             | _ => ret entry
             end ;;
    json_dump file_name feeds
  else
    feeds <- json_load file_name ;;
    feeds <- match feeds with
             | JDict d => key <- time_strftime ;; ret (JDict (<[key := entry]> d))
             | _ => lift (iadd feeds entry)
             end ;;
    json_dump file_name feeds.

Definition load_json_db (file_name : string) : Py json :=
  exists_ <- isfile file_name ;;
  if negb exists_ then ret (JDict ∅) else json_load file_name.

(** The loop of [test_query] over the cards of the answer; [true] when it
    has met a card that is not one of the two (the loop then returns ['']). *)
Fixpoint wrong_card (user_name : json) (valid_cards cards : list json)
  : Py bool :=
  match cards with
  | [] => ret false
  | card :: rest =>
      name <- lift (getitem card "name") ;;
      if negb (py_in_list name valid_cards) then
        logging INFO "{0} result has wrong card: {1}" [user_name; name] ;;
        ret true
      else wrong_card user_name valid_cards rest
  end.

(** [user_name] is what the item of the stream holds as screen name; it
    only goes into the log messages.  The [try] spans the whole body. *)
Definition test_query (user_name : json) (scryfall_url : string) : Py string :=
  try_except
    (query <- lift (match parse_qs env scryfall_url !! "q" with
                    | Some qs => match qs !! 0%nat with
                                 | Some q => Ok q
                                 | None => Raise IndexError
                                 end
                    | None => Raise KeyError
                    end) ;;
     let scryfall_api_url := "https://api.scryfall.com/cards/search?q=" ++ query in
     response <- download_contents scryfall_api_url ;;
     total_cards <- lift (getitem response "total_cards") ;;
     (if negb (py_eqb total_cards (JInt 2)) then
        logging INFO "{0} result has wrong number of cards: {1}"
          [user_name; total_cards]
      else ret tt) ;;
     json_db <- load_json_db (TWEET_DATABASE env) ;;
     max_key <- lift (max_key json_db) ;;
     name0 <- lift (entry <~ getitem json_db max_key ;;
                    cards <~ getitem entry "cards" ;;
                    card <~ getindex cards 0 ;;
                    getitem card "name") ;;
     name1 <- lift (entry <~ getitem json_db max_key ;;
                    cards <~ getitem entry "cards" ;;
                    card <~ getindex cards 1 ;;
                    getitem card "name") ;;
     let valid_cards := [name0; name1] in
     data <- lift (getitem response "data") ;;
     cards <- lift (py_iter data) ;;
     wrong <- wrong_card user_name valid_cards cards ;;
     if wrong then ret ""
     else if str_contains "or" (lower query) then
       logging INFO "{0} was correct, but they used 'OR': {1}"
         [user_name; JStr query] ;;
       ret ""
     else
       logging INFO "{0} was correct! [ {1} ] ({2})"
         [user_name; JStr query; JInt (py_len query)] ;;
       ret query)
    is_KeyError
    (logging INFO "{0} submitted a bad Scryfall URL: {1}"
       [user_name; JStr scryfall_url] ;;
     ret "").

(** [a + b] where one of the two is known to be a string: the other has to
    be one as well. *)
Definition str_add (a b : json) : result json :=
  match a, b with
  | JStr x, JStr y => Ok (JStr (x ++ y))
  | _, _ => Raise TypeError
  end.

Definition screen_name (item : json) : result json :=
  user <~ getitem item "user" ;; getitem user "screen_name".

(** The inner loop of [get_results], over the URLs of one item.  A
    [test_url] that is not a string but holds ['scryfall.com'] would reach
    the URL parser, which is left out of the embedding. *)
Fixpoint scan_urls (item : json) (urls : list json) (valid_entries : list json)
  : Py (list json) :=
  match urls with
  | [] => ret valid_entries
  | url :: rest =>
      test_url <- lift (getitem url "expanded_url") ;;
      mentions <- lift (contains "scryfall.com" test_url) ;;
      valid_entries <-
        (if mentions then
           name <- lift (screen_name item) ;;
           logging DEBUG "{0} submitted solution: {1}" [name; test_url] ;;
           who <- lift (screen_name item) ;;
           test_query_results <-
             match test_url with
             | JStr u => test_query who u
             | _ => raise NotModelled
             end ;;
           if 0 <? py_len test_query_results then
             name <- lift (screen_name item) ;;
             ret (valid_entries ++
                  [JDict (<["name" := name]>
                          (<["length" := JInt (py_len test_query_results)]>
                           (<["query" := JStr test_query_results]> ∅)))])%list
           else ret valid_entries
         else ret valid_entries) ;;
      scan_urls item rest valid_entries
  end.

(** One turn of the outer loop of [get_results]. *)
Definition scan_item (item : json) (valid_entries : list json)
  : Py (control * list json) :=
  has_text <- lift (contains "text" item) ;;
  if has_text then
    line <- lift (name <~ screen_name item ;;
                  name_colon <~ str_add name (JStr ": ") ;;
                  text <~ getitem item "text" ;;
                  str_add name_colon text) ;;
    logging DEBUG "{0}" [line] ;;
    urls <- lift (entities <~ getitem item "entities" ;;
                  urls <~ getitem entities "urls" ;;
                  py_iter urls) ;;
    valid_entries <- scan_urls item urls valid_entries ;;
    name <- lift (screen_name item) ;;
    if py_eqb name (JStr (TWEETER_ACCOUNT env)) then ret (Break, valid_entries)
    else ret (Continue, valid_entries)
  else
    has_message <- lift (contains "message" item) ;;
    if has_message then
      code <- lift (getitem item "code") ;;
      if py_eqb code (JInt 88) then
        message <- lift (getitem item "message") ;;
        logging WARNING "SUSPEND, RATE LIMIT EXCEEDED: %s\n" [message] ;;
        ret (Break, valid_entries)
      else ret (Continue, valid_entries)
    else ret (Continue, valid_entries).

Fixpoint scan (items : list json) (valid_entries : list json) : Py (list json) :=
  match items with
  | [] => ret valid_entries
  | item :: rest =>
      turn <- scan_item item valid_entries ;;
      match turn with
      | (Break, valid_entries) => ret valid_entries
      | (Continue, valid_entries) => scan rest valid_entries
      end
  end.

Definition get_results : Py (list json) :=
  logging INFO "CONTEST OVER -- RESULTS" [] ;;
  scan (search_tweets env) [].

Definition write_results (results : list json) : Py unit :=
  db <- load_json_db (TWEET_DATABASE env) ;;
  file_key <- lift (max_key db) ;;
  write_to_json_db ("../winners_" ++ file_key ++ ".json") (JList results).

(** [write_results(get_results())] *)
Definition scan_and_write_results : Py unit :=
  results <- get_results ;;
  write_results results.

Definition is_active_contest_already : Py bool :=
  json_db <- load_json_db (TWEET_DATABASE env) ;;
  match max_key json_db with
  | Raise e =>
      if is_ValueError e then
        logging WARNING "Database was empty, continuing" [] ;;
        ret false
      else raise e
  | Ok max_key =>
      current_contest_start_date <- lift (strptime max_key) ;;
      current_contest_end_date <- lift (add_one_day current_contest_start_date) ;;
      now <- datetime_now ;;
      if dt_gtb current_contest_end_date now then
        logging WARNING "Current contest from {0} still active" [JStr max_key] ;;
        ret true
      else
        scan_and_write_results ;;
        ret false
  end.

End Script.

(* ===================================================================== *)
(** ** Auxiliary statements and sample data *)
(* ===================================================================== *)

(** The round trip as the specification words it: after writing [entry] to
    an existing dict-shaped log and reading the log back, every prior entry
    is still there, unchanged, and [entry] sits under its timestamp. *)
Definition keeps_all_prior_entries (file_name : string) (entry : json) (w : World)
  : Prop :=
  forall d : gmap string json,
    fs w !! file_name = Some (FJson (JDict d)) ->
    exists d' : gmap string json,
      fst (load_json_db file_name (snd (write_to_json_db file_name entry w)))
        = Ok (JDict d')
      /\ (forall k v, d !! k = Some v -> d' !! k = Some v)
      /\ d' !! strftime (now w) = Some entry.

(** A stand-in for the URL parser on URLs of the form [...?q=text]. *)
Fixpoint after_q (s : string) : option string :=
  match s with
  | String "?" (String "q" (String "=" r)) => Some r
  | String _ r => after_q r
  | EmptyString => None
  end.

Definition simple_parse_qs (url : string) : gmap string (list string) :=
  match after_q url with
  | Some q => {[ "q" := [q] ]}
  | None => ∅
  end.

Definition sample_card (n : string) : json := JDict {[ "name" := JStr n ]}.

Definition sample_answer (n : Z) (cards : list json) : json :=
  JDict (<["total_cards" := JInt n]> {[ "data" := JList cards ]}).

(** An environment whose card database always answers [resp] and whose
    reply stream is [stream]. *)
Definition sample_env (resp : json) (stream : list json) : Env :=
  mkEnv "cards/" "../tweets.json" "ScryfallCardGolf"
    (fun _ _ => Ok resp) simple_parse_qs (fun _ _ => [])
    (fun _ _ => Raise ExternalError) stream (fun _ _ _ _ => black).

Definition sample_entry (tweet_id a b : string) : json :=
  JDict (<["tweet_id" := JStr tweet_id]> {[ "cards" := JList [
     JDict (<["name" := JStr a]> {[ "url" := JStr "https://scryfall.com/card/a" ]});
     JDict (<["name" := JStr b]> {[ "url" := JStr "https://scryfall.com/card/b" ]}) ] ]}).

Definition sample_db : gmap string json :=
  {[ "2018-05-09_07:03:59" := sample_entry "1" "Shock" "Opt" ]}.

(** A world whose log holds one contest, started 2018-05-09 07:03:59, seen
    at the time [t]. *)
Definition sample_world (t : datetime) : World :=
  mkWorld {[ "../tweets.json" := FJson (JDict sample_db) ]} [] t 0 [].

Definition sample_start : datetime := mkDatetime 2018 5 9 7 3 59 0.

(** A world without any file. *)
Definition empty_world (t : datetime) : World := mkWorld ∅ [] t 0 [].

(** The card database silent, the reply stream empty. *)
Definition quiet_env : Env := sample_env JNull [].

(** The sample log seen after its window has closed, and in the very second
    of its start. *)
Definition expired_world : World := sample_world (mkDatetime 2018 5 10 8 0 0 0).
Definition same_second_world : World :=
  sample_world (mkDatetime 2018 5 9 7 3 59 250000).

Definition second_entry : json := sample_entry "2" "Duress" "Ponder".

(** The two card names of the latest contest: those recorded under the
    greatest key of the log [db]. *)
Definition contest_names (db : gmap string json) (name0 name1 : json) : Prop :=
  exists (k : string) (entry cards card0 card1 : json),
    max_key (JDict db) = Ok k
    /\ db !! k = Some entry
    /\ getitem entry "cards" = Ok cards
    /\ getindex cards 0 = Ok card0 /\ getitem card0 "name" = Ok name0
    /\ getindex cards 1 = Ok card1 /\ getitem card1 "name" = Ok name1.

(** The card database answers the query [q], asked in the world [w], with a
    count [total_cards] and a list of cards whose names are [names]. *)
Definition search_answers (env : Env) (w : World) (q : string)
    (total_cards : json) (names : list json) : Prop :=
  exists (r : gmap string json) (cards : list json),
    requests_get_json env (http_requests w)
      ("https://api.scryfall.com/cards/search?q=" ++ q) = Ok (JDict r)
    /\ r !! "total_cards" = Some total_cards
    /\ r !! "data" = Some (JList cards)
    /\ Forall2 (fun card name => getitem card "name" = Ok name) cards names.

(** The two events that end the scan of the reply stream: a post (an item
    with a text) whose author is the bot's own account, and the rate-limit
    signal of the platform (an item without text that carries a message and
    the code 88). *)
Definition authored_by_bot (env : Env) (item : json) : bool :=
  match contains "text" item, screen_name item with
  | Ok true, Ok name => py_eqb name (JStr (TWEETER_ACCOUNT env))
  | _, _ => false
  end.

Definition rate_limit_signal (item : json) : bool :=
  match contains "text" item, contains "message" item, getitem item "code" with
  | Ok false, Ok true, Ok code => py_eqb code (JInt 88)
  | _, _, _ => false
  end.

Definition ends_scan (env : Env) (item : json) : bool :=
  authored_by_bot env item || rate_limit_signal item.

(** A reply: a post of [user] with [text] and one expanded URL. *)
Definition sample_reply (user text url : string) : json :=
  JDict (<["text" := JStr text]>
         (<["user" := JDict {[ "screen_name" := JStr user ]}]>
          {[ "entities" := JDict {[ "urls" :=
               JList [JDict {[ "expanded_url" := JStr url ]}] ]} ]})).

Definition sample_rate_limit : json :=
  JDict (<["message" := JStr "Rate limit exceeded"]> {[ "code" := JInt 88 ]}).

(** The canvas after the images [ims] have been pasted onto it from
    [x_offset] on, each to the right of the one before. *)
Fixpoint paste_list (canvas : image) (x_offset : Z) (ims : list image) : image :=
  match ims with
  | [] => canvas
  | im :: rest => paste_list (paste canvas im x_offset 0) (x_offset + width im) rest
  end.

(** A file can be opened as the image [im]. *)
Definition holds_image (files : gmap string file) (path : string) (im : image)
  : Prop :=
  files !! path = Some (FImage im).

(** Two card images of 3 by 2 and 2 by 4 pixels, one red and one blue. *)
Definition red_card : image := mkImage 3 2 (fun _ _ => (255, 0, 0)).
Definition blue_card : image := mkImage 2 4 (fun _ _ => (0, 0, 255)).

Definition card_files : gmap string file :=
  <["cards/Shock.png" := FImage red_card]> {[ "cards/Opt.png" := FImage blue_card ]}.

Definition image_env : Env :=
  mkEnv "cards/" "../tweets.json" "ScryfallCardGolf"
    (fun _ _ => Raise ExternalError) simple_parse_qs
    (fun _ _ => ["cards/Shock.png"; "cards/Opt.png"])
    (fun _ _ => Ok (mkStatus 200 (Ok (JDict {[ "id_str" := JStr "1001" ]}))))
    [] (fun _ _ _ _ => black).

Definition image_world : World := mkWorld card_files [] sample_start 0 [].

(** A world whose card image is damaged. *)
Definition broken_world : World :=
  mkWorld {[ "cards/Shock.png" := FOther ]} [] sample_start 0 [].

Definition two_cards : list json := [sample_card "Shock"; sample_card "Opt"].


(** A reply stream, newest first: a reply, the contest post of the bot, and
    an older reply. *)
Definition sample_stream : list json :=
  [ sample_reply "alice" "#ScryfallCardGolf" "https://scryfall.com/search?q=cmc=1";
    sample_reply "ScryfallCardGolf" "Can you make both of these cards show up"
      "https://scryfall.com/card/a";
    sample_reply "carol" "#ScryfallCardGolf" "https://scryfall.com/search?q=cmc=1" ].

Definition stream_env (stream : list json) : Env :=
  sample_env (sample_answer 2 two_cards) stream.

(** A time cut to the second, as a key records it. *)
Definition to_the_second (d : datetime) : datetime :=
  mkDatetime (year d) (month d) (day d) (hour d) (minute d) (second d) 0.

(** A file of zero bytes holds neither a JSON document nor an image. *)
Definition zero_bytes : file := FOther.

Definition zero_byte_log_world : World :=
  mkWorld {[ "../tweets.json" := zero_bytes ]} [] sample_start 0 [].

(** The edge case of the liveness check as the specification words it:
    with the log file empty or missing the check answers [False].  An empty
    log file is a file of zero bytes, or one whose mapping has no entry. *)
Definition empty_or_missing_log_not_active (env : Env) (w : World) : Prop :=
  fs w !! TWEET_DATABASE env = None
  \/ fs w !! TWEET_DATABASE env = Some zero_bytes
  \/ fs w !! TWEET_DATABASE env = Some (FJson (JDict ∅)) ->
  fst (is_active_contest_already env w) = Ok false.



(* ===================================================================== *)
(** ** The rest of the script, and more statements and samples *)
(* ===================================================================== *)

(** A world whose winners file holds the results of an earlier scan. *)
Definition first_results : list json := [JDict {[ "name" := JStr "alice" ]}].
Definition more_results : list json := [JDict {[ "name" := JStr "carol" ]}].

(** A world whose contest log is damaged. *)
Definition damaged_log_world : World :=
  mkWorld {[ "../tweets.json" := FOther ]} [] sample_start 0 [].

(** Comparing field by field: the first difference decides. *)
Definition then_cmp (c1 c2 : comparison) : comparison :=
  match c1 with
  | Eq => c2
  | _ => c1
  end.

Fixpoint chain_cmp (a b : list Z) : comparison :=
  match a, b with
  | x :: a', y :: b' => then_cmp (x ?= y) (chain_cmp a' b')
  | _, _ => Eq
  end.

(** Every key of the log [d] is a timestamp as the clock writes them. *)
Definition keys_written_by_clock (d : gmap string json) : Prop :=
  forall k, is_Some (d !! k) ->
    exists t, valid_datetime t = true /\ k = strftime t.

(** A log with a second contest, and one whose only key is no timestamp. *)
Definition two_contest_db : gmap string json :=
  <["2018-05-10_09:30:00" := second_entry]> sample_db.

Definition bad_key_world : World :=
  mkWorld {[ "../tweets.json" := FJson (JDict {[ "yesterday" := second_entry ]}) ]}
    [] sample_start 0 [].

(** The world after a contest has been recorded in an empty world at
    [sample_start], seen at the time [t]. *)
Definition recorded_world (t : datetime) : World :=
  mkWorld (fs (snd (write_to_json_db "../tweets.json" (JDict sample_db)
                      (empty_world sample_start))))
    [] t 0 [].

(** An operation that only reads the files: it may log and make requests,
    but it leaves the files and the posted statuses as they are. *)
Definition reads_only {A : Type} (m : Py A) : Prop :=
  forall w, fs (snd (m w)) = fs w /\ posted (snd (m w)) = posted w.

(** The entry [get_results] makes for the author [name] of a query [q], and
    what every such entry satisfies. *)
Definition result_entry (name : json) (q : string) : json :=
  JDict (<["name" := name]>
         (<["length" := JInt (py_len q)]> (<["query" := JStr q]> ∅))).

Definition winning_entry (entry : json) : Prop :=
  exists (name : json) (q : string),
    entry = result_entry name q
    /\ 0 < py_len q
    /\ str_contains "or" (lower q) = false.

(** A reply whose query has a character outside ASCII: seven code points,
    eight bytes in UTF-8. *)
Definition accent_stream : list json :=
  [ sample_reply "alice" "#ScryfallCardGolf" "https://scryfall.com/search?q=Lim-Dûl" ].

(** The card database answers with its error object (no [total_cards]). *)
Definition error_answer : json :=
  JDict (<["object" := JStr "error"]> {[ "code" := JStr "not_found" ]}).

(** The platform answers with an error object: no [id_str]. *)
Definition refusing_env : Env :=
  mkEnv "cards/" "../tweets.json" "ScryfallCardGolf"
    (fun _ _ => Raise ExternalError) simple_parse_qs
    (fun _ _ => ["cards/Shock.png"; "cards/Opt.png"])
    (fun _ _ => Ok (mkStatus 403
                      (Ok (JDict {[ "errors" := JList [JDict {[ "code" := JInt 187 ]}] ]}))))
    [] (fun _ _ _ _ => black).

(** [glob] finds no image. *)
Definition no_glob_env : Env :=
  mkEnv "cards/" "../tweets.json" "ScryfallCardGolf"
    (fun _ _ => Raise ExternalError) simple_parse_qs
    (fun _ _ => [])
    (fun _ _ => Raise ExternalError)
    [] (fun _ _ _ _ => black).

(** A scan of two cards side by side, larger than the bound. *)
Definition wide_card : image := mkImage 1490 1040 (fun _ _ => (255, 0, 0)).
Definition wide_world : World :=
  mkWorld {[ "cards/Shock.png" := FImage wide_card ]} [] sample_start 0 [].

(** *** The functions around the contest: clearing and filling the card
    directory, drawing the cards, and [main] *)

(** What these take from outside beside [Env]: the constant
    [SCRYFALL_RANDOM_URL] of the package's [__init__] module, the body
    that [requests.get(url, stream=True)] hands over for the [n]-th request
    of the run, and the text that [str.format] puts in for a value that is
    not a string (Python's rendering of numbers, lists and dicts). *)
Record Web : Type := mkWeb {
  SCRYFALL_RANDOM_URL : string;
  requests_get_raw : nat -> string -> result file;
  py_str : json -> string
}.

(** What [download_contents] returns: parsed JSON, or a response whose
    [raw] body is still to be copied. *)
Inductive response : Type :=
  | JsonResponse (v : json)
  | RawResponse (raw : file).

(** How a run of [main] ends: it returns, or it leaves through [exit]. *)
Inductive run : Type :=
  | Return
  | Exit (status : Z).

(** [os.remove(path)] *)
Definition os_remove (path : string) : Py unit :=
  fun w =>
    match fs w !! path with
    | Some _ => (Ok tt, set_fs (delete path (fs w)) w)
    | None => (Raise IOError, w)
    end.

(** [with open(path, 'wb') as out_file: shutil.copyfileobj(raw, out_file)] *)
Definition copy_to_file (path : string) (raw : file) : Py unit :=
  fun w => (Ok tt, set_fs (<[path := raw]> (fs w)) w).

(** An argument of [str.format]: a string goes in as it is, any other
    value as the environment renders it. *)
Definition format_arg (web : Web) (v : json) : string :=
  match v with
  | JStr s => s
  | _ => py_str web v
  end.

Definition list_item (l : list json) (i : nat) : result json :=
  match l !! i with
  | Some x => Ok x
  | None => Raise IndexError
  end.

(** ['{0}: {1}'.format(cards[i]['name'], cards[i]['scryfall_uri'])] *)
Definition card_line (web : Web) (cards : list json) (i : nat) : result string :=
  card <~ list_item cards i ;;
  name <~ getitem card "name" ;;
  card' <~ list_item cards i ;;
  uri <~ getitem card' "scryfall_uri" ;;
  Ok (format_arg web name ++ ": " ++ format_arg web uri).

(** [{'name': cards[i]['name'], 'url': cards[i]['scryfall_uri']}] *)
Definition card_ref (cards : list json) (i : nat) : result json :=
  card <~ list_item cards i ;;
  name <~ getitem card "name" ;;
  card' <~ list_item cards i ;;
  uri <~ getitem card' "scryfall_uri" ;;
  Ok (JDict (<["name" := name]> {[ "url" := uri ]})).

Definition contest_entry (tweet_id : json) (cards : list json) : result json :=
  card0 <~ card_ref cards 0 ;;
  card1 <~ card_ref cards 1 ;;
  Ok (JDict (<["tweet_id" := tweet_id]> {[ "cards" := JList [card0; card1] ]})).

Definition newline : string := String (ascii_of_nat 10) "".

(** The message of the contest post. *)
Definition tweet_message (card1 card2 : string) : string :=
  "Can you make both of these cards show up in a Scryfall search without using 'or'?"
  ++ newline ++ "• " ++ card1 ++ newline ++ "• " ++ card2 ++ newline
  ++ "Respond with a Scryfall URL and the #ScryfallCardGolf hash tag in the next 24 hours to enter!".

Section Contest.

Variable env : Env.
Variable web : Web.

(** [download_contents(url, download_type)] with its three branches; the
    default type is ['json']. *)
Definition download_contents_as (url download_type : string) : Py response :=
  request_response <-
    (if String.eqb download_type "json" then
       fun w => (v <~ requests_get_json env (http_requests w) url ;;
                 Ok (JsonResponse v),
                 count_request w)
     else if String.eqb download_type "image" then
       fun w => (raw <~ requests_get_raw web (http_requests w) url ;;
                 Ok (RawResponse raw),
                 count_request w)
     else ret (JsonResponse (JDict ∅))) ;;
  logging DEBUG "Downloaded URL {0}" [JStr url] ;;
  ret request_response.

(** The loop of [delete_temp_cards]. *)
Fixpoint remove_all (cards : list string) : Py unit :=
  match cards with
  | [] => ret tt
  | card :: rest =>
      logging DEBUG "Deleting file {0}" [JStr card] ;;
      os_remove card ;;
      remove_all rest
  end.

Definition delete_temp_cards : Py unit :=
  cards <- (fun w => (Ok (glob env (fs w) (TEMP_CARD_DIR env ++ "/*.png")), w)) ;;
  remove_all cards.

(** The [while] loop of [download_random_cards], which runs
    [number_of_cards] times (not at all for a count below one). *)
Fixpoint draw_cards (turns : nat) (ret_val : list json) : Py (list json) :=
  match turns with
  | O => ret ret_val
  | S turns' =>
      request_api_json <- download_contents env (SCRYFALL_RANDOM_URL web) ;;
      draw_cards turns' (ret_val ++ [request_api_json])
  end.

Definition download_random_cards (number_of_cards : Z) : Py (list json) :=
  draw_cards (Z.to_nat number_of_cards) [].

(** A [card_image_url] that is not a string would reach the HTTP client,
    which is left out of the embedding. *)
Fixpoint download_and_save_card_images (cards : list json) : Py unit :=
  match cards with
  | [] => ret tt
  | card :: rest =>
      card_image_url <- lift (uris <~ getitem card "image_uris" ;;
                              getitem uris "png") ;;
      request_image <- match card_image_url with
                       | JStr url => download_contents_as url "image"
                       | _ => raise NotModelled
                       end ;;
      name <- lift (card_file_name card) ;;
      raw <- lift (match request_image with
                   | RawResponse raw => Ok raw
                   | JsonResponse _ => Raise AttributeError
                   end) ;;
      copy_to_file (TEMP_CARD_DIR env ++ name ++ ".png") raw ;;
      name <- lift (getitem card "name") ;;
      logging DEBUG "Saving image of card {0}" [name] ;;
      download_and_save_card_images rest
  end.

(** The loop of [main] that logs the cards. *)
Fixpoint log_cards (cards : list json) : Py unit :=
  match cards with
  | [] => ret tt
  | card :: rest =>
      name <- lift (getitem card "name") ;;
      logging DEBUG "Card to merge: {0}" [name] ;;
      log_cards rest
  end.

Definition main (force_new : bool) : Py run :=
  active <- (if negb force_new then is_active_contest_already env else ret false) ;;
  if active then ret (Exit 0)
  else
    delete_temp_cards ;;
    cards <- download_random_cards 2 ;;
    card1 <- lift (card_line web cards 0) ;;
    card2 <- lift (card_line web cards 1) ;;
    log_cards cards ;;
    download_and_save_card_images cards ;;
    tweet_image_url <- merge_card_images env cards ;;
    let message := tweet_message card1 card2 in
    tweet_id <- send_tweet env message (Some tweet_image_url) ;;
    json_entry <- lift (contest_entry tweet_id cards) ;;
    write_to_json_db (TWEET_DATABASE env) json_entry ;;
    ret Return.

(** The script as run from the command line, with its two flags. *)
Definition script (results force_new : bool) : Py run :=
  (if results then
     correct_users <- get_results env ;;
     write_results env correct_users
   else ret tt) ;;
  if force_new then main true else main false.

End Contest.

(** *** Samples for a whole run *)

Definition drawn_card (name uri png : string) : json :=
  JDict (<["name" := JStr name]>
         (<["scryfall_uri" := JStr uri]>
          {[ "image_uris" := JDict {[ "png" := JStr png ]} ]})).

Definition shock : json :=
  drawn_card "Shock" "https://scryfall.com/card/m19/156"
    "https://img.scryfall.com/shock.png".
Definition opt : json :=
  drawn_card "Opt" "https://scryfall.com/card/xln/65"
    "https://img.scryfall.com/opt.png".

(** The card database draws Shock, then Opt; [glob] lists those of the two
    card images that are there; the platform accepts the post. *)
Definition run_env : Env :=
  mkEnv "cards/" "../tweets.json" "ScryfallCardGolf"
    (fun n _ => match n with O => Ok shock | _ => Ok opt end)
    simple_parse_qs
    (fun files pattern =>
       if String.eqb pattern "cards/*.png"
       then List.filter (fun p => bool_decide (is_Some (files !! p)))
              ["cards/Shock.png"; "cards/Opt.png"]
       else [])
    (fun _ _ => Ok (mkStatus 200 (Ok (JDict {[ "id_str" := JStr "1001" ]}))))
    [] (fun _ _ _ _ => black).

Definition run_web : Web :=
  mkWeb "https://api.scryfall.com/cards/random"
    (fun n _ => match n with 2%nat => Ok (FImage red_card) | _ => Ok (FImage blue_card) end)
    (fun _ => "?").

(** An environment whose [glob] lists two stale files of the card
    directory. *)
Definition stale_env : Env :=
  mkEnv "cards/" "../tweets.json" "ScryfallCardGolf"
    (fun _ _ => Raise ExternalError) simple_parse_qs
    (fun _ _ => ["cards/Shock.png"; "cards/Opt.png"])
    (fun _ _ => Raise ExternalError)
    [] (fun _ _ _ _ => black).

Definition stale_world : World :=
  mkWorld (<["../tweets.json" := FJson (JDict sample_db)]> card_files)
    [] sample_start 0 [].

(** What [download_and_save_card_images] needs of a card: the URL of its
    image, its name, and the body the download of that URL brings. *)
Record card_image : Type := mkCardImage {
  image_url : string;
  card_name : string;
  image_body : file
}.

Definition describes (card : json) (ci : card_image) : Prop :=
  (uris <~ getitem card "image_uris" ;; getitem uris "png") = Ok (JStr (image_url ci))
  /\ getitem card "name" = Ok (JStr (card_name ci)).

(** Where the image of a card is stored. *)
Definition card_path (env : Env) (ci : card_image) : string :=
  TEMP_CARD_DIR env ++ replace_slashes (card_name ci) ++ ".png".

Definition shock_image : card_image :=
  mkCardImage "https://img.scryfall.com/shock.png" "Shock" (FImage red_card).
Definition opt_image : card_image :=
  mkCardImage "https://img.scryfall.com/opt.png" "Opt" (FImage blue_card).

(** A world in which two requests have been made already: those of the
    draw of the two cards. *)
Definition drawn_world : World := mkWorld ∅ [] sample_start 2 [].

(* ===================================================================== *)
(** ** The JSON log: [write_to_json_db] and [load_json_db] *)
(* ===================================================================== *)

Lemma load_json_db_doc (file_name : string) (doc : json) (w : World) :
  fs w !! file_name = Some (FJson doc) ->
  load_json_db file_name w = (Ok doc, w).
Proof.
  intros Hf. unfold load_json_db, bind, isfile, json_load, ret.
  rewrite Hf. simpl. now rewrite Hf.
Qed.

Lemma load_json_db_missing (file_name : string) (w : World) :
  fs w !! file_name = None ->
  load_json_db file_name w = (Ok (JDict ∅), w).
Proof.
  intros Hf. unfold load_json_db, bind, isfile, ret.
  rewrite Hf. reflexivity.
Qed.

(** On an existing dict-shaped log, writing is an insertion at the key of
    the current second. *)
Lemma write_to_json_db_dict (file_name : string) (entry : json) (w : World)
    (d : gmap string json) :
  fs w !! file_name = Some (FJson (JDict d)) ->
  write_to_json_db file_name entry w =
    (Ok tt,
     set_fs (<[file_name := FJson (JDict (<[strftime (now w) := entry]> d))]> (fs w)) w).
Proof.
  intros Hf. unfold write_to_json_db, bind, isfile, json_load.
  rewrite Hf. simpl. rewrite Hf. reflexivity.
Qed.

Lemma write_then_load (file_name : string) (entry : json) (w : World)
    (d : gmap string json) :
  fs w !! file_name = Some (FJson (JDict d)) ->
  fst (load_json_db file_name (snd (write_to_json_db file_name entry w)))
    = Ok (JDict (<[strftime (now w) := entry]> d)).
Proof.
  intros Hf. rewrite (write_to_json_db_dict _ _ _ _ Hf). simpl.
  erewrite load_json_db_doc; [reflexivity|].
  simpl. apply lookup_insert_eq.
Qed.

(** C3, as amended.  For an existing dict-shaped log and any new entry,
    writing the entry and reading the log back gives a mapping that holds
    the new entry under the timestamp of the write and, under every other
    key, exactly what the log held before. *)
Theorem write_then_load_keeps_other_entries (file_name : string) (entry : json)
    (w : World) (d : gmap string json) :
  fs w !! file_name = Some (FJson (JDict d)) ->
  exists d' : gmap string json,
    fst (load_json_db file_name (snd (write_to_json_db file_name entry w)))
      = Ok (JDict d')
    /\ (forall k, k <> strftime (now w) -> d' !! k = d !! k)
    /\ d' !! strftime (now w) = Some entry.
Proof.
  intros Hf. exists (<[strftime (now w) := entry]> d).
  split; [now apply write_then_load|]. split.
  - intros k Hk. now apply lookup_insert_ne.
  - apply lookup_insert_eq.
Qed.

Lemma write_then_load_keeps_other_entries_witness :
  fs expired_world !! "../tweets.json" = Some (FJson (JDict sample_db))
  /\ exists d' : gmap string json,
      fst (load_json_db "../tweets.json"
             (snd (write_to_json_db "../tweets.json" second_entry expired_world)))
        = Ok (JDict d')
      /\ (forall k, k <> strftime (now expired_world) -> d' !! k = sample_db !! k)
      /\ d' !! strftime (now expired_world) = Some second_entry.
Proof.
  split; [reflexivity|].
  apply (write_then_load_keeps_other_entries "../tweets.json" second_entry
           expired_world sample_db).
  reflexivity.
Defined.

(** C3 as stated fails: a prior entry under the key of the current second
    is lost. *)
Lemma keeps_all_prior_entries_counterexample :
  ~ keeps_all_prior_entries "../tweets.json" second_entry same_second_world.
Proof.
  intros H.
  destruct (H sample_db eq_refl) as (d' & Hload & Hkeep & _).
  rewrite (write_then_load "../tweets.json" second_entry same_second_world
             sample_db eq_refl) in Hload.
  injection Hload as <-.
  specialize (Hkeep "2018-05-09_07:03:59" (sample_entry "1" "Shock" "Opt") eq_refl).
  vm_compute in Hkeep. discriminate.
Qed.

(** C10.  The key of a write is the wall clock cut to the second; when the
    log already holds an entry under that key, the write succeeds, the new
    entry takes the place of the old one, the other entries stay, and the
    log has as many entries as before. *)
Theorem write_same_second_replaces (file_name : string) (entry old : json)
    (w : World) (d : gmap string json) :
  fs w !! file_name = Some (FJson (JDict d)) ->
  d !! strftime (now w) = Some old ->
  exists d' : gmap string json,
    write_to_json_db file_name entry w
      = (Ok tt, set_fs (<[file_name := FJson (JDict d')]> (fs w)) w)
    /\ d' !! strftime (now w) = Some entry
    /\ (forall k, k <> strftime (now w) -> d' !! k = d !! k)
    /\ dom d' = dom d
    /\ size d' = size d.
Proof.
  intros Hf Hold. exists (<[strftime (now w) := entry]> d).
  split; [now apply write_to_json_db_dict|].
  split; [apply lookup_insert_eq|].
  split; [intros k Hk; now apply lookup_insert_ne|].
  assert (Hdom : dom (<[strftime (now w) := entry]> d) = dom d).
  { apply dom_insert_lookup_L. eauto. }
  split; [exact Hdom|].
  rewrite <- !size_dom. now rewrite Hdom.
Qed.

Lemma write_same_second_replaces_witness :
  (fs same_second_world !! "../tweets.json" = Some (FJson (JDict sample_db))
   /\ sample_db !! strftime (now same_second_world)
      = Some (sample_entry "1" "Shock" "Opt"))
  /\ exists d' : gmap string json,
      write_to_json_db "../tweets.json" second_entry same_second_world
        = (Ok tt, set_fs (<["../tweets.json" := FJson (JDict d')]>
                           (fs same_second_world)) same_second_world)
      /\ d' !! strftime (now same_second_world) = Some second_entry
      /\ (forall k, k <> strftime (now same_second_world) -> d' !! k = sample_db !! k)
      /\ dom d' = dom sample_db
      /\ size d' = size sample_db.
Proof.
  split; [split; reflexivity|].
  apply (write_same_second_replaces "../tweets.json" second_entry
           (sample_entry "1" "Shock" "Opt") same_second_world sample_db);
    reflexivity.
Defined.

(* ===================================================================== *)
(** ** The greatest key *)
(* ===================================================================== *)

Lemma ascii_compare_lt_trans (a b c : ascii) :
  Ascii.compare a b = Lt -> Ascii.compare b c = Lt -> Ascii.compare a c = Lt.
Proof.
  unfold Ascii.compare. rewrite !N.compare_lt_iff. lia.
Qed.

Lemma string_compare_lt_trans (a b c : string) :
  String.compare a b = Lt -> String.compare b c = Lt -> String.compare a c = Lt.
Proof.
  revert b c. induction a as [|x a IH]; intros [|y b] [|z c]; simpl;
    try discriminate; try reflexivity.
  destruct (Ascii.compare x y) eqn:Exy; try discriminate;
    destruct (Ascii.compare y z) eqn:Eyz; try discriminate; intros Hab Hbc.
  - apply Ascii.compare_eq_iff in Exy, Eyz. subst.
    assert (Hzz : Ascii.compare z z = Eq)
      by (unfold Ascii.compare; apply N.compare_refl).
    rewrite Hzz. eauto.
  - apply Ascii.compare_eq_iff in Exy. subst. now rewrite Eyz.
  - apply Ascii.compare_eq_iff in Eyz. subst. now rewrite Exy.
  - now rewrite (ascii_compare_lt_trans x y z).
Qed.

Lemma string_leb_refl (a : string) : String.leb a a = true.
Proof. destruct (String.leb_total a a); assumption. Qed.

Lemma string_leb_trans (a b c : string) :
  String.leb a b = true -> String.leb b c = true -> String.leb a c = true.
Proof.
  unfold String.leb.
  destruct (String.compare a b) eqn:Eab; try discriminate;
    destruct (String.compare b c) eqn:Ebc; try discriminate; intros _ _.
  - apply String.compare_eq_iff in Eab, Ebc. subst.
    apply (string_leb_refl c).
  - apply String.compare_eq_iff in Eab. subst. now rewrite Ebc.
  - apply String.compare_eq_iff in Ebc. subst. now rewrite Eab.
  - now rewrite (string_compare_lt_trans a b c).
Qed.

Lemma str_max_cases (a b : string) :
  (str_max a b = a \/ str_max a b = b)
  /\ String.leb a (str_max a b) = true /\ String.leb b (str_max a b) = true.
Proof.
  unfold str_max. destruct (String.leb a b) eqn:E.
  - repeat split; auto using string_leb_refl.
  - repeat split; auto using string_leb_refl.
    destruct (String.leb_total a b) as [H|H]; congruence.
Qed.

Lemma foldr_str_max (k : string) (l : list string) :
  foldr str_max k l ∈ k :: l
  /\ forall x, x ∈ k :: l -> String.leb x (foldr str_max k l) = true.
Proof.
  induction l as [|y l [IHin IHmax]]; simpl.
  - split; [left|]. intros x Hx. apply list_elem_of_singleton in Hx as ->.
    apply string_leb_refl.
  - destruct (str_max_cases y (foldr str_max k l)) as ([E|E] & Hy & Hr).
    + split; [rewrite E; right; left|].
      intros x Hx. apply elem_of_cons in Hx as [->|Hx].
      * eapply string_leb_trans; [apply IHmax; left | exact Hr].
      * apply elem_of_cons in Hx as [->|Hx]; [exact Hy|].
        eapply string_leb_trans; [apply IHmax; now right | exact Hr].
    + rewrite E. split.
      * apply elem_of_cons in IHin as [->|Hin]; [left | right; now right].
      * intros x Hx. rewrite <- E.
        apply elem_of_cons in Hx as [->|Hx].
        -- eapply string_leb_trans; [apply IHmax; left | exact Hr].
        -- apply elem_of_cons in Hx as [->|Hx]; [exact Hy|].
           eapply string_leb_trans; [apply IHmax; now right | exact Hr].
Qed.

(** [max(db.keys())] is a key of the log and no key is greater; it fails,
    with a [ValueError], on the empty log only. *)
Lemma max_key_greatest (d : gmap string json) (k : string) :
  max_key (JDict d) = Ok k ->
  is_Some (d !! k)
  /\ forall k', is_Some (d !! k') -> String.leb k' k = true.
Proof.
  unfold max_key, dict_keys, rbind, py_max.
  destruct ((map_to_list d).*1) as [|k0 l] eqn:E; [discriminate|].
  intros [= <-].
  destruct (foldr_str_max k0 l) as [Hin Hmax].
  assert (Hkeys : forall x, x ∈ k0 :: l <-> is_Some (d !! x)).
  { intros x. rewrite <- E. rewrite list_elem_of_fmap. split.
    - intros ([x' v] & -> & Hxv). apply elem_of_map_to_list in Hxv. eauto.
    - intros [v Hv]. exists (x, v). split; [reflexivity|].
      now apply elem_of_map_to_list. }
  split; [now apply Hkeys|].
  intros k' Hk'. apply Hmax. now apply Hkeys.
Qed.

Lemma max_key_empty : max_key (JDict ∅) = Raise ValueError.
Proof. reflexivity. Qed.

Lemma max_key_nonempty (d : gmap string json) (k0 : string) (v : json) :
  d !! k0 = Some v -> exists k, max_key (JDict d) = Ok k.
Proof.
  intros Hk. unfold max_key, dict_keys, rbind, py_max.
  destruct ((map_to_list d).*1) as [|k1 l] eqn:E; [|eauto].
  apply fmap_nil_inv in E. apply map_to_list_empty_iff in E. subst.
  rewrite lookup_empty in Hk. discriminate.
Qed.

Lemma max_key_error (d : gmap string json) (e : exn) :
  max_key (JDict d) = Raise e -> e = ValueError /\ d = ∅.
Proof.
  unfold max_key, dict_keys, rbind, py_max.
  destruct ((map_to_list d).*1) as [|k1 l] eqn:E; [|discriminate].
  intros [= <-]. split; [reflexivity|].
  apply fmap_nil_inv in E. now apply map_to_list_empty_iff in E.
Qed.

(* ===================================================================== *)
(** ** Calendar arithmetic *)
(* ===================================================================== *)

Lemma valid_datetime_bounds (d : datetime) :
  valid_datetime d = true ->
  1 <= year d <= 9999 /\ 1 <= month d <= 12 /\
  1 <= day d <= days_in_month (year d) (month d) /\
  0 <= hour d <= 23 /\ 0 <= minute d <= 59 /\ 0 <= second d <= 59 /\
  0 <= microsecond d <= 999999.
Proof.
  unfold valid_datetime. rewrite !andb_true_iff, !Z.leb_le. tauto.
Qed.

Lemma month_cases (m : Z) :
  1 <= m <= 12 ->
  m = 1 \/ m = 2 \/ m = 3 \/ m = 4 \/ m = 5 \/ m = 6 \/
  m = 7 \/ m = 8 \/ m = 9 \/ m = 10 \/ m = 11 \/ m = 12.
Proof. lia. Qed.

Ltac each_month H :=
  apply month_cases in H;
  repeat (destruct H as [H | H]); subst.

(** The days before a month and the days of that month add up to the days
    before the next month. *)
Lemma days_before_month_next (y m : Z) :
  1 <= m <= 11 ->
  days_before_month y (m + 1) = days_before_month y m + days_in_month y m.
Proof.
  intros Hm. assert (Hm' : 1 <= m <= 12) by lia.
  each_month Hm'; try lia;
    unfold days_before_month, days_in_month; simpl;
    destruct (is_leap y); reflexivity.
Qed.

Lemma days_before_month_december (y : Z) :
  days_before_month y 12 + days_in_month y 12
  = if is_leap y then 366 else 365.
Proof.
  unfold days_before_month, days_in_month; simpl.
  destruct (is_leap y); reflexivity.
Qed.

Lemma days_before_month_mono (y m1 m2 : Z) :
  1 <= m1 -> m1 < m2 -> m2 <= 12 ->
  days_before_month y m1 + days_in_month y m1 <= days_before_month y m2.
Proof.
  intros H1 H12 H2.
  assert (Ha : 1 <= m1 <= 12) by lia. assert (Hb : 1 <= m2 <= 12) by lia.
  each_month Ha; each_month Hb; try lia;
    unfold days_before_month, days_in_month; simpl;
    destruct (is_leap y); simpl; lia.
Qed.

Lemma days_in_month_bounds (y m : Z) : 28 <= days_in_month y m <= 31.
Proof.
  unfold days_in_month.
  repeat match goal with |- context [if ?b then _ else _] => destruct b end; lia.
Qed.

Lemma days_before_month_nonneg (y m : Z) : 0 <= days_before_month y m.
Proof.
  unfold days_before_month.
  destruct ((2 <? m) && is_leap y); destruct m as [|p|p]; try lia;
    repeat (destruct p as [p|p|]; try lia).
Qed.

Lemma days_before_year_next (y : Z) :
  days_before_year (y + 1) = days_before_year y + (if is_leap y then 366 else 365).
Proof.
  unfold days_before_year, is_leap.
  replace (y + 1 - 1) with (y - 1 + 1) by lia.
  destruct (y mod 4 =? 0) eqn:H4; destruct (y mod 100 =? 0) eqn:H100;
    destruct (y mod 400 =? 0) eqn:H400; simpl;
    rewrite ?Z.eqb_eq, ?Z.eqb_neq in *;
    Z.div_mod_to_equations; lia.
Qed.

Lemma days_before_year_mono (y1 y2 : Z) :
  y1 <= y2 -> days_before_year y1 <= days_before_year y2.
Proof.
  intros H. unfold days_before_year. Z.div_mod_to_equations. lia.
Qed.

(** Within its year, a valid date is day 1 to 365 (366 in a leap year). *)
Lemma day_of_year_bounds (y m d : Z) :
  1 <= m <= 12 -> 1 <= d <= days_in_month y m ->
  1 <= days_before_month y m + d <= if is_leap y then 366 else 365.
Proof.
  intros Hm Hd. split.
  - pose proof (days_before_month_nonneg y m). lia.
  - rewrite <- days_before_month_december.
    destruct (Z.eq_dec m 12) as [->|Hne]; [lia|].
    pose proof (days_before_month_mono y m 12).
    pose proof (days_in_month_bounds y 12). lia.
Qed.

(** The ordinal grows with the date, the fields compared in order. *)
Lemma toordinal_lt_year (a b : datetime) :
  valid_datetime a = true -> valid_datetime b = true ->
  year b < year a -> toordinal b < toordinal a.
Proof.
  intros Ha Hb Hy.
  apply valid_datetime_bounds in Ha as (_ & Hma & Hda & _).
  apply valid_datetime_bounds in Hb as (_ & Hmb & Hdb & _).
  unfold toordinal.
  pose proof (day_of_year_bounds (year a) (month a) (day a) Hma Hda) as [Ha1 _].
  pose proof (day_of_year_bounds (year b) (month b) (day b) Hmb Hdb) as [_ Hb2].
  pose proof (days_before_year_next (year b)) as Hn.
  pose proof (days_before_year_mono (year b + 1) (year a)).
  lia.
Qed.

Lemma toordinal_lt_month (a b : datetime) :
  valid_datetime a = true -> valid_datetime b = true ->
  year a = year b -> month b < month a -> toordinal b < toordinal a.
Proof.
  intros Ha Hb Hy Hm.
  apply valid_datetime_bounds in Ha as (_ & Hma & Hda & _).
  apply valid_datetime_bounds in Hb as (_ & Hmb & Hdb & _).
  unfold toordinal. rewrite Hy in *.
  pose proof (days_before_month_mono (year b) (month b) (month a)).
  lia.
Qed.

Lemma toordinal_same_month (a b : datetime) :
  year a = year b -> month a = month b ->
  toordinal a - toordinal b = day a - day b.
Proof. intros Hy Hm. unfold toordinal. rewrite Hy, Hm. lia. Qed.

(** Python's comparison of two naive datetimes agrees with the order of
    the instants they denote. *)
Lemma dt_gtb_to_micros (a b : datetime) :
  valid_datetime a = true -> valid_datetime b = true ->
  dt_gtb a b = true <-> to_micros b < to_micros a.
Proof.
  intros Ha Hb.
  pose proof (toordinal_lt_year a b Ha Hb) as Y1.
  pose proof (toordinal_lt_year b a Hb Ha) as Y2.
  pose proof (toordinal_lt_month a b Ha Hb) as M1.
  pose proof (toordinal_lt_month b a Hb Ha) as M2.
  pose proof (toordinal_same_month a b) as D.
  apply valid_datetime_bounds in Ha as (_ & _ & _ & Hha & Hmia & Hsa & Hua).
  apply valid_datetime_bounds in Hb as (_ & _ & _ & Hhb & Hmib & Hsb & Hub).
  unfold dt_gtb, dt_fields, lex_gtb, to_micros.
  rewrite !orb_true_iff, !andb_true_iff, !Z.ltb_lt, !Z.eqb_eq.
  set (oa := toordinal a) in *. set (ob := toordinal b) in *.
  split.
  - intros H.
    assert (oa < ob \/ oa = ob \/ ob < oa) as [Ho | [Ho | Ho]] by lia; lia.
  - intros H.
    assert (year a < year b \/ year a = year b \/ year b < year a)
      as [Hy | [Hy | Hy]] by lia; [lia | | lia].
    assert (month a < month b \/ month a = month b \/ month b < month a)
      as [Hm | [Hm | Hm]] by lia; [lia | | lia].
    specialize (D Hy Hm). lia.
Qed.

(** One calendar day later is 24 hours later. *)
Lemma add_one_day_to_micros (d d' : datetime) :
  valid_datetime d = true ->
  add_one_day d = Ok d' ->
  valid_datetime d' = true /\ to_micros d' = to_micros d + day_micros.
Proof.
  intros Hd Hadd.
  pose proof Hd as Hv.
  apply valid_datetime_bounds in Hd as (Hy & Hm & Hday & Hh & Hmi & Hs & Hu).
  unfold add_one_day in Hadd.
  assert (Hvalid : forall y m dd,
            1 <= y <= 9999 -> 1 <= m <= 12 -> 1 <= dd <= days_in_month y m ->
            valid_datetime (mkDatetime y m dd (hour d) (minute d) (second d)
                              (microsecond d)) = true).
  { intros y m dd ? ? ?. unfold valid_datetime; simpl.
    rewrite !andb_true_iff, !Z.leb_le. lia. }
  destruct (day d <? days_in_month (year d) (month d)) eqn:E1.
  - apply Z.ltb_lt in E1. injection Hadd as <-. split.
    + apply Hvalid; lia.
    + unfold to_micros, toordinal, day_micros; simpl. lia.
  - apply Z.ltb_ge in E1.
    destruct (month d <? 12) eqn:E2.
    + apply Z.ltb_lt in E2. injection Hadd as <-. split.
      * apply Hvalid; try lia.
        pose proof (days_in_month_bounds (year d) (month d + 1)). lia.
      * unfold to_micros, toordinal, day_micros; simpl.
        rewrite days_before_month_next by lia. lia.
    + apply Z.ltb_ge in E2.
      destruct (year d <? 9999) eqn:E3; [|discriminate].
      apply Z.ltb_lt in E3. injection Hadd as <-.
      assert (Hm12 : month d = 12) by lia.
      split.
      * apply Hvalid; try lia.
        pose proof (days_in_month_bounds (year d + 1) 1). lia.
      * unfold to_micros, toordinal, day_micros; simpl.
        rewrite days_before_year_next.
        pose proof (days_before_month_december (year d)) as Hdec.
        rewrite Hm12 in *.
        replace (days_before_month (year d + 1) 1) with 0
          by (unfold days_before_month; simpl; reflexivity).
        destruct (is_leap (year d)); lia.
Qed.

(** Only the last day of year 9999 has no next day. *)
Lemma add_one_day_ok (d : datetime) :
  year d < 9999 -> exists d', add_one_day d = Ok d'.
Proof.
  intros Hy. unfold add_one_day.
  destruct (day d <? _); [eauto|].
  destruct (month d <? 12); [eauto|].
  apply Z.ltb_lt in Hy. rewrite Hy. eauto.
Qed.

Lemma strptime_valid (s : string) (d : datetime) :
  strptime s = Ok d -> valid_datetime d = true.
Proof.
  unfold strptime.
  destruct (match_key s) as [d0|]; [|destruct (is_ascii_string s); discriminate].
  destruct (valid_datetime d0) eqn:E; [|discriminate].
  now intros [= <-].
Qed.

(* ===================================================================== *)
(** ** Keys: what [strftime] writes, [strptime] reads back *)
(* ===================================================================== *)

Lemma digit_cases (k : Z) :
  0 <= k <= 9 ->
  k = 0 \/ k = 1 \/ k = 2 \/ k = 3 \/ k = 4 \/ k = 5 \/ k = 6 \/ k = 7 \/ k = 8 \/ k = 9.
Proof. lia. Qed.

Lemma digit_val_digit (k : Z) : 0 <= k <= 9 -> digit_val (digit k) = Some k.
Proof.
  intros Hk. apply digit_cases in Hk.
  repeat (destruct Hk as [Hk | Hk]); subst; reflexivity.
Qed.

Lemma take_day_digit (k : Z) (b : ascii) (r : string) :
  0 <= k <= 9 ->
  take_day (String (digit k) (String b r))
  = take_field (fun x y => ((x =? 3) && (y <=? 1)) || (x =? 1) || (x =? 2)
                           || ((x =? 0) && (1 <=? y)))
               (fun x => 1 <=? x) (String (digit k) (String b r)).
Proof.
  intros Hk. apply digit_cases in Hk.
  repeat (destruct Hk as [Hk | Hk]); subst; reflexivity.
Qed.

Lemma pad2_digits (n : Z) :
  0 <= n <= 99 -> 0 <= n / 10 <= 9 /\ 0 <= n mod 10 <= 9 /\ 10 * (n / 10) + n mod 10 = n.
Proof. intros Hn. Z.div_mod_to_equations. lia. Qed.

(** A two-digit field is read back when its value is one the pattern of the
    field admits. *)
Lemma take_field_pad2 (two : Z -> Z -> bool) (one : Z -> bool) (n : Z) (rest : string) :
  0 <= n <= 99 ->
  two (n / 10) (n mod 10) = true ->
  take_field two one (pad2 n rest) = Some (n, rest).
Proof.
  intros Hn Htwo. destruct (pad2_digits n Hn) as (Hx & Hy & Hsum).
  unfold take_field, pad2.
  rewrite (digit_val_digit _ Hx), (digit_val_digit _ Hy), Htwo.
  now rewrite Hsum.
Qed.

Lemma take_year_pad4 (y : Z) (rest : string) :
  0 <= y <= 9999 -> take_year (pad4 y rest) = Some (y, rest).
Proof.
  intros Hy. unfold take_year, pad4, pad2.
  assert (H1 : 0 <= y / 1000 <= 9) by (Z.div_mod_to_equations; lia).
  assert (H2 : 0 <= y / 100 mod 10 <= 9) by (Z.div_mod_to_equations; lia).
  assert (H3 : 0 <= y mod 100 / 10 <= 9) by (Z.div_mod_to_equations; lia).
  assert (H4 : 0 <= y mod 100 mod 10 <= 9) by (Z.div_mod_to_equations; lia).
  rewrite (digit_val_digit _ H1), (digit_val_digit _ H2),
    (digit_val_digit _ H3), (digit_val_digit _ H4).
  f_equal. f_equal. Z.div_mod_to_equations. lia.
Qed.

Lemma take_day_pad2 (d : Z) (rest : string) :
  1 <= d <= 31 -> take_day (pad2 d rest) = Some (d, rest).
Proof.
  intros Hd. destruct (pad2_digits d ltac:(lia)) as (Hx & Hy & Hsum).
  unfold pad2 at 1. rewrite (take_day_digit _ _ _ Hx).
  apply take_field_pad2; [lia|].
  rewrite !orb_true_iff, !andb_true_iff, !Z.eqb_eq, !Z.leb_le. lia.
Qed.

(** [strftime] drops the microseconds; everything else comes back. *)
Lemma strptime_strftime (d : datetime) :
  valid_datetime d = true ->
  strptime (strftime d) = Ok (to_the_second d).
Proof.
  intros Hv. pose proof Hv as Hvalid.
  apply valid_datetime_bounds in Hv as (Hy & Hm & Hd & Hh & Hmi & Hs & Hu).
  pose proof (days_in_month_bounds (year d) (month d)) as Hdim.
  assert (Hmonth : forall rest, take_month (pad2 (month d) rest) = Some (month d, rest)).
  { intros rest. apply take_field_pad2; [lia|].
    destruct (pad2_digits (month d) ltac:(lia)) as (? & ? & ?).
    rewrite !orb_true_iff, !andb_true_iff, !Z.eqb_eq, !Z.leb_le. lia. }
  assert (Hhour : forall rest, take_hour (pad2 (hour d) rest) = Some (hour d, rest)).
  { intros rest. apply take_field_pad2; [lia|].
    destruct (pad2_digits (hour d) ltac:(lia)) as (? & ? & ?).
    rewrite !orb_true_iff, !andb_true_iff, !Z.eqb_eq, !Z.leb_le. lia. }
  assert (Hminute : forall rest,
             take_minute (pad2 (minute d) rest) = Some (minute d, rest)).
  { intros rest. apply take_field_pad2; [lia|].
    destruct (pad2_digits (minute d) ltac:(lia)) as (? & ? & ?).
    rewrite !Z.leb_le. lia. }
  assert (Hsecond : forall rest,
             take_second (pad2 (second d) rest) = Some (second d, rest)).
  { intros rest. apply take_field_pad2; [lia|].
    destruct (pad2_digits (second d) ltac:(lia)) as (? & ? & ?).
    rewrite !orb_true_iff, !andb_true_iff, !Z.eqb_eq, !Z.leb_le. lia. }
  unfold strptime, match_key, strftime.
  rewrite take_year_pad4 by lia.
  cbn -[pad2 take_month take_day take_hour take_minute take_second Z.div Z.modulo].
  rewrite Hmonth.
  cbn -[pad2 take_month take_day take_hour take_minute take_second Z.div Z.modulo].
  rewrite take_day_pad2 by lia.
  cbn -[pad2 take_month take_day take_hour take_minute take_second Z.div Z.modulo].
  rewrite Hhour.
  cbn -[pad2 take_month take_day take_hour take_minute take_second Z.div Z.modulo].
  rewrite Hminute.
  cbn -[pad2 take_month take_day take_hour take_minute take_second Z.div Z.modulo].
  rewrite Hsecond.
  cbn -[pad2 take_month take_day take_hour take_minute take_second Z.div Z.modulo
        valid_datetime].
  fold (to_the_second d).
  assert (Hvs : valid_datetime (to_the_second d) = true).
  { unfold valid_datetime, to_the_second; simpl.
    rewrite !andb_true_iff, !Z.leb_le. lia. }
  now rewrite Hvs.
Qed.

(* ===================================================================== *)
(** ** The liveness check *)
(* ===================================================================== *)

Section Liveness.

Variable env : Env.

(** C4.  When the log file is missing, or holds a mapping without entries,
    the check returns [False]; the only effect is one warning in the log
    output: no request is made and no file is written, so the results flow
    has not run.  When the log file is there and holds no JSON document (a
    file of zero bytes is one), [json.load] raises [JSONDecodeError] before
    the [try] is entered: the error leaves the check, nothing is logged
    and no [False] is returned. *)
Theorem is_active_contest_already_empty_log (w : World) :
  (fs w !! TWEET_DATABASE env = None
   \/ fs w !! TWEET_DATABASE env = Some (FJson (JDict ∅)) ->
   is_active_contest_already env w
   = (Ok false, add_log (mkLog WARNING "Database was empty, continuing" []) w))
  /\ (fs w !! TWEET_DATABASE env = Some FOther ->
      is_active_contest_already env w = (Raise JSONDecodeError, w)).
Proof.
  split.
  - intros Hlog. unfold is_active_contest_already, bind.
    assert (Hload : load_json_db (TWEET_DATABASE env) w = (Ok (JDict ∅), w)).
    { destruct Hlog as [Hnone | Hempty].
      - now apply load_json_db_missing.
      - now apply load_json_db_doc. }
    rewrite Hload. reflexivity.
  - intros Hlog.
    unfold is_active_contest_already, bind, load_json_db, bind, isfile, json_load.
    rewrite Hlog. simpl. rewrite Hlog. reflexivity.
Qed.

(** What the check does once the log is read and its greatest key parsed. *)
Lemma is_active_contest_already_parsed (w : World) (d : gmap string json)
    (k : string) (start finish : datetime) :
  fs w !! TWEET_DATABASE env = Some (FJson (JDict d)) ->
  max_key (JDict d) = Ok k ->
  strptime k = Ok start ->
  add_one_day start = Ok finish ->
  is_active_contest_already env w
  = if dt_gtb finish (now w)
    then (Ok true,
          add_log (mkLog WARNING "Current contest from {0} still active" [JStr k]) w)
    else (bind (scan_and_write_results env) (fun _ => ret false)) w.
Proof.
  intros Hf Hmax Hparse Hadd. unfold is_active_contest_already.
  unfold bind at 1. rewrite (load_json_db_doc _ _ _ Hf). rewrite Hmax.
  unfold bind at 1, lift at 1. rewrite Hparse.
  unfold bind at 1, lift at 1. rewrite Hadd.
  unfold bind at 1, datetime_now.
  destruct (dt_gtb finish (now w)); reflexivity.
Qed.

(** The window of a contest: the check answers [True] for less than 24 hours
    from the start that the greatest key records, and [False], after the
    results flow, from then on. *)
Lemma is_active_contest_already_window (w : World) (d : gmap string json)
    (k : string) (start : datetime) :
  fs w !! TWEET_DATABASE env = Some (FJson (JDict d)) ->
  max_key (JDict d) = Ok k ->
  strptime k = Ok start ->
  year start < 9999 ->
  valid_datetime (now w) = true ->
  (fst (is_active_contest_already env w) = Ok true
   <-> to_micros (now w) - to_micros start < day_micros)
  /\ (day_micros <= to_micros (now w) - to_micros start ->
      fst (scan_and_write_results env w) = Ok tt ->
      fst (is_active_contest_already env w) = Ok false).
Proof.
  intros Hf Hmax Hparse Hy Hnow.
  destruct (add_one_day_ok start Hy) as [finish Hadd].
  pose proof (strptime_valid _ _ Hparse) as Hstart.
  destruct (add_one_day_to_micros _ _ Hstart Hadd) as [Hfin Hmicros].
  pose proof (dt_gtb_to_micros finish (now w) Hfin Hnow) as Hcmp.
  rewrite (is_active_contest_already_parsed w d k start finish Hf Hmax Hparse Hadd).
  destruct (dt_gtb finish (now w)) eqn:E.
  - assert (to_micros (now w) < to_micros finish) by now apply Hcmp.
    split; [split; [lia | reflexivity] | lia].
  - assert (~ to_micros (now w) < to_micros finish)
      by (intros H; apply Hcmp in H; discriminate).
    split.
    + split; [|lia]. unfold bind.
      destruct (scan_and_write_results env w) as [[[]|e] w']; discriminate.
    + intros _ Hflow. unfold bind.
      destruct (scan_and_write_results env w) as [[[]|e] w']; [reflexivity|discriminate].
Qed.

(** C2.  Let the log be a dict whose greatest key parses as the start of a
    contest.  The check returns [True] exactly when less than 24 hours lie
    between that start and the current time; from 24 hours on it runs the
    results flow and, once that is through, returns [False]. *)
Theorem is_active_contest_already_24_hours (w : World) (d : gmap string json)
    (k : string) (start : datetime) :
  fs w !! TWEET_DATABASE env = Some (FJson (JDict d)) ->
  max_key (JDict d) = Ok k ->
  strptime k = Ok start ->
  year start < 9999 ->
  valid_datetime (now w) = true ->
  (fst (is_active_contest_already env w) = Ok true
   <-> to_micros (now w) - to_micros start < day_micros)
  /\ (day_micros <= to_micros (now w) - to_micros start ->
      fst (scan_and_write_results env w) = Ok tt ->
      fst (is_active_contest_already env w) = Ok false).
Proof. exact (is_active_contest_already_window w d k start). Qed.

Lemma max_key_insert_greatest (d : gmap string json) (k : string) (v : json) :
  (forall k', is_Some (d !! k') -> String.leb k' k = true) ->
  max_key (JDict (<[k := v]> d)) = Ok k.
Proof.
  intros Hle.
  destruct (max_key_nonempty (<[k := v]> d) k v (lookup_insert_eq d k v))
    as [k1 Hk1].
  rewrite Hk1. f_equal.
  destruct (max_key_greatest _ _ Hk1) as [Hin Hmax].
  apply String.leb_antisym.
  - destruct (decide (k = k1)) as [->|Hne]; [apply string_leb_refl|].
    apply Hle. now rewrite lookup_insert_ne in Hin.
  - apply Hmax. rewrite lookup_insert_eq. eauto.
Qed.

(** A contest that has just been recorded is live: after a write to the
    contest log at a time not before any of its keys, the check answers
    [True] exactly for the 24 hours that follow the second of the write. *)
Lemma new_contest_is_active (w w' : World) (d : gmap string json) (entry : json) :
  fs w !! TWEET_DATABASE env = Some (FJson (JDict d)) ->
  (forall k', is_Some (d !! k') -> String.leb k' (strftime (now w)) = true) ->
  valid_datetime (now w) = true -> year (now w) < 9999 ->
  fs w' = fs (snd (write_to_json_db (TWEET_DATABASE env) entry w)) ->
  valid_datetime (now w') = true ->
  fst (is_active_contest_already env w') = Ok true
  <-> to_micros (now w') - to_micros (to_the_second (now w)) < day_micros.
Proof.
  intros Hf Hkeys Hnow Hy Hfs Hnow'.
  rewrite (write_to_json_db_dict _ entry _ _ Hf) in Hfs. simpl in Hfs.
  apply (is_active_contest_already_window w'
           (<[strftime (now w) := entry]> d) (strftime (now w))
           (to_the_second (now w))).
  - rewrite Hfs. apply lookup_insert_eq.
  - now apply max_key_insert_greatest.
  - now apply strptime_strftime.
  - exact Hy.
  - exact Hnow'.
Qed.

End Liveness.

Lemma is_active_contest_already_empty_log_witness :
  ((fs (empty_world sample_start) !! TWEET_DATABASE quiet_env = None
    \/ fs (empty_world sample_start) !! TWEET_DATABASE quiet_env
       = Some (FJson (JDict ∅)))
   /\ is_active_contest_already quiet_env (empty_world sample_start)
      = (Ok false,
         add_log (mkLog WARNING "Database was empty, continuing" [])
           (empty_world sample_start)))
  /\ (fs zero_byte_log_world !! TWEET_DATABASE quiet_env = Some FOther
      /\ is_active_contest_already quiet_env zero_byte_log_world
         = (Raise JSONDecodeError, zero_byte_log_world)).
Proof.
  split; (split; [try left; reflexivity|]).
  - apply (proj1 (is_active_contest_already_empty_log quiet_env
                    (empty_world sample_start))).
    left. reflexivity.
  - apply (proj2 (is_active_contest_already_empty_log quiet_env
                    zero_byte_log_world)).
    reflexivity.
Defined.

(** C4 as stated fails: a log file of zero bytes is an empty log file, and
    on it the check raises instead of answering [False]. *)
Lemma empty_or_missing_log_not_active_counterexample :
  ~ empty_or_missing_log_not_active quiet_env zero_byte_log_world.
Proof.
  intros H.
  specialize (H (or_intror (or_introl eq_refl))).
  vm_compute in H. discriminate.
Qed.

Lemma is_active_contest_already_24_hours_witness :
  (fs expired_world !! TWEET_DATABASE quiet_env = Some (FJson (JDict sample_db))
   /\ max_key (JDict sample_db) = Ok "2018-05-09_07:03:59"
   /\ strptime "2018-05-09_07:03:59" = Ok sample_start
   /\ year sample_start < 9999
   /\ valid_datetime (now expired_world) = true)
  /\ (fst (is_active_contest_already quiet_env expired_world) = Ok true
      <-> to_micros (now expired_world) - to_micros sample_start < day_micros)
  /\ (day_micros <= to_micros (now expired_world) - to_micros sample_start ->
      fst (scan_and_write_results quiet_env expired_world) = Ok tt ->
      fst (is_active_contest_already quiet_env expired_world) = Ok false).
Proof.
  split; [repeat split; vm_compute; reflexivity|].
  apply (is_active_contest_already_24_hours quiet_env expired_world sample_db
           "2018-05-09_07:03:59" sample_start);
    vm_compute; reflexivity.
Defined.

(** The two directions on the sample log: an hour before the end of the
    window the contest is live, an hour after it is over. *)
Example is_active_within_window :
  fst (is_active_contest_already (sample_env JNull [])
         (sample_world (mkDatetime 2018 5 10 6 3 59 0))) = Ok true.
Proof. vm_compute. reflexivity. Qed.

Example is_active_after_window :
  fst (is_active_contest_already (sample_env JNull [])
         (sample_world (mkDatetime 2018 5 10 8 3 59 0))) = Ok false.
Proof. vm_compute. reflexivity. Qed.

(** At 24 hours to the microsecond the contest is over. *)
Example is_active_at_24_hours :
  fst (is_active_contest_already (sample_env JNull [])
         (sample_world (mkDatetime 2018 5 10 7 3 59 0))) = Ok false.
Proof. vm_compute. reflexivity. Qed.

(* ===================================================================== *)
(** ** Checking a reply: [test_query] *)
(* ===================================================================== *)

Lemma bind_ok {A B} (m : Py A) (k : A -> Py B) (w w1 : World) (a : A) :
  m w = (Ok a, w1) -> bind m k w = k a w1.
Proof. intros H. unfold bind. now rewrite H. Qed.

Lemma bind_raise {A B} (m : Py A) (k : A -> Py B) (w w1 : World) (e : exn) :
  m w = (Raise e, w1) -> bind m k w = (Raise e, w1).
Proof. intros H. unfold bind. now rewrite H. Qed.

Lemma bind_ok_inv {A B} (m : Py A) (k : A -> Py B) (w w' : World) (b : B) :
  bind m k w = (Ok b, w') ->
  exists a w1, m w = (Ok a, w1) /\ k a w1 = (Ok b, w').
Proof.
  unfold bind. destruct (m w) as [[a|e] w1]; [eauto | discriminate].
Qed.

Lemma lift_ok_inv {A} (r : result A) (w w' : World) (a : A) :
  lift r w = (Ok a, w') -> r = Ok a /\ w' = w.
Proof. unfold lift. now intros [= -> ->]. Qed.

(** Logging, counting requests and posting leave the files alone. *)
Lemma fs_add_log (r : log_record) (w : World) : fs (add_log r w) = fs w.
Proof. reflexivity. Qed.

Lemma fs_count_request (w : World) : fs (count_request w) = fs w.
Proof. reflexivity. Qed.

Section Query.

Variable env : Env.

(** The loop over the cards of the answer finds a wrong card exactly when
    some name is not one of the valid ones; it only writes to the log. *)
Lemma wrong_card_names (user_name : json) (valid_cards cards names : list json)
    (w : World) :
  Forall2 (fun card name => getitem card "name" = Ok name) cards names ->
  exists w',
    wrong_card user_name valid_cards cards w
    = (Ok (negb (forallb (fun n => py_in_list n valid_cards) names)), w')
    /\ fs w' = fs w.
Proof.
  intros Hnames. revert w.
  induction Hnames as [|card name cards names Hname _ IH]; intros w.
  - exists w. split; reflexivity.
  - simpl. unfold bind at 1, lift at 1. rewrite Hname.
    destruct (py_in_list name valid_cards) eqn:Ein; simpl.
    + apply IH.
    + eexists. split; reflexivity.
Qed.

(** The verdict of [test_query] when the search answers and the log holds a
    contest: the query comes back (the reply is accepted) exactly when
    every card of the answer bears one of the two contest names and the
    lowercased query has no ["or"] in it.  The count [total_cards] of the
    answer plays no part. *)
Lemma test_query_verdict (user_name : json) (scryfall_url : string) (w : World)
    (q : string) (qs : list string) (total_cards : json) (names : list json)
    (db : gmap string json) (name0 name1 : json) :
  parse_qs env scryfall_url !! "q" = Some (q :: qs) ->
  search_answers env w q total_cards names ->
  fs w !! TWEET_DATABASE env = Some (FJson (JDict db)) ->
  contest_names db name0 name1 ->
  fst (test_query env user_name scryfall_url w)
  = Ok (if forallb (fun n => py_in_list n [name0; name1]) names
           && negb (str_contains "or" (lower q))
        then q else "").
Proof.
  intros Hq (r & cards & Hget & Htotal & Hdata & Hnames) Hf
         (k & entry & cs & c0 & c1 & Hmax & Hentry & Hcs & Hc0 & Hn0 & Hc1 & Hn1).
  unfold test_query, try_except.
  unfold bind at 1, lift at 1. rewrite Hq. simpl (_ !! 0%nat).
  unfold bind at 1, download_contents, bind at 1. rewrite Hget.
  unfold bind at 1, logging at 1, ret at 1.
  set (w1 := add_log _ (count_request w)).
  assert (Hf1 : fs w1 !! TWEET_DATABASE env = Some (FJson (JDict db))) by exact Hf.
  unfold bind at 1, lift at 1, getitem at 1. rewrite Htotal.
  set (count_check := if negb (py_eqb total_cards (JInt 2)) then _ else _).
  assert (Hcheck : exists w2, count_check w1 = (Ok tt, w2) /\ fs w2 = fs w1).
  { unfold count_check. destruct (negb _); eexists; split; reflexivity. }
  destruct Hcheck as (w2 & Hcheck & Hfs2).
  rewrite (bind_ok _ _ _ _ _ Hcheck).
  assert (Hf2 : fs w2 !! TWEET_DATABASE env = Some (FJson (JDict db)))
    by now rewrite Hfs2.
  rewrite (bind_ok _ _ _ _ _ (load_json_db_doc _ _ _ Hf2)).
  unfold bind at 1, lift at 1. rewrite Hmax.
  unfold bind at 1, lift at 1, rbind, getitem at 1. rewrite Hentry, Hcs, Hc0, Hn0.
  unfold bind at 1, lift at 1, rbind, getitem at 1. rewrite Hentry, Hcs, Hc1, Hn1.
  unfold bind at 1, lift at 1, getitem at 1. rewrite Hdata.
  unfold bind at 1, lift at 1, py_iter.
  destruct (wrong_card_names user_name [name0; name1] cards names w2 Hnames)
    as (w3 & Hwrong & _).
  rewrite (bind_ok _ _ _ _ _ Hwrong).
  destruct (forallb _ names); simpl; [|reflexivity].
  destruct (str_contains "or" (lower q)); reflexivity.
Qed.

(** A query with ["or"] in its lowercased text is never returned. *)
Lemma test_query_or_not_returned (user_name : json) (scryfall_url : string)
    (w : World) (q : string) (qs : list string) (s : string) :
  parse_qs env scryfall_url !! "q" = Some (q :: qs) ->
  str_contains "or" (lower q) = true ->
  fst (test_query env user_name scryfall_url w) = Ok s -> s = "".
Proof.
  intros Hq Hor H. unfold test_query, try_except in H.
  match type of H with
  | fst (match ?b with _ => _ end) = _ => destruct b as [[s'|e] w'] eqn:Hb
  end.
  - simpl in H. injection H as ->.
    apply bind_ok_inv in Hb as (query & w1 & H1 & Hb).
    apply lift_ok_inv in H1 as [H1 ->].
    rewrite Hq in H1. simpl in H1. injection H1 as <-.
    do 9 (apply bind_ok_inv in Hb as (? & ? & _ & Hb)).
    apply bind_ok_inv in Hb as (wrong & ? & _ & Hb).
    destruct wrong.
    + now injection Hb as <-.
    + rewrite Hor in Hb. unfold bind, logging, ret in Hb. now injection Hb as <-.
  - destruct (is_KeyError e); simpl in H; [|discriminate].
    unfold bind, logging, ret in H. simpl in H. now injection H as <-.
Qed.

(** C9.  Let the lowercased query hold ["or"] anywhere, be it inside a
    longer word.  Then [test_query] never hands the query back; and when
    the search answers and the log holds a contest, whatever the cards of
    the answer (the two contest cards included), it returns the empty
    string: the reply is rejected. *)
Theorem test_query_rejects_or_substring (user_name : json) (scryfall_url : string)
    (w : World) (q : string) (qs : list string) :
  parse_qs env scryfall_url !! "q" = Some (q :: qs) ->
  str_contains "or" (lower q) = true ->
  (forall s, fst (test_query env user_name scryfall_url w) = Ok s -> s = "")
  /\ (forall (total_cards : json) (names : list json) (db : gmap string json)
             (name0 name1 : json),
        search_answers env w q total_cards names ->
        fs w !! TWEET_DATABASE env = Some (FJson (JDict db)) ->
        contest_names db name0 name1 ->
        fst (test_query env user_name scryfall_url w) = Ok "").
Proof.
  intros Hq Hor. split.
  - intros s. now apply (test_query_or_not_returned user_name scryfall_url w q qs).
  - intros total_cards names db name0 name1 Hans Hf Hnames.
    rewrite (test_query_verdict user_name scryfall_url w q qs total_cards names
               db name0 name1 Hq Hans Hf Hnames).
    rewrite Hor. now rewrite andb_false_r.
Qed.

End Query.

Lemma test_query_rejects_or_substring_witness :
  (parse_qs (sample_env (sample_answer 2 [sample_card "Shock"; sample_card "Opt"]) [])
     "https://scryfall.com/search?q=t:sorcery" !! "q" = Some ["t:sorcery"]
   /\ str_contains "or" (lower "t:sorcery") = true)
  /\ (forall s,
        fst (test_query
               (sample_env (sample_answer 2 [sample_card "Shock"; sample_card "Opt"]) [])
               (JStr "bob") "https://scryfall.com/search?q=t:sorcery" expired_world)
        = Ok s -> s = "")
  /\ (forall (total_cards : json) (names : list json) (db : gmap string json)
             (name0 name1 : json),
        search_answers
          (sample_env (sample_answer 2 [sample_card "Shock"; sample_card "Opt"]) [])
          expired_world "t:sorcery" total_cards names ->
        fs expired_world
          !! TWEET_DATABASE
               (sample_env (sample_answer 2 [sample_card "Shock"; sample_card "Opt"]) [])
        = Some (FJson (JDict db)) ->
        contest_names db name0 name1 ->
        fst (test_query
               (sample_env (sample_answer 2 [sample_card "Shock"; sample_card "Opt"]) [])
               (JStr "bob") "https://scryfall.com/search?q=t:sorcery" expired_world)
        = Ok "").
Proof.
  split; [split; reflexivity|].
  apply (test_query_rejects_or_substring
           (sample_env (sample_answer 2 [sample_card "Shock"; sample_card "Opt"]) [])
           (JStr "bob") "https://scryfall.com/search?q=t:sorcery" expired_world
           "t:sorcery" []);
    reflexivity.
Defined.

(** The same two cards: accepted with a plain query, rejected as soon as a
    word of the query holds ["or"], in any case of the letters. *)
Example test_query_plain :
  fst (test_query
         (sample_env (sample_answer 2 [sample_card "Shock"; sample_card "Opt"]) [])
         (JStr "bob") "https://scryfall.com/search?q=cmc=1" expired_world)
  = Ok "cmc=1".
Proof. vm_compute. reflexivity. Qed.

Example test_query_color :
  fst (test_query
         (sample_env (sample_answer 2 [sample_card "Shock"; sample_card "Opt"]) [])
         (JStr "bob") "https://scryfall.com/search?q=COLOR<=ur" expired_world)
  = Ok "".
Proof. vm_compute. reflexivity. Qed.

(** C1, where the code departs from it.  The answer to the query holds one
    card only (one of the two contest cards), or three (a contest card
    twice); the count is logged as wrong, and the query is accepted all the
    same. *)
Theorem test_query_accepts_wrong_card_count :
  fst (test_query (sample_env (sample_answer 1 [sample_card "Shock"]) [])
         (JStr "bob") "https://scryfall.com/search?q=!shock" expired_world)
  = Ok "!shock"
  /\ fst (test_query
            (sample_env (sample_answer 3 [sample_card "Shock"; sample_card "Opt";
                                          sample_card "Shock"]) [])
            (JStr "bob") "https://scryfall.com/search?q=cmc=1" expired_world)
     = Ok "cmc=1"
  /\ logged (snd (test_query (sample_env (sample_answer 1 [sample_card "Shock"]) [])
                    (JStr "bob") "https://scryfall.com/search?q=!shock" expired_world))
     = [ mkLog DEBUG "Downloaded URL {0}"
           [JStr "https://api.scryfall.com/cards/search?q=!shock"];
         mkLog INFO "{0} result has wrong number of cards: {1}" [JStr "bob"; JInt 1];
         mkLog INFO "{0} was correct! [ {1} ] ({2})"
           [JStr "bob"; JStr "!shock"; JInt 6] ].
Proof. repeat split; vm_compute; reflexivity. Qed.

(* ===================================================================== *)
(** ** The results scan: [get_results] *)
(* ===================================================================== *)

Section Scan.

Variable env : Env.

(** A turn of the loop breaks exactly on one of the two events. *)
Lemma scan_item_break (item : json) (acc acc' : list json) (w w' : World)
    (verdict : control) :
  scan_item env item acc w = (Ok (verdict, acc'), w') ->
  verdict = Break <-> ends_scan env item = true.
Proof.
  unfold scan_item, ends_scan, authored_by_bot, rate_limit_signal.
  intros H.
  apply bind_ok_inv in H as (has_text & w1 & H1 & H).
  apply lift_ok_inv in H1 as [-> ->].
  destruct has_text.
  - do 3 (apply bind_ok_inv in H as (? & ? & _ & H)).
    apply bind_ok_inv in H as (? & ? & _ & H).
    apply bind_ok_inv in H as (name & w5 & H5 & H).
    apply lift_ok_inv in H5 as [-> ->]. rewrite orb_false_r.
    destruct (py_eqb name _); injection H as <- _ _; split; congruence.
  - apply bind_ok_inv in H as (has_message & w2 & H2 & H).
    apply lift_ok_inv in H2 as [-> ->]. simpl.
    destruct has_message.
    + apply bind_ok_inv in H as (code & w3 & H3 & H).
      apply lift_ok_inv in H3 as [-> ->].
      destruct (py_eqb code (JInt 88)).
      * do 2 (apply bind_ok_inv in H as (? & ? & _ & H)).
        injection H as <- _ _. split; congruence.
      * injection H as <- _ _. split; congruence.
    + injection H as <- _ _. split; congruence.
Qed.

(** Nothing that follows an ending item is looked at. *)
Lemma scan_stops_at (pre post : list json) (item : json) (acc : list json)
    (w : World) :
  ends_scan env item = true ->
  scan env (pre ++ item :: post) acc w = scan env (pre ++ [item]) acc w.
Proof.
  intros Hend. revert acc w.
  induction pre as [|first pre IH]; intros acc w; simpl; unfold bind.
  - destruct (scan_item env item acc w) as [[[verdict acc']|e] w'] eqn:E;
      [|reflexivity].
    apply scan_item_break in E. destruct verdict; [|reflexivity].
    destruct E as [_ E]. specialize (E Hend). discriminate.
  - destruct (scan_item env first acc w) as [[[verdict acc']|e] w'];
      [|reflexivity].
    destruct verdict; [apply IH | reflexivity].
Qed.

(** Past items that do not end the scan, the scan goes on. *)
Lemma scan_goes_on (l l' : list json) (acc : list json) (w : World) :
  Forall (fun item => ends_scan env item = false) l ->
  scan env (l ++ l') acc w = bind (scan env l acc) (scan env l') w.
Proof.
  intros Hall. revert acc w.
  induction Hall as [|item l Hitem _ IH]; intros acc w; simpl.
  - reflexivity.
  - unfold bind.
    destruct (scan_item env item acc w) as [[[verdict acc']|e] w'] eqn:E;
      [|reflexivity].
    apply scan_item_break in E. destruct verdict; [apply IH|].
    destruct E as [E _]. specialize (E eq_refl). congruence.
Qed.

(** C8.  The loop of [get_results] leaves the reply stream before its end
    in two cases and no other: at a post of the bot's own account and at
    the rate-limit signal (code 88).  A turn breaks exactly on these; what
    comes after such an item has no bearing on the result or on the world
    left behind; and over items of another kind the scan carries on into
    the rest of the stream. *)
Theorem get_results_stops_at_bot_or_rate_limit :
  (forall item acc acc' w w' verdict,
      scan_item env item acc w = (Ok (verdict, acc'), w') ->
      verdict = Break
      <-> authored_by_bot env item = true \/ rate_limit_signal item = true)
  /\ (forall pre item post,
        authored_by_bot env item = true \/ rate_limit_signal item = true ->
        search_tweets env = (pre ++ item :: post)%list ->
        forall w, get_results env w
                  = bind (logging INFO "CONTEST OVER -- RESULTS" [])
                         (fun _ => scan env (pre ++ [item]) []) w)
  /\ (forall l l',
        Forall (fun item => authored_by_bot env item = false
                            /\ rate_limit_signal item = false) l ->
        search_tweets env = (l ++ l')%list ->
        forall w, get_results env w
                  = bind (logging INFO "CONTEST OVER -- RESULTS" [])
                         (fun _ => bind (scan env l []) (scan env l')) w).
Proof.
  split; [|split].
  - intros item acc acc' w w' verdict H.
    rewrite (scan_item_break item acc acc' w w' verdict H).
    unfold ends_scan. apply orb_true_iff.
  - intros pre item post Hend Hstream w. unfold get_results, bind at 1 2.
    unfold logging at 1 2. rewrite Hstream.
    apply scan_stops_at. unfold ends_scan. now apply orb_true_iff.
  - intros l l' Hall Hstream w. unfold get_results, bind at 1 2.
    unfold logging at 1 2. rewrite Hstream.
    apply scan_goes_on. eapply Forall_impl; [exact Hall|].
    intros item [H1 H2]. unfold ends_scan. now rewrite H1, H2.
Qed.

End Scan.

(** On the sample stream the reply that comes after the post of the bot is
    not looked at: one entry, one request to the card database. *)
Example get_results_sample :
  fst (get_results (stream_env sample_stream) expired_world)
  = Ok [JDict (<["name" := JStr "alice"]>
               (<["length" := JInt 5]> {[ "query" := JStr "cmc=1" ]}))]
  /\ http_requests (snd (get_results (stream_env sample_stream) expired_world)) = 1%nat
  /\ get_results (stream_env sample_stream) expired_world
     = get_results (stream_env (take 2 sample_stream)) expired_world.
Proof. repeat split; vm_compute; reflexivity. Qed.

Example get_results_rate_limited :
  fst (get_results (stream_env (sample_rate_limit :: sample_stream)) expired_world)
  = Ok [].
Proof. vm_compute. reflexivity. Qed.

Lemma get_results_stops_at_bot_or_rate_limit_witness :
  (authored_by_bot (stream_env sample_stream)
     (sample_reply "ScryfallCardGolf" "Can you make both of these cards show up"
        "https://scryfall.com/card/a") = true
   /\ rate_limit_signal sample_rate_limit = true)
  /\ get_results (stream_env sample_stream) expired_world
     = bind (logging INFO "CONTEST OVER -- RESULTS" [])
         (fun _ => scan (stream_env sample_stream) (take 2 sample_stream) [])
         expired_world.
Proof.
  split; [split; reflexivity|].
  apply (proj1 (proj2 (get_results_stops_at_bot_or_rate_limit
                         (stream_env sample_stream)))
           (take 1 sample_stream)
           (sample_reply "ScryfallCardGolf" "Can you make both of these cards show up"
              "https://scryfall.com/card/a")
           (drop 2 sample_stream)).
  - left. reflexivity.
  - reflexivity.
Defined.

(* ===================================================================== *)
(** ** Images: [merge_card_images] and [resize_image] *)
(* ===================================================================== *)

Lemma div_bounds (a b : Z) : 0 < b -> b * (a / b) <= a < b * (a / b) + b.
Proof.
  intros Hb. pose proof (Z.mul_div_le a b Hb).
  pose proof (Z.mul_succ_div_gt a b Hb). lia.
Qed.

(** The size [thumbnail] gives an image of [W] by [H] pixels under the bound
    of 1024 by 512: it fits the bound, it is the old size when that fits
    already, and it has the proportions of the old size up to the rounding
    to whole pixels. *)
Lemma thumbnail_size_fits (W H : Z) :
  1 <= W -> 1 <= H ->
  let size := thumbnail_size (1024, 512) (W, H) in
  1 <= fst size <= Z.min W 1024
  /\ 1 <= snd size <= Z.min H 512
  /\ (W <= 1024 -> H <= 512 -> size = (W, H))
  /\ Z.abs (fst size * H - snd size * W) < Z.max W H.
Proof.
  intros HW HH. unfold thumbnail_size. simpl fst. simpl snd.
  destruct (1024 <? W) eqn:E1.
  - apply Z.ltb_lt in E1.
    pose proof (div_bounds (H * 1024) W ltac:(lia)) as Hq.
    set (q := H * 1024 / W) in *.
    assert (Hq0 : 0 <= q) by (apply Z.div_pos; lia).
    destruct (512 <? Z.max q 1) eqn:E2.
    + apply Z.ltb_lt in E2. simpl.
      assert (Hmax : Z.max q 1 = q) by lia. rewrite Hmax in *.
      pose proof (div_bounds (1024 * 512) q ltac:(lia)) as Hp.
      set (p := 1024 * 512 / q) in *.
      assert (Hp0 : 0 <= p) by (apply Z.div_pos; lia).
      assert (Hp1024 : p <= 1024) by nia.
      destruct (Z.max_spec p 1) as [[? ->]|[? ->]];
        repeat split; try lia; try nia.
    + apply Z.ltb_ge in E2. simpl.
      destruct (Z.max_spec q 1) as [[? Hm]|[? Hm]]; rewrite Hm in *;
        repeat split; try lia; try nia.
  - apply Z.ltb_ge in E1.
    destruct (512 <? H) eqn:E2.
    + apply Z.ltb_lt in E2. simpl.
      pose proof (div_bounds (W * 512) H ltac:(lia)) as Hp.
      set (p := W * 512 / H) in *.
      assert (Hp0 : 0 <= p) by (apply Z.div_pos; lia).
      destruct (Z.max_spec p 1) as [[? ->]|[? ->]];
        repeat split; try lia; try nia.
    + apply Z.ltb_ge in E2. simpl. repeat split; try lia.
Qed.

Lemma max_Z_greatest (l : list Z) (m : Z) :
  max_Z l = Ok m -> m ∈ l /\ forall h, h ∈ l -> h <= m.
Proof.
  destruct l as [|h0 l]; [discriminate|]. simpl. intros [= <-].
  induction l as [|h l [IHin IHmax]]; simpl.
  - split; [left|]. intros h Hh. apply list_elem_of_singleton in Hh. lia.
  - split.
    + destruct (Z.max_spec h (foldr Z.max h0 l)) as [[_ ->]|[_ ->]].
      * apply elem_of_cons in IHin as [->|Hin]; [left | right; now right].
      * right; left.
    + intros x Hx.
      apply elem_of_cons in Hx as [->|Hx].
      * specialize (IHmax h0 ltac:(left)). lia.
      * apply elem_of_cons in Hx as [->|Hx]; [lia|].
        specialize (IHmax x ltac:(now right)). lia.
Qed.

Lemma sum_Z_nonneg (l : list Z) : Forall (fun x => 0 <= x) l -> 0 <= sum_Z l.
Proof. induction 1; simpl; lia. Qed.

Lemma sum_Z_pos (l : list Z) :
  l <> [] -> Forall (fun x => 1 <= x) l -> 1 <= sum_Z l.
Proof.
  intros Hne Hall. destruct Hall as [|x l Hx Hall]; [congruence|].
  change (sum_Z (x :: l)) with (x + sum_Z l).
  assert (0 <= sum_Z l).
  { apply sum_Z_nonneg. eapply Forall_impl; [exact Hall|]. simpl. lia. }
  lia.
Qed.

Lemma paste_list_size (canvas : image) (x_offset : Z) (ims : list image) :
  width (paste_list canvas x_offset ims) = width canvas
  /\ height (paste_list canvas x_offset ims) = height canvas.
Proof.
  revert canvas x_offset. induction ims as [|im ims IH]; intros; simpl.
  - split; reflexivity.
  - destruct (IH (paste canvas im x_offset 0) (x_offset + width im)) as [-> ->].
    split; reflexivity.
Qed.

(** Images pasted from [x_offset] on leave what lies left of it alone. *)
Lemma paste_list_left (canvas : image) (x_offset : Z) (ims : list image) (x y : Z) :
  Forall (fun im => 0 <= width im) ims ->
  x < x_offset ->
  pixel (paste_list canvas x_offset ims) x y = pixel canvas x y.
Proof.
  intros Hall. revert canvas x_offset.
  induction Hall as [|im ims Him _ IH]; intros canvas x_offset Hx; simpl.
  - reflexivity.
  - rewrite IH by lia. simpl.
    destruct (x_offset <=? x) eqn:E; [apply Z.leb_le in E; lia | reflexivity].
Qed.

(** Each image shows on the canvas, whole, to the right of those pasted
    before it. *)
Lemma paste_list_pixel (canvas : image) (x_offset : Z) (ims : list image)
    (i : nat) (im : image) (x y : Z) :
  Forall (fun im => 0 <= width im) ims ->
  ims !! i = Some im ->
  0 <= x < width im -> 0 <= y < height im ->
  0 <= x_offset ->
  x_offset + sum_Z (width <$> ims) <= width canvas ->
  height im <= height canvas ->
  pixel (paste_list canvas x_offset ims)
        (x_offset + sum_Z (width <$> take i ims) + x) y
  = pixel im x y.
Proof.
  intros Hall. revert canvas x_offset i.
  induction Hall as [|im0 ims Him0 Hall IH]; intros canvas x_offset i Hi Hx Hy Hoff Hw Hh.
  - rewrite lookup_nil in Hi. discriminate.
  - pose proof (sum_Z_nonneg (width <$> ims)) as Hsum.
    assert (0 <= sum_Z (width <$> ims)).
    { apply Hsum. apply Forall_fmap. exact Hall. }
    change (sum_Z (width <$> im0 :: ims))
      with (width im0 + sum_Z (width <$> ims)) in Hw.
    destruct i as [|i]; simpl in Hi; simpl paste_list; simpl take.
    + injection Hi as ->.
      change (sum_Z (width <$> [])) with 0.
      rewrite paste_list_left by (assumption || lia). simpl.
      replace (x_offset + 0 + x - x_offset) with x by lia.
      replace (y - 0) with y by lia.
      destruct (x_offset <=? x_offset + 0 + x) eqn:E1; [|apply Z.leb_gt in E1; lia].
      destruct (x_offset + 0 + x <? x_offset + width im) eqn:E2;
        [|apply Z.ltb_ge in E2; lia].
      destruct (x_offset + 0 + x <? width canvas) eqn:E3;
        [|apply Z.ltb_ge in E3; lia].
      destruct (0 <=? y) eqn:E4; [|apply Z.leb_gt in E4; lia].
      destruct (y <? 0 + height im) eqn:E5; [|apply Z.ltb_ge in E5; lia].
      destruct (y <? height canvas) eqn:E6; [|apply Z.ltb_ge in E6; lia].
      reflexivity.
    + change (sum_Z (width <$> im0 :: take i ims))
        with (width im0 + sum_Z (width <$> take i ims)).
      replace (x_offset + (width im0 + sum_Z (width <$> take i ims)) + x)
        with ((x_offset + width im0) + sum_Z (width <$> take i ims) + x) by lia.
      apply IH; simpl; try assumption; lia.
Qed.

Lemma PIL_open_image (path : string) (im : image) (w : World) :
  holds_image (fs w) path im -> PIL_open path w = (Ok im, w).
Proof. unfold holds_image, PIL_open. now intros ->. Qed.

Lemma open_all_images (paths : list string) (ims : list image) (w : World) :
  Forall2 (holds_image (fs w)) paths ims ->
  open_all paths w = (Ok ims, w).
Proof.
  induction 1 as [|path im paths ims Him _ IH]; simpl; [reflexivity|].
  rewrite (bind_ok _ _ _ _ _ (PIL_open_image _ _ _ Him)).
  now rewrite (bind_ok _ _ _ _ _ IH).
Qed.

Lemma paste_all_images (canvas : image) (x_offset : Z) (paths : list string)
    (ims : list image) (w : World) :
  Forall2 (holds_image (fs w)) paths ims ->
  paste_all canvas x_offset paths w = (Ok (paste_list canvas x_offset ims), w).
Proof.
  intros Hall. revert canvas x_offset.
  induction Hall as [|path im paths ims Him _ IH]; intros; simpl; [reflexivity|].
  rewrite (bind_ok _ _ _ _ _ (PIL_open_image _ _ _ Him)). apply IH.
Qed.

Section Images.

Variable env : Env.

Lemma thumbnail_dims (bound : Z * Z) (im : image) :
  (width (thumbnail env bound im), height (thumbnail env bound im))
  = thumbnail_size bound (width im, height im).
Proof.
  unfold thumbnail. case_bool_decide as E.
  - now rewrite E.
  - cbn [width height]. now destruct (thumbnail_size bound (width im, height im)).
Qed.

Lemma thumbnail_unchanged (bound : Z * Z) (im : image) :
  thumbnail_size bound (width im, height im) = (width im, height im) ->
  thumbnail env bound im = im.
Proof.
  intros H. unfold thumbnail. now rewrite bool_decide_eq_true_2.
Qed.

(** [resize_image] never raises: a readable image is replaced by its
    thumbnail, an unreadable one is reported and left. *)
Lemma resize_image_readable (url_to_open : string) (im : image) (w : World) :
  holds_image (fs w) url_to_open im ->
  resize_image env url_to_open w
  = (Ok tt,
     set_fs (<[url_to_open := FImage (thumbnail env (1024, 512) im)]> (fs w)) w).
Proof.
  intros Him. unfold resize_image, try_except.
  now rewrite (bind_ok _ _ _ _ _ (PIL_open_image _ _ _ Him)).
Qed.

Lemma resize_image_open_fails (url_to_open : string) (w : World) :
  fst (PIL_open url_to_open w) = Raise IOError ->
  resize_image env url_to_open w
  = (Ok tt,
     add_log (mkLog ERROR "Cannot create thumbnail for {0}" [JStr url_to_open]) w).
Proof.
  intros Hopen. unfold resize_image, try_except, bind.
  unfold PIL_open in *.
  destruct (fs w !! url_to_open) as [[doc|im|]|]; try reflexivity.
  discriminate.
Qed.

(** An image cannot be opened when its file is missing or holds no image,
    and the failure is always an [IOError]. *)
Lemma PIL_open_fails (path : string) (w : World) :
  (forall im, fs w !! path <> Some (FImage im)) <->
  fst (PIL_open path w) = Raise IOError.
Proof.
  unfold PIL_open. destruct (fs w !! path) as [[doc|im|]|]; simpl; split;
    try reflexivity; try discriminate; try congruence.
  intros H. now specialize (H im).
Qed.

(** C6.  When the image cannot be opened, [resize_image] returns normally:
    its one effect is an error in the log output, and the files, the one at
    [url_to_open] among them, are as they were. *)
Theorem resize_image_unreadable (url_to_open : string) (w : World) :
  fst (PIL_open url_to_open w) = Raise IOError ->
  fst (resize_image env url_to_open w) = Ok tt
  /\ fs (snd (resize_image env url_to_open w)) = fs w
  /\ logged (snd (resize_image env url_to_open w))
     = (logged w ++
        [mkLog ERROR "Cannot create thumbnail for {0}" [JStr url_to_open]])%list
  /\ snd (resize_image env url_to_open w)
     = add_log (mkLog ERROR "Cannot create thumbnail for {0}" [JStr url_to_open]) w.
Proof.
  intros Hopen. rewrite (resize_image_open_fails url_to_open w Hopen).
  repeat split.
Qed.

Lemma resize_image_ok (url_to_open : string) (w : World) :
  fst (resize_image env url_to_open w) = Ok tt.
Proof.
  unfold resize_image, try_except, bind, PIL_open.
  destruct (fs w !! url_to_open) as [[doc|im|]|]; reflexivity.
Qed.

(** C7.  Let [glob] list the card images, all of them readable and none
    empty.  [merge_card_images] saves a canvas as wide as the images
    together and as high as the highest of them, on which each image shows
    in full, to the right of those listed before it; [resize_image], which
    [send_tweet] runs on the saved file, replaces the canvas by its
    thumbnail: at most 1024 by 512 pixels, the canvas itself when it fits
    already, and of the same proportions up to the rounding to pixels. *)
Theorem merge_card_images_side_by_side (cards : list json) (w : World)
    (paths : list string) (ims : list image) (card0 card1 : json)
    (name0 name1 : string) :
  glob env (fs w) (TEMP_CARD_DIR env ++ "*.png") = paths ->
  Forall2 (holds_image (fs w)) paths ims ->
  Forall (fun im => 1 <= width im /\ 1 <= height im) ims ->
  ims <> [] ->
  cards !! 0%nat = Some card0 -> card_file_name card0 = Ok name0 ->
  cards !! 1%nat = Some card1 -> card_file_name card1 = Ok name1 ->
  exists (canvas : image) (w' w'' : World),
    merge_card_images env cards w
    = (Ok (TEMP_CARD_DIR env ++ "/" ++ name0 ++ "-" ++ name1 ++ ".png"), w')
    /\ holds_image (fs w')
         (TEMP_CARD_DIR env ++ "/" ++ name0 ++ "-" ++ name1 ++ ".png") canvas
    /\ width canvas = sum_Z (width <$> ims)
    /\ max_Z (height <$> ims) = Ok (height canvas)
    /\ (forall (i : nat) (im : image) (x y : Z),
          ims !! i = Some im -> 0 <= x < width im -> 0 <= y < height im ->
          pixel canvas (sum_Z (width <$> take i ims) + x) y = pixel im x y)
    /\ resize_image env
         (TEMP_CARD_DIR env ++ "/" ++ name0 ++ "-" ++ name1 ++ ".png") w'
       = (Ok tt, w'')
    /\ holds_image (fs w'')
         (TEMP_CARD_DIR env ++ "/" ++ name0 ++ "-" ++ name1 ++ ".png")
         (thumbnail env (1024, 512) canvas)
    /\ 1 <= width (thumbnail env (1024, 512) canvas) <= 1024
    /\ 1 <= height (thumbnail env (1024, 512) canvas) <= 512
    /\ (width canvas <= 1024 -> height canvas <= 512 ->
        thumbnail env (1024, 512) canvas = canvas)
    /\ Z.abs (width (thumbnail env (1024, 512) canvas) * height canvas
              - height (thumbnail env (1024, 512) canvas) * width canvas)
       < Z.max (width canvas) (height canvas).
Proof.
  intros Hglob Hims Hsizes Hne Hc0 Hn0 Hc1 Hn1.
  set (save_url := TEMP_CARD_DIR env ++ "/" ++ name0 ++ "-" ++ name1 ++ ".png").
  destruct (max_Z (height <$> ims)) as [max_height|e] eqn:Hmax;
    [|destruct ims; [congruence | discriminate]].
  set (total_width := sum_Z (width <$> ims)).
  set (canvas := paste_list (new_image total_width max_height) 0 ims).
  destruct (paste_list_size (new_image total_width max_height) 0 ims) as [Hcw Hch].
  fold canvas in Hcw, Hch. simpl in Hcw, Hch.
  destruct (max_Z_greatest _ _ Hmax) as [Hmax_in Hmax_ge].
  assert (Hwidths : Forall (fun im => 0 <= width im) ims).
  { eapply Forall_impl; [exact Hsizes|]. simpl. intros im [? ?]. lia. }
  assert (Hw1 : 1 <= width canvas).
  { rewrite Hcw. unfold total_width. apply sum_Z_pos.
    - intros Hnil. apply fmap_nil_inv in Hnil. congruence.
    - apply Forall_fmap. eapply Forall_impl; [exact Hsizes|].
      simpl. intros ? [? ?]. lia. }
  assert (Hh1 : 1 <= height canvas).
  { rewrite Hch. apply list_elem_of_fmap in Hmax_in as (im & -> & Him).
    rewrite Forall_forall in Hsizes. destruct (Hsizes im Him). lia. }
  exists canvas, (add_log (mkLog DEBUG "Saved merged image to {0}" [JStr save_url])
                    (set_fs (<[save_url := FImage canvas]> (fs w)) w)).
  eexists.
  assert (Hsaved : holds_image
            (fs (add_log (mkLog DEBUG "Saved merged image to {0}" [JStr save_url])
                   (set_fs (<[save_url := FImage canvas]> (fs w)) w)))
            save_url canvas).
  { unfold holds_image. simpl. apply lookup_insert_eq. }
  split; [|split; [exact Hsaved|]].
  { unfold merge_card_images. unfold bind at 1. rewrite Hglob.
    rewrite (bind_ok _ _ _ _ _ (open_all_images _ _ _ Hims)).
    unfold bind at 1, lift at 1. rewrite Hmax.
    rewrite (bind_ok _ _ _ _ _ (paste_all_images _ 0 _ _ _ Hims)).
    unfold bind at 1, lift at 1. rewrite Hc0, Hn0.
    unfold bind at 1, lift at 1. rewrite Hc1, Hn1.
    reflexivity. }
  split; [exact Hcw|]. split; [now rewrite Hch|].
  split.
  { intros i im x y Hi Hx Hy.
    pose proof (paste_list_pixel (new_image total_width max_height) 0 ims i im x y
                  Hwidths Hi Hx Hy) as Hpix.
    simpl in Hpix. apply Hpix; [lia | unfold total_width; lia |].
    apply Hmax_ge. apply list_elem_of_fmap. exists im. split; [reflexivity|].
    eapply list_elem_of_lookup_2; eauto. }
  split; [apply (resize_image_readable _ _ _ Hsaved)|].
  split; [unfold holds_image; simpl; apply lookup_insert_eq|].
  pose proof (thumbnail_dims (1024, 512) canvas) as Hdims.
  pose proof (thumbnail_size_fits (width canvas) (height canvas) Hw1 Hh1) as Hfit.
  cbv zeta in Hfit. rewrite <- Hdims in Hfit. cbn [fst snd] in Hfit.
  destruct Hfit as (Hfw & Hfh & Hsame & Hratio).
  split; [lia|]. split; [lia|]. split; [|exact Hratio].
  intros Hw Hh. apply thumbnail_unchanged. rewrite <- Hdims. now apply Hsame.
Qed.

End Images.

Lemma resize_image_unreadable_witness :
  fst (PIL_open "cards/Shock.png" broken_world) = Raise IOError
  /\ fst (resize_image image_env "cards/Shock.png" broken_world) = Ok tt
  /\ fs (snd (resize_image image_env "cards/Shock.png" broken_world))
     = fs broken_world
  /\ logged (snd (resize_image image_env "cards/Shock.png" broken_world))
     = (logged broken_world ++
        [mkLog ERROR "Cannot create thumbnail for {0}" [JStr "cards/Shock.png"]])%list
  /\ snd (resize_image image_env "cards/Shock.png" broken_world)
     = add_log (mkLog ERROR "Cannot create thumbnail for {0}"
                  [JStr "cards/Shock.png"]) broken_world.
Proof.
  split; [reflexivity|].
  apply (resize_image_unreadable image_env "cards/Shock.png" broken_world).
  reflexivity.
Defined.

Lemma merge_card_images_side_by_side_witness :
  (glob image_env (fs image_world) (TEMP_CARD_DIR image_env ++ "*.png")
   = ["cards/Shock.png"; "cards/Opt.png"]
   /\ Forall2 (holds_image (fs image_world)) ["cards/Shock.png"; "cards/Opt.png"]
        [red_card; blue_card]
   /\ Forall (fun im => 1 <= width im /\ 1 <= height im) [red_card; blue_card]
   /\ [red_card; blue_card] <> []
   /\ two_cards !! 0%nat = Some (sample_card "Shock")
   /\ card_file_name (sample_card "Shock") = Ok "Shock"
   /\ two_cards !! 1%nat = Some (sample_card "Opt")
   /\ card_file_name (sample_card "Opt") = Ok "Opt")
  /\ exists (canvas : image) (w' w'' : World),
      merge_card_images image_env two_cards image_world
      = (Ok (TEMP_CARD_DIR image_env ++ "/" ++ "Shock" ++ "-" ++ "Opt" ++ ".png"), w')
      /\ holds_image (fs w')
           (TEMP_CARD_DIR image_env ++ "/" ++ "Shock" ++ "-" ++ "Opt" ++ ".png") canvas
      /\ width canvas = sum_Z (width <$> [red_card; blue_card])
      /\ max_Z (height <$> [red_card; blue_card]) = Ok (height canvas)
      /\ (forall (i : nat) (im : image) (x y : Z),
            [red_card; blue_card] !! i = Some im ->
            0 <= x < width im -> 0 <= y < height im ->
            pixel canvas (sum_Z (width <$> take i [red_card; blue_card]) + x) y
            = pixel im x y)
      /\ resize_image image_env
           (TEMP_CARD_DIR image_env ++ "/" ++ "Shock" ++ "-" ++ "Opt" ++ ".png") w'
         = (Ok tt, w'')
      /\ holds_image (fs w'')
           (TEMP_CARD_DIR image_env ++ "/" ++ "Shock" ++ "-" ++ "Opt" ++ ".png")
           (thumbnail image_env (1024, 512) canvas)
      /\ 1 <= width (thumbnail image_env (1024, 512) canvas) <= 1024
      /\ 1 <= height (thumbnail image_env (1024, 512) canvas) <= 512
      /\ (width canvas <= 1024 -> height canvas <= 512 ->
          thumbnail image_env (1024, 512) canvas = canvas)
      /\ Z.abs (width (thumbnail image_env (1024, 512) canvas) * height canvas
                - height (thumbnail image_env (1024, 512) canvas) * width canvas)
         < Z.max (width canvas) (height canvas).
Proof.
  assert (Hims : Forall2 (holds_image (fs image_world))
                   ["cards/Shock.png"; "cards/Opt.png"] [red_card; blue_card])
    by (repeat constructor).
  assert (Hsizes : Forall (fun im => 1 <= width im /\ 1 <= height im)
                     [red_card; blue_card])
    by (repeat constructor; simpl; lia).
  split.
  - split; [reflexivity|]. split; [exact Hims|]. split; [exact Hsizes|].
    split; [discriminate|]. repeat split; reflexivity.
  - apply (merge_card_images_side_by_side image_env two_cards image_world
             ["cards/Shock.png"; "cards/Opt.png"] [red_card; blue_card]
             (sample_card "Shock") (sample_card "Opt") "Shock" "Opt");
      try reflexivity; try assumption; discriminate.
Defined.

(** The 5 by 4 canvas of the sample: red on the left, blue on the right,
    the background where the lower card ends. *)
Example merged_sample_pixels :
  match fs (snd (merge_card_images image_env two_cards image_world))
          !! "cards//Shock-Opt.png" with
  | Some (FImage canvas) =>
      (width canvas, height canvas) = (5, 4)
      /\ pixel canvas 0 0 = (255, 0, 0) /\ pixel canvas 2 1 = (255, 0, 0)
      /\ pixel canvas 3 0 = (0, 0, 255) /\ pixel canvas 4 3 = (0, 0, 255)
      /\ pixel canvas 1 3 = black
  | _ => False
  end.
Proof. vm_compute. repeat split; reflexivity. Qed.

(** Two card scans of 745 by 1040 pixels make a canvas of 1490 by 1040,
    which the thumbnail brings down to 734 by 512. *)
Example thumbnail_size_two_cards :
  thumbnail_size (1024, 512) (745 + 745, 1040) = (734, 512).
Proof. reflexivity. Qed.

(* ===================================================================== *)
(** ** Posting: [send_tweet] *)
(* ===================================================================== *)

Section Posting.

Variable env : Env.

(** [send_tweet] up to the request: the message is logged, the image is
    resized, the file is opened. *)
Lemma send_tweet_request (message url : string) (w w1 : World) (photo : file) :
  snd (resize_image env url
         (add_log (mkLog DEBUG "Tweet to send: {0}" [JStr message]) w)) = w1 ->
  fs w1 !! url = Some photo ->
  fst (send_tweet env message (Some url) w)
  = match (st <~ update_with_media env message photo ;;
           response <~ status_json st ;;
           getitem response "id_str") with
    | Ok id => Ok id
    | Raise e => if is_UnicodeDecodeError e then Ok (JInt (-1)) else Raise e
    end.
Proof.
  intros Hw1 Hphoto. unfold send_tweet.
  unfold bind at 1, logging at 1.
  unfold bind at 1, try_except, bind at 1.
  pose proof (resize_image_ok env url
                (add_log (mkLog DEBUG "Tweet to send: {0}" [JStr message]) w)) as Hok.
  destruct (resize_image env url _) as [r w1'] eqn:Hresize.
  simpl in Hok, Hw1. subst r w1'.
  unfold bind at 1, open_rb. rewrite Hphoto.
  unfold bind at 1, twitter_request, rbind.
  destruct (update_with_media env message photo) as [st|e];
    [|destruct (is_UnicodeDecodeError e); reflexivity].
  unfold bind at 1, logging at 1.
  unfold bind at 1, lift at 1.
  destruct (status_json st) as [response|e];
    [|destruct (is_UnicodeDecodeError e); reflexivity].
  unfold bind at 1, logging at 1.
  unfold bind at 1, lift at 1.
  destruct (getitem response "id_str") as [id|e];
    [reflexivity | destruct (is_UnicodeDecodeError e); reflexivity].
Qed.





(** What is posted is the thumbnail of the image at [url]. *)
Lemma send_tweet_posts_thumbnail (message url : string) (w : World)
    (canvas : image) (st : twitter_status) :
  holds_image (fs w) url canvas ->
  update_with_media env message (FImage (thumbnail env (1024, 512) canvas)) = Ok st ->
  posted (snd (send_tweet env message (Some url) w))
  = (posted w ++ [(message, FImage (thumbnail env (1024, 512) canvas))])%list.
Proof.
  intros Him Hreq. unfold send_tweet.
  unfold bind at 1, logging at 1.
  unfold bind at 1, try_except, bind at 1.
  rewrite (resize_image_readable env url canvas
             (add_log (mkLog DEBUG "Tweet to send: {0}" [JStr message]) w) Him).
  unfold bind at 1, open_rb. simpl fs. rewrite lookup_insert_eq.
  unfold bind at 1, twitter_request. rewrite Hreq.
  unfold bind at 1, logging at 1.
  unfold bind at 1, lift at 1.
  destruct (status_json st) as [response|e].
  - unfold bind at 1, logging at 1.
    unfold bind at 1, lift at 1.
    destruct (getitem response "id_str") as [id|e]; [reflexivity|].
    destruct (is_UnicodeDecodeError e); reflexivity.
  - destruct (is_UnicodeDecodeError e); reflexivity.
Qed.

End Posting.



(* ===================================================================== *)
(** ** More on the JSON log *)
(* ===================================================================== *)

Lemma write_to_json_db_new_dict (file_name : string) (d : gmap string json)
    (w : World) :
  fs w !! file_name = None ->
  write_to_json_db file_name (JDict d) w
  = (Ok tt,
     set_fs (<[file_name := FJson (JDict {[ strftime (now w) := JDict d ]})]> (fs w)) w).
Proof.
  intros Hf. unfold write_to_json_db, bind, isfile. rewrite Hf. reflexivity.
Qed.

Lemma write_to_json_db_new_list (file_name : string) (l : list json) (w : World) :
  fs w !! file_name = None ->
  write_to_json_db file_name (JList l) w
  = (Ok tt, set_fs (<[file_name := FJson (JList l)]> (fs w)) w).
Proof.
  intros Hf. unfold write_to_json_db, bind, isfile. rewrite Hf. reflexivity.
Qed.

Lemma write_to_json_db_list (file_name : string) (old l : list json) (w : World) :
  fs w !! file_name = Some (FJson (JList old)) ->
  write_to_json_db file_name (JList l) w
  = (Ok tt, set_fs (<[file_name := FJson (JList (old ++ l))]> (fs w)) w).
Proof.
  intros Hf. unfold write_to_json_db, bind, isfile, json_load.
  rewrite Hf. simpl. rewrite Hf. reflexivity.
Qed.

(** The first contest.  On a log file that does not exist yet, writing a
    dict entry and reading the log back gives the mapping with that one
    entry, under the timestamp of the write. *)
Theorem first_write_creates_single_entry_log (file_name : string)
    (d : gmap string json) (w : World) :
  fs w !! file_name = None ->
  fst (write_to_json_db file_name (JDict d) w) = Ok tt
  /\ fst (load_json_db file_name (snd (write_to_json_db file_name (JDict d) w)))
     = Ok (JDict {[ strftime (now w) := JDict d ]}).
Proof.
  intros Hf. rewrite (write_to_json_db_new_dict _ _ _ Hf). split; [reflexivity|].
  erewrite load_json_db_doc; [reflexivity|]. simpl. apply lookup_insert_eq.
Qed.

Lemma first_write_creates_single_entry_log_witness :
  fs (empty_world sample_start) !! "../tweets.json" = None
  /\ fst (write_to_json_db "../tweets.json" (JDict sample_db)
            (empty_world sample_start)) = Ok tt
  /\ fst (load_json_db "../tweets.json"
            (snd (write_to_json_db "../tweets.json" (JDict sample_db)
                    (empty_world sample_start))))
     = Ok (JDict {[ strftime (now (empty_world sample_start)) := JDict sample_db ]}).
Proof.
  split; [reflexivity|].
  apply (first_write_creates_single_entry_log "../tweets.json" sample_db
           (empty_world sample_start)).
  reflexivity.
Defined.

(** Results lists pile up.  Writing a list to a file that does not exist
    and then a second list to the same file leaves the two lists one after
    the other: the second write extends, it does not replace. *)
Theorem list_writes_accumulate (file_name : string) (first second : list json)
    (w : World) :
  fs w !! file_name = None ->
  fst (write_to_json_db file_name (JList second)
         (snd (write_to_json_db file_name (JList first) w))) = Ok tt
  /\ fst (load_json_db file_name
            (snd (write_to_json_db file_name (JList second)
                    (snd (write_to_json_db file_name (JList first) w)))))
     = Ok (JList (first ++ second)).
Proof.
  intros Hf. rewrite (write_to_json_db_new_list _ _ _ Hf). simpl snd.
  erewrite write_to_json_db_list; [|simpl; apply lookup_insert_eq].
  split; [reflexivity|].
  erewrite load_json_db_doc; [reflexivity|]. simpl. apply lookup_insert_eq.
Qed.

Lemma list_writes_accumulate_witness :
  fs (empty_world sample_start) !! "../winners_2018-05-09_07:03:59.json" = None
  /\ fst (write_to_json_db "../winners_2018-05-09_07:03:59.json" (JList more_results)
            (snd (write_to_json_db "../winners_2018-05-09_07:03:59.json"
                    (JList first_results) (empty_world sample_start)))) = Ok tt
  /\ fst (load_json_db "../winners_2018-05-09_07:03:59.json"
            (snd (write_to_json_db "../winners_2018-05-09_07:03:59.json"
                    (JList more_results)
                    (snd (write_to_json_db "../winners_2018-05-09_07:03:59.json"
                            (JList first_results) (empty_world sample_start))))))
     = Ok (JList (first_results ++ more_results)).
Proof.
  split; [reflexivity|].
  apply (list_writes_accumulate "../winners_2018-05-09_07:03:59.json"
           first_results more_results (empty_world sample_start)).
  reflexivity.
Defined.

(** A write at a second that the log has no entry for adds one entry: all
    prior entries stay as they were and the log grows by one. *)
Theorem write_fresh_key_adds_entry (file_name : string) (entry : json)
    (w : World) (d : gmap string json) :
  fs w !! file_name = Some (FJson (JDict d)) ->
  d !! strftime (now w) = None ->
  exists d' : gmap string json,
    fst (load_json_db file_name (snd (write_to_json_db file_name entry w)))
      = Ok (JDict d')
    /\ (forall k v, d !! k = Some v -> d' !! k = Some v)
    /\ d' !! strftime (now w) = Some entry
    /\ size d' = S (size d).
Proof.
  intros Hf Hnew. exists (<[strftime (now w) := entry]> d).
  split; [now apply write_then_load|]. split; [|split].
  - intros k v Hk. rewrite lookup_insert_ne; [exact Hk|]. congruence.
  - apply lookup_insert_eq.
  - now apply map_size_insert_None.
Qed.

Lemma write_fresh_key_adds_entry_witness :
  (fs expired_world !! "../tweets.json" = Some (FJson (JDict sample_db))
   /\ sample_db !! strftime (now expired_world) = None)
  /\ exists d' : gmap string json,
      fst (load_json_db "../tweets.json"
             (snd (write_to_json_db "../tweets.json" second_entry expired_world)))
        = Ok (JDict d')
      /\ (forall k v, sample_db !! k = Some v -> d' !! k = Some v)
      /\ d' !! strftime (now expired_world) = Some second_entry
      /\ size d' = S (size sample_db).
Proof.
  split; [split; reflexivity|].
  apply (write_fresh_key_adds_entry "../tweets.json" second_entry expired_world
           sample_db); reflexivity.
Defined.

(** A log that cannot be read is not written over: when the file exists
    and is not a JSON document, the write fails with an exception of the
    [ValueError] family and the world is left as it was. *)
Theorem write_to_unreadable_log_fails (file_name : string) (entry : json)
    (w : World) :
  (fs w !! file_name = Some FOther \/ exists im, fs w !! file_name = Some (FImage im)) ->
  exists e, write_to_json_db file_name entry w = (Raise e, w)
            /\ is_ValueError e = true.
Proof.
  intros Hf. unfold write_to_json_db, bind, isfile, json_load.
  destruct Hf as [Hf | [im Hf]]; rewrite Hf; simpl; rewrite Hf;
    eexists; split; reflexivity.
Qed.

Lemma write_to_unreadable_log_fails_witness :
  (fs damaged_log_world !! "../tweets.json" = Some FOther
   \/ exists im, fs damaged_log_world !! "../tweets.json" = Some (FImage im))
  /\ exists e, write_to_json_db "../tweets.json" second_entry damaged_log_world
               = (Raise e, damaged_log_world)
               /\ is_ValueError e = true.
Proof.
  split; [left; reflexivity|].
  apply (write_to_unreadable_log_fails "../tweets.json" second_entry
           damaged_log_world).
  left. reflexivity.
Defined.

(** A write either fails and changes nothing, or succeeds and puts one JSON
    document in the named file. *)
Lemma write_to_json_db_cases (file_name : string) (entry : json) (w : World) :
  (exists e, write_to_json_db file_name entry w = (Raise e, w))
  \/ (exists doc, write_to_json_db file_name entry w
                  = (Ok tt, set_fs (<[file_name := FJson doc]> (fs w)) w)).
Proof.
  unfold write_to_json_db, bind, isfile, json_load, json_dump, time_strftime,
    ret, lift.
  destruct (fs w !! file_name) as [[doc|im|]|] eqn:Hf; cbn -[iadd]; rewrite ?Hf.
  - destruct doc as [| b | n | s | l | d]; cbn -[iadd];
      try (destruct (iadd _ entry) as [doc'|e]); eauto.
  - eauto.
  - eauto.
  - destruct (is_dict entry); cbn; eauto.
Qed.

(** A write touches the named file only: whatever the outcome, every other
    file is as before and nothing is logged, requested or posted; after a
    write that succeeded the named file holds a JSON document. *)
Theorem write_to_json_db_frame (file_name : string) (entry : json) (w : World) :
  (forall other, other <> file_name ->
     fs (snd (write_to_json_db file_name entry w)) !! other = fs w !! other)
  /\ logged (snd (write_to_json_db file_name entry w)) = logged w
  /\ http_requests (snd (write_to_json_db file_name entry w)) = http_requests w
  /\ posted (snd (write_to_json_db file_name entry w)) = posted w
  /\ (fst (write_to_json_db file_name entry w) = Ok tt ->
      exists doc, fs (snd (write_to_json_db file_name entry w)) !! file_name
                  = Some (FJson doc)).
Proof.
  destruct (write_to_json_db_cases file_name entry w) as [[e ->] | [doc ->]]; simpl.
  - repeat split; try reflexivity. discriminate.
  - repeat split; try reflexivity.
    + intros other Hne. now apply lookup_insert_ne.
    + intros _. eexists. apply lookup_insert_eq.
Qed.

(* ===================================================================== *)
(** ** More on keys and the liveness check *)
(* ===================================================================== *)

Lemma ascii_compare_digit (a b : Z) :
  0 <= a <= 9 -> 0 <= b <= 9 -> Ascii.compare (digit a) (digit b) = (a ?= b).
Proof.
  intros Ha Hb. apply digit_cases in Ha. apply digit_cases in Hb.
  repeat (destruct Ha as [Ha | Ha]); subst;
    repeat (destruct Hb as [Hb | Hb]); subst; reflexivity.
Qed.

Lemma string_compare_same_head (c : ascii) (r1 r2 : string) :
  String.compare (String c r1) (String c r2) = String.compare r1 r2.
Proof.
  simpl. unfold Ascii.compare. now rewrite N.compare_refl.
Qed.

Lemma string_compare_digit (a b : Z) (r1 r2 : string) :
  0 <= a <= 9 -> 0 <= b <= 9 ->
  String.compare (String (digit a) r1) (String (digit b) r2)
  = then_cmp (a ?= b) (String.compare r1 r2).
Proof.
  intros Ha Hb. cbn [String.compare]. rewrite (ascii_compare_digit a b Ha Hb).
  now destruct (a ?= b).
Qed.

Lemma string_compare_pad2 (n m : Z) (r1 r2 : string) :
  0 <= n <= 99 -> 0 <= m <= 99 ->
  String.compare (pad2 n r1) (pad2 m r2)
  = then_cmp (n ?= m) (String.compare r1 r2).
Proof.
  intros Hn Hm.
  destruct (pad2_digits n Hn) as (Hx1 & Hy1 & Hs1).
  destruct (pad2_digits m Hm) as (Hx2 & Hy2 & Hs2).
  unfold pad2. rewrite !string_compare_digit by assumption.
  destruct (Z.compare_spec (n / 10) (m / 10));
    destruct (Z.compare_spec (n mod 10) (m mod 10));
    destruct (Z.compare_spec n m); try lia; reflexivity.
Qed.

Lemma string_compare_pad4 (n m : Z) (r1 r2 : string) :
  0 <= n <= 9999 -> 0 <= m <= 9999 ->
  String.compare (pad4 n r1) (pad4 m r2)
  = then_cmp (n ?= m) (String.compare r1 r2).
Proof.
  intros Hn Hm. unfold pad4.
  assert (Ha1 : 0 <= n / 1000 <= 9) by (Z.div_mod_to_equations; lia).
  assert (Ha2 : 0 <= n / 100 mod 10 <= 9) by (Z.div_mod_to_equations; lia).
  assert (Ha3 : 0 <= n mod 100 <= 99) by (Z.div_mod_to_equations; lia).
  assert (Hb1 : 0 <= m / 1000 <= 9) by (Z.div_mod_to_equations; lia).
  assert (Hb2 : 0 <= m / 100 mod 10 <= 9) by (Z.div_mod_to_equations; lia).
  assert (Hb3 : 0 <= m mod 100 <= 99) by (Z.div_mod_to_equations; lia).
  assert (Hn' : n = 1000 * (n / 1000) + 100 * (n / 100 mod 10) + n mod 100)
    by (Z.div_mod_to_equations; lia).
  assert (Hm' : m = 1000 * (m / 1000) + 100 * (m / 100 mod 10) + m mod 100)
    by (Z.div_mod_to_equations; lia).
  rewrite !string_compare_digit by assumption.
  rewrite string_compare_pad2 by assumption.
  destruct (Z.compare_spec (n / 1000) (m / 1000));
    destruct (Z.compare_spec (n / 100 mod 10) (m / 100 mod 10));
    destruct (Z.compare_spec (n mod 100) (m mod 100));
    destruct (Z.compare_spec n m); try lia; reflexivity.
Qed.

(** Two keys compare as their dates and times do, field by field. *)
Lemma string_compare_strftime (a b : datetime) :
  valid_datetime a = true -> valid_datetime b = true ->
  String.compare (strftime a) (strftime b)
  = chain_cmp [year a; month a; day a; hour a; minute a; second a]
              [year b; month b; day b; hour b; minute b; second b].
Proof.
  intros Ha Hb.
  apply valid_datetime_bounds in Ha as (Hya & Hma & Hda & Hha & Hmia & Hsa & _).
  apply valid_datetime_bounds in Hb as (Hyb & Hmb & Hdb & Hhb & Hmib & Hsb & _).
  pose proof (days_in_month_bounds (year a) (month a)).
  pose proof (days_in_month_bounds (year b) (month b)).
  unfold strftime, chain_cmp.
  rewrite string_compare_pad4 by lia. rewrite string_compare_same_head.
  rewrite string_compare_pad2 by lia. rewrite string_compare_same_head.
  rewrite string_compare_pad2 by lia. rewrite string_compare_same_head.
  rewrite string_compare_pad2 by lia. rewrite string_compare_same_head.
  rewrite string_compare_pad2 by lia. rewrite string_compare_same_head.
  rewrite string_compare_pad2 by lia. reflexivity.
Qed.

Lemma lex_gtb_chain_cmp (a b : list Z) :
  lex_gtb a b = true <-> chain_cmp a b = Gt.
Proof.
  revert b. induction a as [|x a IH]; intros [|y b]; simpl;
    try (split; discriminate).
  destruct (Z.compare_spec x y) as [-> | Hlt | Hgt]; simpl.
  - rewrite Z.ltb_irrefl, Z.eqb_refl. simpl. apply IH.
  - assert ((y <? x) = false) as -> by (apply Z.ltb_ge; lia).
    assert ((x =? y) = false) as -> by (apply Z.eqb_neq; lia).
    simpl. split; discriminate.
  - assert ((y <? x) = true) as -> by (apply Z.ltb_lt; lia).
    simpl. split; reflexivity.
Qed.

Lemma chain_cmp_trailing_zero (a b : list Z) :
  List.length a = List.length b ->
  chain_cmp (a ++ [0])%list (b ++ [0])%list = chain_cmp a b.
Proof.
  revert b. induction a as [|x a IH]; intros [|y b] Hlen; simpl in *;
    try discriminate; [reflexivity|].
  rewrite IH by lia. reflexivity.
Qed.

Lemma valid_to_the_second (t : datetime) :
  valid_datetime t = true -> valid_datetime (to_the_second t) = true.
Proof.
  intros Hv. apply valid_datetime_bounds in Hv.
  unfold valid_datetime, to_the_second; simpl.
  rewrite !andb_true_iff, !Z.leb_le. lia.
Qed.

Lemma strftime_leb_time (a b : datetime) :
  valid_datetime a = true -> valid_datetime b = true ->
  String.leb (strftime a) (strftime b) = true
  <-> to_micros (to_the_second a) <= to_micros (to_the_second b).
Proof.
  intros Ha Hb.
  pose proof (dt_gtb_to_micros (to_the_second a) (to_the_second b)
                (valid_to_the_second a Ha) (valid_to_the_second b Hb)) as Hgt.
  unfold dt_gtb in Hgt. rewrite lex_gtb_chain_cmp in Hgt.
  change (dt_fields (to_the_second a))
    with ([year a; month a; day a; hour a; minute a; second a] ++ [0])%list in Hgt.
  change (dt_fields (to_the_second b))
    with ([year b; month b; day b; hour b; minute b; second b] ++ [0])%list in Hgt.
  rewrite chain_cmp_trailing_zero in Hgt by reflexivity.
  rewrite <- (string_compare_strftime a b Ha Hb) in Hgt.
  unfold String.leb.
  destruct (String.compare (strftime a) (strftime b)) eqn:E.
  - split; [intros _ | reflexivity].
    destruct (Z.le_gt_cases (to_micros (to_the_second a))
                (to_micros (to_the_second b))) as [H|H]; [exact H|].
    apply Hgt in H. discriminate.
  - split; [intros _ | reflexivity].
    destruct (Z.le_gt_cases (to_micros (to_the_second a))
                (to_micros (to_the_second b))) as [H|H]; [exact H|].
    apply Hgt in H. discriminate.
  - split; [discriminate|]. intros H.
    assert (to_micros (to_the_second b) < to_micros (to_the_second a))
      by now apply Hgt.
    lia.
Qed.

(** The key that a write stores is read back, by the [strptime] of the
    liveness check, as the time of the write cut to the second. *)
Theorem key_reads_back_as_time_of_write (t : datetime) :
  valid_datetime t = true ->
  strptime (strftime t) = Ok (to_the_second t).
Proof. exact (strptime_strftime t). Qed.

Lemma key_reads_back_as_time_of_write_witness :
  valid_datetime (mkDatetime 2018 5 9 7 3 59 250000) = true
  /\ strptime (strftime (mkDatetime 2018 5 9 7 3 59 250000))
     = Ok (to_the_second (mkDatetime 2018 5 9 7 3 59 250000)).
Proof.
  split; [reflexivity|].
  apply (key_reads_back_as_time_of_write (mkDatetime 2018 5 9 7 3 59 250000)).
  reflexivity.
Defined.

(** The order of the keys, as strings, is the order of the times they
    record: the format puts the year first and pads every field. *)
Theorem key_order_is_time_order (a b : datetime) :
  valid_datetime a = true -> valid_datetime b = true ->
  String.leb (strftime a) (strftime b) = true
  <-> to_micros (to_the_second a) <= to_micros (to_the_second b).
Proof. exact (strftime_leb_time a b). Qed.

Lemma key_order_is_time_order_witness :
  (valid_datetime (mkDatetime 2018 12 31 23 59 59 0) = true
   /\ valid_datetime (mkDatetime 2019 1 1 0 0 0 0) = true)
  /\ (String.leb (strftime (mkDatetime 2018 12 31 23 59 59 0))
                 (strftime (mkDatetime 2019 1 1 0 0 0 0)) = true
      <-> to_micros (to_the_second (mkDatetime 2018 12 31 23 59 59 0))
          <= to_micros (to_the_second (mkDatetime 2019 1 1 0 0 0 0))).
Proof.
  split; [split; reflexivity|].
  apply (key_order_is_time_order (mkDatetime 2018 12 31 23 59 59 0)
           (mkDatetime 2019 1 1 0 0 0 0)); reflexivity.
Defined.

(** The greatest key is the latest contest: in a log whose keys the clock
    wrote, [max(db.keys())] is the key of a time that no other key's time
    comes after. *)
Theorem max_key_is_latest_contest (d : gmap string json) (k : string) :
  max_key (JDict d) = Ok k ->
  keys_written_by_clock d ->
  exists t,
    valid_datetime t = true /\ k = strftime t
    /\ forall t', valid_datetime t' = true -> is_Some (d !! strftime t') ->
                  to_micros (to_the_second t') <= to_micros (to_the_second t).
Proof.
  intros Hmax Hkeys.
  destruct (max_key_greatest d k Hmax) as [Hin Hge].
  destruct (Hkeys k Hin) as (t & Ht & ->).
  exists t. split; [exact Ht|]. split; [reflexivity|].
  intros t' Ht' Hin'. apply (strftime_leb_time t' t Ht' Ht). now apply Hge.
Qed.

Lemma two_contest_db_keys : keys_written_by_clock two_contest_db.
Proof.
  intros k [v Hk]. unfold two_contest_db, sample_db in Hk.
  destruct (decide (k = "2018-05-10_09:30:00")) as [->|Hne1].
  - exists (mkDatetime 2018 5 10 9 30 0 0). split; reflexivity.
  - rewrite lookup_insert_ne in Hk by congruence.
    destruct (decide (k = "2018-05-09_07:03:59")) as [->|Hne2].
    + exists sample_start. split; reflexivity.
    + rewrite lookup_singleton_ne in Hk by congruence. discriminate.
Qed.

Lemma max_key_is_latest_contest_witness :
  (max_key (JDict two_contest_db) = Ok "2018-05-10_09:30:00"
   /\ keys_written_by_clock two_contest_db)
  /\ exists t,
      valid_datetime t = true /\ "2018-05-10_09:30:00" = strftime t
      /\ forall t', valid_datetime t' = true ->
                    is_Some (two_contest_db !! strftime t') ->
                    to_micros (to_the_second t') <= to_micros (to_the_second t).
Proof.
  split; [split; [vm_compute; reflexivity | exact two_contest_db_keys]|].
  apply (max_key_is_latest_contest two_contest_db "2018-05-10_09:30:00").
  - vm_compute; reflexivity.
  - exact two_contest_db_keys.
Defined.

Section MoreLiveness.

Variable env : Env.

(** What the log reads as decides what a write of a dict entry leaves. *)
Lemma write_dict_entry_after_load (file_name : string) (e d : gmap string json)
    (w : World) :
  fst (load_json_db file_name w) = Ok (JDict d) ->
  write_to_json_db file_name (JDict e) w
  = (Ok tt,
     set_fs (<[file_name := FJson (JDict (<[strftime (now w) := JDict e]> d))]>
               (fs w)) w).
Proof.
  intros Hload.
  destruct (fs w !! file_name) as [[doc|im|]|] eqn:Hf.
  - rewrite (load_json_db_doc _ _ _ Hf) in Hload. simpl in Hload.
    injection Hload as ->. now apply write_to_json_db_dict.
  - unfold load_json_db, bind, isfile, json_load in Hload.
    rewrite Hf in Hload. simpl in Hload. rewrite Hf in Hload. discriminate.
  - unfold load_json_db, bind, isfile, json_load in Hload.
    rewrite Hf in Hload. simpl in Hload. rewrite Hf in Hload. discriminate.
  - rewrite (load_json_db_missing _ _ Hf) in Hload. simpl in Hload.
    injection Hload as <-. rewrite (write_to_json_db_new_dict _ _ _ Hf).
    reflexivity.
Qed.

(** A contest that has just been recorded is live for 24 hours.  Let the
    log (missing, or a mapping) hold keys the clock wrote, none for a later
    second than now.  After a dict entry is written to it, the liveness
    check, run at any later time on these files, answers [True] exactly
    when less than 24 hours have passed since the second of the write. *)
Theorem contest_just_recorded_is_live (w w' : World) (d e : gmap string json) :
  fst (load_json_db (TWEET_DATABASE env) w) = Ok (JDict d) ->
  keys_written_by_clock d ->
  (forall t, valid_datetime t = true -> is_Some (d !! strftime t) ->
             to_micros (to_the_second t) <= to_micros (to_the_second (now w))) ->
  valid_datetime (now w) = true -> year (now w) < 9999 ->
  fs w' = fs (snd (write_to_json_db (TWEET_DATABASE env) (JDict e) w)) ->
  valid_datetime (now w') = true ->
  fst (is_active_contest_already env w') = Ok true
  <-> to_micros (now w') - to_micros (to_the_second (now w)) < day_micros.
Proof.
  intros Hload Hkeys Hlate Hnow Hy Hfs Hnow'.
  rewrite (write_dict_entry_after_load _ e d w Hload) in Hfs. simpl in Hfs.
  apply (is_active_contest_already_window env w'
           (<[strftime (now w) := JDict e]> d) (strftime (now w))
           (to_the_second (now w))).
  - rewrite Hfs. apply lookup_insert_eq.
  - apply max_key_insert_greatest. intros k' Hk'.
    destruct (Hkeys k' Hk') as (t & Ht & ->).
    apply (strftime_leb_time t (now w) Ht Hnow). now apply Hlate.
  - now apply strptime_strftime.
  - exact Hy.
  - exact Hnow'.
Qed.

(** A greatest key of ASCII characters that is no timestamp makes the
    check fail: the [ValueError] of [strptime] is raised outside the
    [try], so it leaves the check, and the world is as it was. *)
Theorem liveness_check_raises_on_bad_key (w : World) (d : gmap string json)
    (k : string) :
  fs w !! TWEET_DATABASE env = Some (FJson (JDict d)) ->
  max_key (JDict d) = Ok k ->
  is_ascii_string k = true ->
  (forall t, strptime k <> Ok t) ->
  is_active_contest_already env w = (Raise ValueError, w).
Proof.
  intros Hf Hmax Hascii Hbad. unfold is_active_contest_already.
  unfold bind at 1. rewrite (load_json_db_doc _ _ _ Hf). rewrite Hmax.
  unfold bind at 1, lift at 1.
  unfold strptime in *. rewrite Hascii in *.
  destruct (match_key k) as [t|]; [|reflexivity].
  destruct (valid_datetime t); [|reflexivity].
  now specialize (Hbad t).
Qed.

End MoreLiveness.

Lemma empty_log_keys : keys_written_by_clock ∅.
Proof. intros k [v Hk]. rewrite lookup_empty in Hk. discriminate. Qed.

Lemma contest_just_recorded_is_live_witness :
  (fst (load_json_db (TWEET_DATABASE quiet_env) (empty_world sample_start))
   = Ok (JDict ∅)
   /\ keys_written_by_clock ∅
   /\ (forall t, valid_datetime t = true ->
                 is_Some ((∅ : gmap string json) !! strftime t) ->
                 to_micros (to_the_second t)
                 <= to_micros (to_the_second (now (empty_world sample_start))))
   /\ valid_datetime (now (empty_world sample_start)) = true
   /\ year (now (empty_world sample_start)) < 9999
   /\ fs (recorded_world (mkDatetime 2018 5 10 7 0 0 0))
      = fs (snd (write_to_json_db (TWEET_DATABASE quiet_env) (JDict sample_db)
                   (empty_world sample_start)))
   /\ valid_datetime (now (recorded_world (mkDatetime 2018 5 10 7 0 0 0))) = true)
  /\ (fst (is_active_contest_already quiet_env
             (recorded_world (mkDatetime 2018 5 10 7 0 0 0))) = Ok true
      <-> to_micros (now (recorded_world (mkDatetime 2018 5 10 7 0 0 0)))
          - to_micros (to_the_second (now (empty_world sample_start)))
          < day_micros).
Proof.
  assert (Hnone : forall t, valid_datetime t = true ->
                 is_Some ((∅ : gmap string json) !! strftime t) ->
                 to_micros (to_the_second t)
                 <= to_micros (to_the_second (now (empty_world sample_start)))).
  { intros t _ [v Hv]. rewrite lookup_empty in Hv. discriminate. }
  split.
  - split; [reflexivity|]. split; [exact empty_log_keys|].
    split; [exact Hnone|]. repeat split; vm_compute; reflexivity.
  - apply (contest_just_recorded_is_live quiet_env (empty_world sample_start)
             (recorded_world (mkDatetime 2018 5 10 7 0 0 0)) ∅ sample_db);
      try reflexivity; try exact empty_log_keys; try exact Hnone;
      vm_compute; reflexivity.
Defined.

(** A key written in the digits of another script is not among the keys
    that are said to fail. *)
Example strptime_other_digits :
  is_ascii_string "٢٠١٨-٠٥-٠٩_٠٧:٠٣:٥٩" = false
  /\ strptime "٢٠١٨-٠٥-٠٩_٠٧:٠٣:٥٩" = Raise NotModelled.
Proof. split; vm_compute; reflexivity. Qed.

Lemma liveness_check_raises_on_bad_key_witness :
  (fs bad_key_world !! TWEET_DATABASE quiet_env
   = Some (FJson (JDict {[ "yesterday" := second_entry ]}))
   /\ max_key (JDict {[ "yesterday" := second_entry ]}) = Ok "yesterday"
   /\ is_ascii_string "yesterday" = true
   /\ (forall t, strptime "yesterday" <> Ok t))
  /\ is_active_contest_already quiet_env bad_key_world
     = (Raise ValueError, bad_key_world).
Proof.
  split; [repeat split; try reflexivity; intros t; discriminate|].
  apply (liveness_check_raises_on_bad_key quiet_env bad_key_world
           {[ "yesterday" := second_entry ]} "yesterday");
    try reflexivity.
  intros t; discriminate.
Defined.


(* ===================================================================== *)
(** ** More on [test_query] and [get_results] *)
(* ===================================================================== *)

Lemma reads_only_ret {A} (a : A) : reads_only (ret a).
Proof. intros w. split; reflexivity. Qed.

Lemma reads_only_raise {A} (e : exn) : reads_only (@raise A e).
Proof. intros w. split; reflexivity. Qed.

Lemma reads_only_lift {A} (r : result A) : reads_only (lift r).
Proof. intros w. split; reflexivity. Qed.

Lemma reads_only_logging (lvl : log_level) (tpl : string) (xs : list json) :
  reads_only (logging lvl tpl xs).
Proof. intros w. split; reflexivity. Qed.

Lemma reads_only_bind {A B} (m : Py A) (k : A -> Py B) :
  reads_only m -> (forall a, reads_only (k a)) -> reads_only (bind m k).
Proof.
  intros Hm Hk w. unfold bind. specialize (Hm w).
  destruct (m w) as [[a|e] w1]; simpl in Hm.
  - destruct (Hk a w1) as [H1 H2]. destruct Hm as [H3 H4].
    split; congruence.
  - exact Hm.
Qed.

Lemma reads_only_try_except {A} (m handler : Py A) (catches : exn -> bool) :
  reads_only m -> reads_only handler -> reads_only (try_except m catches handler).
Proof.
  intros Hm Hh w. unfold try_except. specialize (Hm w).
  destruct (m w) as [[a|e] w1]; simpl in Hm; [exact Hm|].
  destruct (catches e); [|exact Hm].
  destruct (Hh w1) as [H1 H2]. destruct Hm as [H3 H4]. split; congruence.
Qed.

Lemma reads_only_load_json_db (file_name : string) :
  reads_only (load_json_db file_name).
Proof.
  intros w. unfold load_json_db, bind, isfile, json_load, ret.
  destruct (fs w !! file_name) as [[doc|im|]|] eqn:Hf; simpl; rewrite ?Hf;
    split; reflexivity.
Qed.

Section MoreQuery.

Variable env : Env.

Lemma reads_only_download_contents (url : string) :
  reads_only (download_contents env url).
Proof.
  intros w. unfold download_contents, bind, logging, ret.
  destruct (requests_get_json env (http_requests w) url); split; reflexivity.
Qed.

Lemma reads_only_wrong_card (user_name : json) (valid_cards cards : list json) :
  reads_only (wrong_card user_name valid_cards cards).
Proof.
  induction cards as [|card cards IH]; simpl.
  - apply reads_only_ret.
  - apply reads_only_bind; [apply reads_only_lift|]. intros name.
    destruct (negb _); [|exact IH].
    apply reads_only_bind; [apply reads_only_logging|].
    intros _. apply reads_only_ret.
Qed.

Ltac reads_only_step :=
  first
    [ apply reads_only_ret
    | apply reads_only_raise
    | apply reads_only_lift
    | apply reads_only_logging
    | apply reads_only_load_json_db
    | apply reads_only_download_contents
    | apply reads_only_wrong_card
    | apply reads_only_try_except
    | (apply reads_only_bind; [|intros ?])
    | match goal with
      | |- reads_only (if ?c then _ else _) => destruct c
      | |- reads_only (match ?x with _ => _ end) => destruct x
      end ].

Lemma reads_only_test_query (user_name : json) (scryfall_url : string) :
  reads_only (test_query env user_name scryfall_url).
Proof. unfold test_query. repeat reads_only_step. Qed.

Lemma reads_only_scan_urls (item : json) (urls acc : list json) :
  reads_only (scan_urls env item urls acc).
Proof.
  revert acc. induction urls as [|url urls IH]; intros acc; simpl.
  - apply reads_only_ret.
  - repeat (first [ apply IH | apply reads_only_test_query | reads_only_step ]).
Qed.

Lemma reads_only_scan_item (item : json) (acc : list json) :
  reads_only (scan_item env item acc).
Proof.
  unfold scan_item.
  repeat (first [ apply reads_only_scan_urls | reads_only_step ]).
Qed.

Lemma reads_only_scan (items acc : list json) :
  reads_only (scan env items acc).
Proof.
  revert acc. induction items as [|item items IH]; intros acc; simpl.
  - apply reads_only_ret.
  - apply reads_only_bind; [apply reads_only_scan_item|].
    intros [[|] acc']; [apply IH | apply reads_only_ret].
Qed.

Lemma reads_only_get_results : reads_only (get_results env).
Proof.
  unfold get_results. apply reads_only_bind; [apply reads_only_logging|].
  intros _. apply reads_only_scan.
Qed.

(** The results scan only reads.  Whatever the reply stream and the
    answers of the card database, and whether it returns or raises,
    [get_results] (and with it every [test_query] it runs) leaves all files
    and the posted statuses as they were. *)
Theorem get_results_reads_only (w : World) :
  fs (snd (get_results env w)) = fs w
  /\ posted (snd (get_results env w)) = posted w.
Proof. exact (reads_only_get_results w). Qed.

(** A URL without a [q] parameter is turned down at once: the result is
    the empty string, one line is logged, and no request is made. *)
Theorem test_query_url_without_query (user_name : json) (scryfall_url : string)
    (w : World) :
  parse_qs env scryfall_url !! "q" = None ->
  test_query env user_name scryfall_url w
  = (Ok "",
     add_log (mkLog INFO "{0} submitted a bad Scryfall URL: {1}"
                [user_name; JStr scryfall_url]) w).
Proof.
  intros Hq. unfold test_query, try_except.
  unfold bind at 1, lift at 1. rewrite Hq. reflexivity.
Qed.

(** An answer without [total_cards] (the error object of the card
    database, as for a query that matches no card) is turned down: the
    [KeyError] is caught, the reply is reported as a bad URL, and the
    result is the empty string, after one request. *)
Theorem test_query_error_answer (user_name : json) (scryfall_url : string)
    (w : World) (q : string) (qs : list string) (r : gmap string json) :
  parse_qs env scryfall_url !! "q" = Some (q :: qs) ->
  requests_get_json env (http_requests w)
    ("https://api.scryfall.com/cards/search?q=" ++ q) = Ok (JDict r) ->
  r !! "total_cards" = None ->
  fst (test_query env user_name scryfall_url w) = Ok ""
  /\ http_requests (snd (test_query env user_name scryfall_url w))
     = S (http_requests w)
  /\ logged (snd (test_query env user_name scryfall_url w))
     = (logged w ++
        [ mkLog DEBUG "Downloaded URL {0}"
            [JStr ("https://api.scryfall.com/cards/search?q=" ++ q)];
          mkLog INFO "{0} submitted a bad Scryfall URL: {1}"
            [user_name; JStr scryfall_url] ])%list.
Proof.
  intros Hq Hget Htotal.
  assert (Heq : test_query env user_name scryfall_url w
                = (Ok "",
                   add_log (mkLog INFO "{0} submitted a bad Scryfall URL: {1}"
                              [user_name; JStr scryfall_url])
                     (add_log (mkLog DEBUG "Downloaded URL {0}"
                                 [JStr ("https://api.scryfall.com/cards/search?q=" ++ q)])
                        (count_request w)))).
  { unfold test_query, try_except.
    unfold bind at 1, lift at 1. rewrite Hq. simpl (_ !! 0%nat).
    unfold bind at 1, download_contents, bind at 1. rewrite Hget.
    unfold bind at 1, logging at 1, ret at 1.
    unfold bind at 1, lift at 1, getitem at 1. rewrite Htotal.
    reflexivity. }
  rewrite Heq. simpl.
  split; [reflexivity|]. split; [reflexivity|].
  now rewrite <- app_assoc.
Qed.

(** Without a contest in the log (no log file), a reply whose search is
    answered makes [test_query] raise: [max] of no keys is a [ValueError],
    and the [except] only covers [KeyError]. *)
Theorem test_query_without_contest (user_name : json) (scryfall_url : string)
    (w : World) (q : string) (qs : list string) (r : gmap string json)
    (total_cards : json) :
  parse_qs env scryfall_url !! "q" = Some (q :: qs) ->
  requests_get_json env (http_requests w)
    ("https://api.scryfall.com/cards/search?q=" ++ q) = Ok (JDict r) ->
  r !! "total_cards" = Some total_cards ->
  fs w !! TWEET_DATABASE env = None ->
  fst (test_query env user_name scryfall_url w) = Raise ValueError.
Proof.
  intros Hq Hget Htotal Hf. unfold test_query, try_except.
  unfold bind at 1, lift at 1. rewrite Hq. simpl (_ !! 0%nat).
  unfold bind at 1, download_contents, bind at 1. rewrite Hget.
  unfold bind at 1, logging at 1, ret at 1.
  set (w1 := add_log _ (count_request w)).
  unfold bind at 1, lift at 1, getitem at 1. rewrite Htotal.
  set (count_check := if negb (py_eqb total_cards (JInt 2)) then _ else _).
  assert (Hcheck : exists w2, count_check w1 = (Ok tt, w2) /\ fs w2 = fs w1).
  { unfold count_check. destruct (negb _); eexists; split; reflexivity. }
  destruct Hcheck as (w2 & Hcheck & Hfs2).
  rewrite (bind_ok _ _ _ _ _ Hcheck).
  assert (Hf2 : fs w2 !! TWEET_DATABASE env = None) by now rewrite Hfs2.
  rewrite (bind_ok _ _ _ _ _ (load_json_db_missing _ _ Hf2)).
  reflexivity.
Qed.

(** What [test_query] hands back is empty or free of ["or"]. *)
Lemma test_query_returned (user_name : json) (scryfall_url : string)
    (w : World) (s : string) :
  fst (test_query env user_name scryfall_url w) = Ok s ->
  s = "" \/ str_contains "or" (lower s) = false.
Proof.
  intros H. unfold test_query, try_except in H.
  match type of H with
  | fst (match ?b with _ => _ end) = _ => destruct b as [[s'|e] w'] eqn:Hb
  end.
  - simpl in H. injection H as ->.
    do 10 (apply bind_ok_inv in Hb as (? & ? & _ & Hb)).
    apply bind_ok_inv in Hb as (wrong & ? & _ & Hb).
    destruct wrong.
    + left. now injection Hb as <-.
    + match type of Hb with
      | (if str_contains "or" (lower ?q) then _ else _) _ = _ =>
          destruct (str_contains "or" (lower q)) eqn:Hor
      end.
      * left. unfold bind, logging, ret in Hb. now injection Hb as <-.
      * right. unfold bind, logging, ret in Hb. injection Hb as <-. exact Hor.
  - destruct (is_KeyError e); simpl in H; [|discriminate].
    left. unfold bind, logging, ret in H. simpl in H. now injection H as <-.
Qed.

Lemma scan_urls_entries (item : json) (urls acc acc' : list json) (w w' : World) :
  Forall winning_entry acc ->
  scan_urls env item urls acc w = (Ok acc', w') ->
  Forall winning_entry acc'.
Proof.
  revert acc w. induction urls as [|url urls IH]; intros acc w Hacc H; simpl in H.
  - injection H as <- _. exact Hacc.
  - apply bind_ok_inv in H as (test_url & w1 & _ & H).
    apply bind_ok_inv in H as (mentions & w2 & _ & H).
    apply bind_ok_inv in H as (acc1 & w3 & H3 & H).
    apply (IH acc1 w3); [|exact H].
    destruct mentions; [|injection H3 as <- _; exact Hacc].
    apply bind_ok_inv in H3 as (name & w4 & _ & H3).
    apply bind_ok_inv in H3 as (? & w5 & _ & H3).
    apply bind_ok_inv in H3 as (who & w6 & _ & H3).
    apply bind_ok_inv in H3 as (r & w7 & Hr & H3).
    destruct test_url as [| | | u | |]; try discriminate.
    destruct (0 <? py_len r) eqn:Hlen; [|injection H3 as <- _; exact Hacc].
    apply bind_ok_inv in H3 as (name' & w8 & _ & H3).
    injection H3 as <- _.
    apply Forall_app. split; [exact Hacc|].
    constructor; [|constructor].
    exists name', r. split; [reflexivity|].
    apply Z.ltb_lt in Hlen. split; [exact Hlen|].
    assert (Hfst : fst (test_query env who u w6) = Ok r) by now rewrite Hr.
    destruct (test_query_returned who u w6 r Hfst) as [-> | Hor];
      [vm_compute in Hlen; discriminate | exact Hor].
Qed.

Lemma scan_item_entries (item : json) (acc acc' : list json) (w w' : World)
    (verdict : control) :
  Forall winning_entry acc ->
  scan_item env item acc w = (Ok (verdict, acc'), w') ->
  Forall winning_entry acc'.
Proof.
  intros Hacc H. unfold scan_item in H.
  apply bind_ok_inv in H as (has_text & w1 & _ & H).
  destruct has_text.
  - do 3 (apply bind_ok_inv in H as (? & ? & _ & H)).
    apply bind_ok_inv in H as (acc1 & w5 & Hurls & H).
    apply bind_ok_inv in H as (name & w6 & _ & H).
    assert (Forall winning_entry acc1) by (eapply scan_urls_entries; eauto).
    destruct (py_eqb name _); now injection H as _ <- _.
  - apply bind_ok_inv in H as (has_message & w2 & _ & H).
    destruct has_message; [|now injection H as _ <- _].
    apply bind_ok_inv in H as (code & w3 & _ & H).
    destruct (py_eqb code (JInt 88)); [|now injection H as _ <- _].
    do 2 (apply bind_ok_inv in H as (? & ? & _ & H)).
    now injection H as _ <- _.
Qed.

Lemma scan_entries (items acc acc' : list json) (w w' : World) :
  Forall winning_entry acc ->
  scan env items acc w = (Ok acc', w') ->
  Forall winning_entry acc'.
Proof.
  revert acc w. induction items as [|item items IH]; intros acc w Hacc H; simpl in H.
  - injection H as <- _. exact Hacc.
  - apply bind_ok_inv in H as ([verdict acc1] & w1 & Hitem & H).
    assert (Forall winning_entry acc1) by (eapply scan_item_entries; eauto).
    destruct verdict; [eapply IH; eauto | now injection H as <- _].
Qed.

(** No winner used ["or"].  Every entry that [get_results] returns has the
    shape [name], [length], [query], with a query that is not empty, whose
    length is the one recorded, and whose lowercased text has no ["or"]. *)
Theorem get_results_entries_are_winning (w : World) (results : list json) :
  fst (get_results env w) = Ok results ->
  Forall winning_entry results.
Proof.
  intros H. unfold get_results, bind, logging in H.
  destruct (scan env (search_tweets env) [] _) as [[r|e] w'] eqn:Hscan;
    [|discriminate].
  simpl in H. injection H as <-.
  eapply scan_entries; [|exact Hscan]. constructor.
Qed.

(** The verdict of [test_query], as the code gives it.  When the search
    answers and the log holds a contest, the query is handed back if every
    card of the answer bears one of the two contest names and the
    lowercased query has no ["or"]; in every other case the result is the
    empty string. *)
Theorem test_query_accepts_or_rejects (user_name : json) (scryfall_url : string)
    (w : World) (q : string) (qs : list string) (total_cards : json)
    (names : list json) (db : gmap string json) (name0 name1 : json) :
  parse_qs env scryfall_url !! "q" = Some (q :: qs) ->
  search_answers env w q total_cards names ->
  fs w !! TWEET_DATABASE env = Some (FJson (JDict db)) ->
  contest_names db name0 name1 ->
  (Forall (fun n => py_in_list n [name0; name1] = true) names ->
   str_contains "or" (lower q) = false ->
   fst (test_query env user_name scryfall_url w) = Ok q)
  /\ (Exists (fun n => py_in_list n [name0; name1] = false) names
      \/ str_contains "or" (lower q) = true ->
      fst (test_query env user_name scryfall_url w) = Ok "").
Proof.
  intros Hq Hans Hf Hnames.
  rewrite (test_query_verdict env user_name scryfall_url w q qs total_cards names
             db name0 name1 Hq Hans Hf Hnames).
  split.
  - intros Hall Hor. rewrite Hor.
    assert (forallb (fun n => py_in_list n [name0; name1]) names = true) as ->;
      [|reflexivity].
    apply forallb_forall. intros n Hn. rewrite Forall_forall in Hall.
    apply Hall. now apply list_elem_of_In.
  - intros [Hex | Hor].
    + assert (forallb (fun n => py_in_list n [name0; name1]) names = false) as ->;
        [|reflexivity].
      apply Exists_exists in Hex as (n & Hn & Hbad).
      apply not_true_is_false. intros Hall.
      rewrite forallb_forall in Hall.
      rewrite (Hall n) in Hbad; [discriminate|]. now apply list_elem_of_In.
    + rewrite Hor. now rewrite andb_false_r.
Qed.

End MoreQuery.

(** The length recorded is the number of characters of the query, not of
    the bytes that hold it. *)
Example get_results_counts_code_points :
  py_len "Lim-Dûl" = 7
  /\ fst (get_results (stream_env accent_stream) expired_world)
     = Ok [JDict (<["name" := JStr "alice"]>
                  (<["length" := JInt 7]> (<["query" := JStr "Lim-Dûl"]> ∅)))].
Proof. split; vm_compute; reflexivity. Qed.

Lemma get_results_entries_are_winning_witness :
  fst (get_results (stream_env sample_stream) expired_world)
  = Ok [result_entry (JStr "alice") "cmc=1"]
  /\ Forall winning_entry [result_entry (JStr "alice") "cmc=1"].
Proof.
  split; [vm_compute; reflexivity|].
  apply (get_results_entries_are_winning (stream_env sample_stream) expired_world).
  vm_compute; reflexivity.
Defined.

Lemma test_query_url_without_query_witness :
  parse_qs quiet_env "https://scryfall.com/card/a" !! "q" = None
  /\ test_query quiet_env (JStr "bob") "https://scryfall.com/card/a" expired_world
     = (Ok "",
        add_log (mkLog INFO "{0} submitted a bad Scryfall URL: {1}"
                   [JStr "bob"; JStr "https://scryfall.com/card/a"]) expired_world).
Proof.
  split; [reflexivity|].
  apply (test_query_url_without_query quiet_env (JStr "bob")
           "https://scryfall.com/card/a" expired_world).
  reflexivity.
Defined.

Lemma test_query_error_answer_witness :
  (parse_qs (sample_env error_answer []) "https://scryfall.com/search?q=t:tribal"
     !! "q" = Some ["t:tribal"]
   /\ requests_get_json (sample_env error_answer []) (http_requests expired_world)
        ("https://api.scryfall.com/cards/search?q=" ++ "t:tribal")
      = Ok (JDict (<["object" := JStr "error"]> {[ "code" := JStr "not_found" ]}))
   /\ (<["object" := JStr "error"]> {[ "code" := JStr "not_found" ]}
         : gmap string json) !! "total_cards" = None)
  /\ fst (test_query (sample_env error_answer []) (JStr "bob")
            "https://scryfall.com/search?q=t:tribal" expired_world) = Ok ""
  /\ http_requests (snd (test_query (sample_env error_answer []) (JStr "bob")
                           "https://scryfall.com/search?q=t:tribal" expired_world))
     = S (http_requests expired_world)
  /\ logged (snd (test_query (sample_env error_answer []) (JStr "bob")
                    "https://scryfall.com/search?q=t:tribal" expired_world))
     = (logged expired_world ++
        [ mkLog DEBUG "Downloaded URL {0}"
            [JStr ("https://api.scryfall.com/cards/search?q=" ++ "t:tribal")];
          mkLog INFO "{0} submitted a bad Scryfall URL: {1}"
            [JStr "bob"; JStr "https://scryfall.com/search?q=t:tribal"] ])%list.
Proof.
  split; [repeat split; reflexivity|].
  apply (test_query_error_answer (sample_env error_answer []) (JStr "bob")
           "https://scryfall.com/search?q=t:tribal" expired_world "t:tribal" []
           (<["object" := JStr "error"]> {[ "code" := JStr "not_found" ]}));
    reflexivity.
Defined.

Lemma test_query_without_contest_witness :
  (parse_qs (stream_env []) "https://scryfall.com/search?q=cmc=1" !! "q"
   = Some ["cmc=1"]
   /\ requests_get_json (stream_env []) (http_requests (empty_world sample_start))
        ("https://api.scryfall.com/cards/search?q=" ++ "cmc=1")
      = Ok (JDict (<["total_cards" := JInt 2]> {[ "data" := JList two_cards ]}))
   /\ (<["total_cards" := JInt 2]> {[ "data" := JList two_cards ]}
         : gmap string json) !! "total_cards" = Some (JInt 2)
   /\ fs (empty_world sample_start) !! TWEET_DATABASE (stream_env []) = None)
  /\ fst (test_query (stream_env []) (JStr "bob")
            "https://scryfall.com/search?q=cmc=1" (empty_world sample_start))
     = Raise ValueError.
Proof.
  split; [repeat split; reflexivity|].
  apply (test_query_without_contest (stream_env []) (JStr "bob")
           "https://scryfall.com/search?q=cmc=1" (empty_world sample_start)
           "cmc=1" [] (<["total_cards" := JInt 2]> {[ "data" := JList two_cards ]})
           (JInt 2));
    reflexivity.
Defined.

Lemma sample_search_answers :
  search_answers (stream_env []) expired_world "cmc=1" (JInt 2)
    [JStr "Shock"; JStr "Opt"].
Proof.
  exists (<["total_cards" := JInt 2]> {[ "data" := JList two_cards ]}), two_cards.
  split; [reflexivity|]. split; [reflexivity|]. split; [reflexivity|].
  repeat constructor.
Qed.

Lemma sample_contest_names : contest_names sample_db (JStr "Shock") (JStr "Opt").
Proof.
  exists "2018-05-09_07:03:59", (sample_entry "1" "Shock" "Opt"),
    (JList [JDict (<["name" := JStr "Shock"]>
                   {[ "url" := JStr "https://scryfall.com/card/a" ]});
            JDict (<["name" := JStr "Opt"]>
                   {[ "url" := JStr "https://scryfall.com/card/b" ]})]),
    (JDict (<["name" := JStr "Shock"]>
            {[ "url" := JStr "https://scryfall.com/card/a" ]})),
    (JDict (<["name" := JStr "Opt"]>
            {[ "url" := JStr "https://scryfall.com/card/b" ]})).
  repeat split; vm_compute; reflexivity.
Qed.

Lemma test_query_accepts_or_rejects_witness :
  (parse_qs (stream_env []) "https://scryfall.com/search?q=cmc=1" !! "q"
   = Some ["cmc=1"]
   /\ search_answers (stream_env []) expired_world "cmc=1" (JInt 2)
        [JStr "Shock"; JStr "Opt"]
   /\ fs expired_world !! TWEET_DATABASE (stream_env [])
      = Some (FJson (JDict sample_db))
   /\ contest_names sample_db (JStr "Shock") (JStr "Opt"))
  /\ (Forall (fun n => py_in_list n [JStr "Shock"; JStr "Opt"] = true)
        [JStr "Shock"; JStr "Opt"] ->
      str_contains "or" (lower "cmc=1") = false ->
      fst (test_query (stream_env []) (JStr "bob")
             "https://scryfall.com/search?q=cmc=1" expired_world) = Ok "cmc=1")
  /\ (Exists (fun n => py_in_list n [JStr "Shock"; JStr "Opt"] = false)
        [JStr "Shock"; JStr "Opt"]
      \/ str_contains "or" (lower "cmc=1") = true ->
      fst (test_query (stream_env []) (JStr "bob")
             "https://scryfall.com/search?q=cmc=1" expired_world) = Ok "").
Proof.
  split.
  - split; [reflexivity|]. split; [exact sample_search_answers|].
    split; [reflexivity | exact sample_contest_names].
  - apply (test_query_accepts_or_rejects (stream_env []) (JStr "bob")
             "https://scryfall.com/search?q=cmc=1" expired_world "cmc=1" []
             (JInt 2) [JStr "Shock"; JStr "Opt"] sample_db (JStr "Shock") (JStr "Opt")).
    + reflexivity.
    + exact sample_search_answers.
    + reflexivity.
    + exact sample_contest_names.
Defined.

(* ===================================================================== *)
(** ** More on the results flow *)
(* ===================================================================== *)

Section MoreResults.

Variable env : Env.

(** Without a contest in the log there is no file to name: with the log
    missing or empty, [write_results] raises [ValueError] and writes
    nothing. *)
Lemma write_results_no_contest (results : list json) (w : World) :
  fs w !! TWEET_DATABASE env = None
  \/ fs w !! TWEET_DATABASE env = Some (FJson (JDict ∅)) ->
  write_results env results w = (Raise ValueError, w).
Proof.
  intros Hlog. unfold write_results.
  assert (Hload : load_json_db (TWEET_DATABASE env) w = (Ok (JDict ∅), w)).
  { destruct Hlog as [Hnone | Hempty].
    - now apply load_json_db_missing.
    - now apply load_json_db_doc. }
  rewrite (bind_ok _ _ _ _ _ Hload). reflexivity.
Qed.

Lemma write_results_new_file (results : list json) (w : World)
    (d : gmap string json) (k : string) :
  fs w !! TWEET_DATABASE env = Some (FJson (JDict d)) ->
  max_key (JDict d) = Ok k ->
  fs w !! ("../winners_" ++ k ++ ".json") = None ->
  write_results env results w
  = (Ok tt,
     set_fs (<["../winners_" ++ k ++ ".json" := FJson (JList results)]> (fs w)) w).
Proof.
  intros Hf Hmax Hnew. unfold write_results.
  rewrite (bind_ok _ _ _ _ _ (load_json_db_doc _ _ _ Hf)).
  unfold bind at 1, lift at 1. rewrite Hmax.
  now apply write_to_json_db_new_list.
Qed.

(** The winners of a contest go to the file named after its key: with a
    contest in the log and no winners file for its greatest key yet,
    [write_results] creates that file with exactly the results given, and
    changes no other file. *)
Theorem write_results_creates_winners_file (results : list json) (w : World)
    (d : gmap string json) (k : string) :
  fs w !! TWEET_DATABASE env = Some (FJson (JDict d)) ->
  max_key (JDict d) = Ok k ->
  fs w !! ("../winners_" ++ k ++ ".json") = None ->
  fst (write_results env results w) = Ok tt
  /\ fs (snd (write_results env results w)) !! ("../winners_" ++ k ++ ".json")
     = Some (FJson (JList results))
  /\ (forall other, other <> "../winners_" ++ k ++ ".json" ->
        fs (snd (write_results env results w)) !! other = fs w !! other).
Proof.
  intros Hf Hmax Hnew.
  rewrite (write_results_new_file results w d k Hf Hmax Hnew). simpl.
  split; [reflexivity|]. split; [apply lookup_insert_eq|].
  intros other Hne. now apply lookup_insert_ne.
Qed.

(** When the liveness check finds the contest over, the winners are on
    file by the time it returns.  Let the greatest key of the log record a
    start at least 24 hours back, let the scan of the replies come back
    with [results], and let there be no winners file for that key yet: the
    check returns [False] and the files are those of before plus the
    winners file, which holds [results]. *)
Theorem finished_contest_gets_winners_file (w : World) (d : gmap string json)
    (k : string) (start : datetime) (results : list json) :
  fs w !! TWEET_DATABASE env = Some (FJson (JDict d)) ->
  max_key (JDict d) = Ok k ->
  strptime k = Ok start ->
  year start < 9999 ->
  valid_datetime (now w) = true ->
  day_micros <= to_micros (now w) - to_micros start ->
  fst (get_results env w) = Ok results ->
  fs w !! ("../winners_" ++ k ++ ".json") = None ->
  fst (is_active_contest_already env w) = Ok false
  /\ fs (snd (is_active_contest_already env w))
     = <["../winners_" ++ k ++ ".json" := FJson (JList results)]> (fs w).
Proof.
  intros Hf Hmax Hparse Hy Hnow Hold Hres Hnew.
  destruct (add_one_day_ok start Hy) as [finish Hadd].
  pose proof (strptime_valid _ _ Hparse) as Hstart.
  destruct (add_one_day_to_micros _ _ Hstart Hadd) as [Hfin Hmicros].
  pose proof (dt_gtb_to_micros finish (now w) Hfin Hnow) as Hcmp.
  rewrite (is_active_contest_already_parsed env w d k start finish
             Hf Hmax Hparse Hadd).
  destruct (dt_gtb finish (now w)) eqn:E.
  { assert (to_micros (now w) < to_micros finish) by now apply Hcmp. lia. }
  destruct (reads_only_get_results env w) as [Hfs _].
  destruct (get_results env w) as [[r|e] w1] eqn:Hget; [|discriminate].
  simpl in Hres, Hfs. injection Hres as ->.
  assert (Hf1 : fs w1 !! TWEET_DATABASE env = Some (FJson (JDict d)))
    by now rewrite Hfs.
  assert (Hnew1 : fs w1 !! ("../winners_" ++ k ++ ".json") = None)
    by now rewrite Hfs.
  assert (Heq : bind (scan_and_write_results env) (fun _ => ret false) w
                = (Ok false,
                   set_fs (<["../winners_" ++ k ++ ".json"
                             := FJson (JList results)]> (fs w1)) w1)).
  { unfold bind at 1, scan_and_write_results, bind at 1. rewrite Hget.
    now rewrite (write_results_new_file results w1 d k Hf1 Hmax Hnew1). }
  rewrite Heq. simpl. rewrite Hfs. split; reflexivity.
Qed.

End MoreResults.

Lemma write_results_creates_winners_file_witness :
  (fs expired_world !! TWEET_DATABASE quiet_env = Some (FJson (JDict sample_db))
   /\ max_key (JDict sample_db) = Ok "2018-05-09_07:03:59"
   /\ fs expired_world !! ("../winners_" ++ "2018-05-09_07:03:59" ++ ".json") = None)
  /\ fst (write_results quiet_env first_results expired_world) = Ok tt
  /\ fs (snd (write_results quiet_env first_results expired_world))
       !! ("../winners_" ++ "2018-05-09_07:03:59" ++ ".json")
     = Some (FJson (JList first_results))
  /\ (forall other, other <> "../winners_" ++ "2018-05-09_07:03:59" ++ ".json" ->
        fs (snd (write_results quiet_env first_results expired_world)) !! other
        = fs expired_world !! other).
Proof.
  split; [repeat split; vm_compute; reflexivity|].
  apply (write_results_creates_winners_file quiet_env first_results expired_world
           sample_db "2018-05-09_07:03:59"); vm_compute; reflexivity.
Defined.

Lemma finished_contest_gets_winners_file_witness :
  (fs expired_world !! TWEET_DATABASE (stream_env sample_stream)
   = Some (FJson (JDict sample_db))
   /\ max_key (JDict sample_db) = Ok "2018-05-09_07:03:59"
   /\ strptime "2018-05-09_07:03:59" = Ok sample_start
   /\ year sample_start < 9999
   /\ valid_datetime (now expired_world) = true
   /\ day_micros <= to_micros (now expired_world) - to_micros sample_start
   /\ fst (get_results (stream_env sample_stream) expired_world)
      = Ok [result_entry (JStr "alice") "cmc=1"]
   /\ fs expired_world !! ("../winners_" ++ "2018-05-09_07:03:59" ++ ".json") = None)
  /\ fst (is_active_contest_already (stream_env sample_stream) expired_world)
     = Ok false
  /\ fs (snd (is_active_contest_already (stream_env sample_stream) expired_world))
     = <["../winners_" ++ "2018-05-09_07:03:59" ++ ".json"
         := FJson (JList [result_entry (JStr "alice") "cmc=1"])]> (fs expired_world).
Proof.
  split; [repeat split; vm_compute; reflexivity || (vm_compute; discriminate)|].
  apply (finished_contest_gets_winners_file (stream_env sample_stream)
           expired_world sample_db "2018-05-09_07:03:59" sample_start
           [result_entry (JStr "alice") "cmc=1"]);
    vm_compute; reflexivity || (vm_compute; discriminate).
Defined.

(* ===================================================================== *)
(** ** More on images and posting *)
(* ===================================================================== *)

Lemma thumbnail_of_thumbnail (env : Env) (im : image) :
  1 <= width im -> 1 <= height im ->
  thumbnail env (1024, 512) (thumbnail env (1024, 512) im)
  = thumbnail env (1024, 512) im.
Proof.
  intros Hw Hh. apply thumbnail_unchanged.
  pose proof (thumbnail_dims env (1024, 512) im) as Hdims.
  pose proof (thumbnail_size_fits (width im) (height im) Hw Hh) as Hfit.
  cbv zeta in Hfit. rewrite <- Hdims in Hfit. cbn [fst snd] in Hfit.
  destruct Hfit as (Hfw & Hfh & _ & _).
  set (t := thumbnail env (1024, 512) im) in *.
  pose proof (thumbnail_size_fits (width t) (height t) ltac:(lia) ltac:(lia))
    as (_ & _ & Hsame & _).
  apply Hsame; lia.
Qed.

Lemma open_all_fails (paths : list string) (w : World) :
  Exists (fun path => forall im, fs w !! path <> Some (FImage im)) paths ->
  open_all paths w = (Raise IOError, w).
Proof.
  induction 1 as [path paths Hbad | path paths _ IH]; simpl; unfold bind.
  - unfold PIL_open. destruct (fs w !! path) as [[doc|im|]|]; try reflexivity.
    now specialize (Hbad im).
  - unfold PIL_open at 1. destruct (fs w !! path) as [[doc|im|]|]; try reflexivity.
    now rewrite IH.
Qed.

Section MoreImages.

Variable env : Env.

(** Resizing is idempotent on a readable image: a second [resize_image]
    of the same file leaves the world as the first one left it. *)
Theorem resize_image_twice (url_to_open : string) (im : image) (w : World) :
  holds_image (fs w) url_to_open im ->
  1 <= width im -> 1 <= height im ->
  resize_image env url_to_open (snd (resize_image env url_to_open w))
  = (Ok tt, snd (resize_image env url_to_open w)).
Proof.
  intros Him Hw Hh. rewrite (resize_image_readable env _ _ _ Him). simpl snd.
  rewrite (resize_image_readable env url_to_open (thumbnail env (1024, 512) im));
    [|unfold holds_image; simpl; apply lookup_insert_eq].
  rewrite thumbnail_of_thumbnail by assumption.
  unfold set_fs; simpl. now rewrite insert_insert_eq.
Qed.

(** A path that names no file is not the case the sentinel covers: the
    thumbnail error is logged, then [open] fails, the [IOError] leaves
    [send_tweet] (only [UnicodeDecodeError] is caught), and nothing is
    posted. *)
Theorem send_tweet_missing_file_raises (message url : string) (w : World) :
  fs w !! url = None ->
  send_tweet env message (Some url) w
  = (Raise IOError,
     add_log (mkLog ERROR "Cannot create thumbnail for {0}" [JStr url])
       (add_log (mkLog DEBUG "Tweet to send: {0}" [JStr message]) w)).
Proof.
  intros Hnone.
  assert (Hopen : fst (PIL_open url
            (add_log (mkLog DEBUG "Tweet to send: {0}" [JStr message]) w))
          = Raise IOError).
  { unfold PIL_open. simpl fs. now rewrite Hnone. }
  unfold send_tweet.
  unfold bind at 1, logging at 1.
  unfold bind at 1, try_except, bind at 1.
  rewrite (resize_image_open_fails env url _ Hopen).
  unfold bind at 1, open_rb. simpl fs. rewrite Hnone. reflexivity.
Qed.

(** An answer of the platform without [id_str] (its error object) makes
    [send_tweet] raise [KeyError], after the status has gone out. *)
Theorem send_tweet_answer_without_id (message url : string) (w : World)
    (canvas : image) (st : twitter_status) (r : gmap string json) :
  holds_image (fs w) url canvas ->
  update_with_media env message (FImage (thumbnail env (1024, 512) canvas)) = Ok st ->
  status_json st = Ok (JDict r) ->
  r !! "id_str" = None ->
  fst (send_tweet env message (Some url) w) = Raise KeyError
  /\ posted (snd (send_tweet env message (Some url) w))
     = (posted w ++ [(message, FImage (thumbnail env (1024, 512) canvas))])%list.
Proof.
  intros Him Hreq Hjson Hid.
  split; [|exact (send_tweet_posts_thumbnail env message url w canvas st Him Hreq)].
  erewrite (send_tweet_request env message url w _
              (FImage (thumbnail env (1024, 512) canvas)) eq_refl).
  - unfold rbind. rewrite Hreq, Hjson. unfold getitem. rewrite Hid. reflexivity.
  - rewrite (resize_image_readable env url canvas
               (add_log (mkLog DEBUG "Tweet to send: {0}" [JStr message]) w) Him).
    simpl. apply lookup_insert_eq.
Qed.

(** What goes out is the thumbnail: the media of the status posted is the
    image at [url] brought within 1024 by 512 pixels. *)
Theorem send_tweet_uploads_thumbnail (message url : string) (w : World)
    (canvas : image) (st : twitter_status) :
  holds_image (fs w) url canvas ->
  1 <= width canvas -> 1 <= height canvas ->
  update_with_media env message (FImage (thumbnail env (1024, 512) canvas)) = Ok st ->
  posted (snd (send_tweet env message (Some url) w))
  = (posted w ++ [(message, FImage (thumbnail env (1024, 512) canvas))])%list
  /\ width (thumbnail env (1024, 512) canvas) <= 1024
  /\ height (thumbnail env (1024, 512) canvas) <= 512.
Proof.
  intros Him Hw Hh Hreq.
  split; [exact (send_tweet_posts_thumbnail env message url w canvas st Him Hreq)|].
  pose proof (thumbnail_dims env (1024, 512) canvas) as Hdims.
  pose proof (thumbnail_size_fits (width canvas) (height canvas) Hw Hh) as Hfit.
  cbv zeta in Hfit. rewrite <- Hdims in Hfit. cbn [fst snd] in Hfit.
  lia.
Qed.

(** With no image to merge, [merge_card_images] raises [ValueError] and
    writes nothing. *)
Theorem merge_card_images_no_image (cards : list json) (w : World) :
  glob env (fs w) (TEMP_CARD_DIR env ++ "*.png") = [] ->
  merge_card_images env cards w = (Raise ValueError, w).
Proof.
  intros Hglob. unfold merge_card_images. unfold bind at 1. rewrite Hglob.
  reflexivity.
Qed.

(** One file that is no image among those [glob] lists, and
    [merge_card_images] raises [IOError] without writing anything. *)
Theorem merge_card_images_unreadable (cards : list json) (w : World) :
  Exists (fun path => forall im, fs w !! path <> Some (FImage im))
    (glob env (fs w) (TEMP_CARD_DIR env ++ "*.png")) ->
  merge_card_images env cards w = (Raise IOError, w).
Proof.
  intros Hbad. unfold merge_card_images. unfold bind at 1.
  unfold bind at 1. now rewrite (open_all_fails _ _ Hbad).
Qed.

End MoreImages.

Lemma resize_image_twice_witness :
  (holds_image (fs wide_world) "cards/Shock.png" wide_card
   /\ 1 <= width wide_card /\ 1 <= height wide_card)
  /\ resize_image image_env "cards/Shock.png"
       (snd (resize_image image_env "cards/Shock.png" wide_world))
     = (Ok tt, snd (resize_image image_env "cards/Shock.png" wide_world)).
Proof.
  split; [split; [reflexivity | split; simpl; lia]|].
  apply (resize_image_twice image_env "cards/Shock.png" wide_card wide_world);
    [reflexivity | simpl; lia | simpl; lia].
Defined.

Lemma send_tweet_missing_file_raises_witness :
  fs image_world !! "cards/Nothing.png" = None
  /\ send_tweet image_env "Can you make both of these cards show up"
       (Some "cards/Nothing.png") image_world
     = (Raise IOError,
        add_log (mkLog ERROR "Cannot create thumbnail for {0}"
                   [JStr "cards/Nothing.png"])
          (add_log (mkLog DEBUG "Tweet to send: {0}"
                      [JStr "Can you make both of these cards show up"])
             image_world)).
Proof.
  split; [reflexivity|].
  apply (send_tweet_missing_file_raises image_env
           "Can you make both of these cards show up" "cards/Nothing.png"
           image_world).
  reflexivity.
Defined.

Lemma send_tweet_answer_without_id_witness :
  (holds_image (fs image_world) "cards/Shock.png" red_card
   /\ update_with_media refusing_env "Can you make both of these cards show up"
        (FImage (thumbnail refusing_env (1024, 512) red_card))
      = Ok (mkStatus 403
              (Ok (JDict {[ "errors" := JList [JDict {[ "code" := JInt 187 ]}] ]})))
   /\ status_json
        (mkStatus 403
           (Ok (JDict {[ "errors" := JList [JDict {[ "code" := JInt 187 ]}] ]})))
      = Ok (JDict {[ "errors" := JList [JDict {[ "code" := JInt 187 ]}] ]})
   /\ ({[ "errors" := JList [JDict {[ "code" := JInt 187 ]}] ]}
         : gmap string json) !! "id_str" = None)
  /\ fst (send_tweet refusing_env "Can you make both of these cards show up"
            (Some "cards/Shock.png") image_world) = Raise KeyError
  /\ posted (snd (send_tweet refusing_env "Can you make both of these cards show up"
                    (Some "cards/Shock.png") image_world))
     = (posted image_world ++
        [("Can you make both of these cards show up",
          FImage (thumbnail refusing_env (1024, 512) red_card))])%list.
Proof.
  split; [repeat split; reflexivity|].
  apply (send_tweet_answer_without_id refusing_env
           "Can you make both of these cards show up" "cards/Shock.png" image_world
           red_card
           (mkStatus 403
              (Ok (JDict {[ "errors" := JList [JDict {[ "code" := JInt 187 ]}] ]})))
           {[ "errors" := JList [JDict {[ "code" := JInt 187 ]}] ]});
    reflexivity.
Defined.

Lemma send_tweet_uploads_thumbnail_witness :
  (holds_image (fs wide_world) "cards/Shock.png" wide_card
   /\ 1 <= width wide_card /\ 1 <= height wide_card
   /\ update_with_media image_env "Can you make both of these cards show up"
        (FImage (thumbnail image_env (1024, 512) wide_card))
      = Ok (mkStatus 200 (Ok (JDict {[ "id_str" := JStr "1001" ]}))))
  /\ posted (snd (send_tweet image_env "Can you make both of these cards show up"
                    (Some "cards/Shock.png") wide_world))
     = (posted wide_world ++
        [("Can you make both of these cards show up",
          FImage (thumbnail image_env (1024, 512) wide_card))])%list
  /\ width (thumbnail image_env (1024, 512) wide_card) <= 1024
  /\ height (thumbnail image_env (1024, 512) wide_card) <= 512.
Proof.
  split; [split; [reflexivity | split; [simpl; lia | split; [simpl; lia | reflexivity]]]|].
  apply (send_tweet_uploads_thumbnail image_env
           "Can you make both of these cards show up" "cards/Shock.png" wide_world
           wide_card (mkStatus 200 (Ok (JDict {[ "id_str" := JStr "1001" ]}))));
    [reflexivity | simpl; lia | simpl; lia | reflexivity].
Defined.

Lemma merge_card_images_no_image_witness :
  glob no_glob_env (fs image_world) (TEMP_CARD_DIR no_glob_env ++ "*.png") = []
  /\ merge_card_images no_glob_env two_cards image_world
     = (Raise ValueError, image_world).
Proof.
  split; [reflexivity|].
  apply (merge_card_images_no_image no_glob_env two_cards image_world).
  reflexivity.
Defined.

Lemma merge_card_images_unreadable_witness :
  Exists (fun path => forall im, fs broken_world !! path <> Some (FImage im))
    (glob image_env (fs broken_world) (TEMP_CARD_DIR image_env ++ "*.png"))
  /\ merge_card_images image_env two_cards broken_world
     = (Raise IOError, broken_world).
Proof.
  assert (Hbad : Exists (fun path => forall im,
                           fs broken_world !! path <> Some (FImage im))
                   (glob image_env (fs broken_world)
                      (TEMP_CARD_DIR image_env ++ "*.png"))).
  { apply Exists_cons_hd. intros im. discriminate. }
  split; [exact Hbad|].
  apply (merge_card_images_unreadable image_env two_cards broken_world).
  exact Hbad.
Defined.

(* ===================================================================== *)
(** ** The functions around the contest *)
(* ===================================================================== *)

Section MoreContest.

Variable env : Env.
Variable web : Web.

(** The default mode of [download_contents] is the ['json'] branch of the
    function with its download type. *)
Lemma download_contents_as_json (url : string) (w : World) :
  download_contents_as env web url "json" w
  = (v <~ fst (download_contents env url w) ;; Ok (JsonResponse v),
     snd (download_contents env url w)).
Proof.
  unfold download_contents_as, download_contents, bind, logging, ret. simpl.
  destruct (requests_get_json env (http_requests w) url); reflexivity.
Qed.

Lemma remove_all_removes (paths : list string) (w : World) :
  NoDup paths ->
  Forall (fun p => is_Some (fs w !! p)) paths ->
  exists w',
    remove_all paths w = (Ok tt, w')
    /\ (forall p, p ∈ paths -> fs w' !! p = None)
    /\ (forall p, p ∉ paths -> fs w' !! p = fs w !! p)
    /\ posted w' = posted w /\ http_requests w' = http_requests w.
Proof.
  intros Hnodup. revert w.
  induction Hnodup as [|p rest Hnotin Hnodup IH]; intros w Hall; simpl.
  - exists w. split; [reflexivity|]. split; [|split; [|split]]; try reflexivity.
    intros p Hp. now apply not_elem_of_nil in Hp.
  - apply Forall_cons in Hall as [[f Hp] Hrest].
    unfold bind at 1, logging at 1. unfold bind at 1, os_remove. simpl fs.
    rewrite Hp.
    set (w1 := set_fs _ _).
    destruct (IH w1) as (w' & Hrun & Hgone & Hkept & Hposted & Hreq).
    { apply Forall_forall. intros q Hq. rewrite Forall_forall in Hrest.
      unfold w1; simpl.
      rewrite lookup_delete_ne; [now apply Hrest|]. intros ->. contradiction. }
    exists w'. split; [exact Hrun|]. split; [|split; [|split; assumption]].
    + intros q Hq. apply elem_of_cons in Hq as [->|Hq]; [|now apply Hgone].
      rewrite (Hkept p Hnotin). unfold w1; simpl. apply lookup_delete_eq.
    + intros q Hq. apply not_elem_of_cons in Hq as [Hne Hq].
      rewrite (Hkept q Hq). unfold w1; simpl. now apply lookup_delete_ne.
Qed.

(** [delete_temp_cards] removes what [glob] lists and nothing else: when
    the listed files are there (each listed once), it returns, every listed
    file is gone and every other file is as before. *)
Theorem delete_temp_cards_removes_listed (w : World) :
  NoDup (glob env (fs w) (TEMP_CARD_DIR env ++ "/*.png")) ->
  Forall (fun p => is_Some (fs w !! p))
    (glob env (fs w) (TEMP_CARD_DIR env ++ "/*.png")) ->
  fst (delete_temp_cards env w) = Ok tt
  /\ (forall p, p ∈ glob env (fs w) (TEMP_CARD_DIR env ++ "/*.png") ->
        fs (snd (delete_temp_cards env w)) !! p = None)
  /\ (forall p, p ∉ glob env (fs w) (TEMP_CARD_DIR env ++ "/*.png") ->
        fs (snd (delete_temp_cards env w)) !! p = fs w !! p).
Proof.
  intros Hnodup Hall.
  destruct (remove_all_removes _ w Hnodup Hall) as (w' & Hrun & Hgone & Hkept & _).
  unfold delete_temp_cards, bind. rewrite Hrun. simpl.
  split; [reflexivity|]. split; assumption.
Qed.

Lemma draw_cards_answers (turns : nat) (acc answers : list json) (w : World) :
  List.length answers = turns ->
  (forall i a, answers !! i = Some a ->
     requests_get_json env (http_requests w + i)%nat (SCRYFALL_RANDOM_URL web) = Ok a) ->
  fst (draw_cards env web turns acc w) = Ok (acc ++ answers)%list
  /\ http_requests (snd (draw_cards env web turns acc w))
     = (http_requests w + turns)%nat
  /\ fs (snd (draw_cards env web turns acc w)) = fs w
  /\ posted (snd (draw_cards env web turns acc w)) = posted w.
Proof.
  revert acc answers w.
  induction turns as [|turns IH]; intros acc answers w Hlen Hreq.
  - destruct answers; [|discriminate]. simpl. rewrite app_nil_r, Nat.add_0_r.
    repeat split.
  - destruct answers as [|a answers]; [discriminate|].
    injection Hlen as Hlen.
    pose proof (Hreq 0%nat a eq_refl) as Ha. rewrite Nat.add_0_r in Ha.
    assert (Hstep : draw_cards env web (S turns) acc w
                    = draw_cards env web turns (acc ++ [a])%list
                        (add_log (mkLog DEBUG "Downloaded URL {0}"
                                    [JStr (SCRYFALL_RANDOM_URL web)])
                           (count_request w))).
    { simpl. unfold bind at 1, download_contents, bind at 1. rewrite Ha.
      reflexivity. }
    rewrite Hstep.
    set (w1 := add_log _ (count_request w)).
    destruct (IH (acc ++ [a])%list answers w1 Hlen) as (Hres & Hcount & Hfs & Hposted).
    { intros i b Hb.
      replace (http_requests w1 + i)%nat with (http_requests w + S i)%nat
        by (unfold w1; simpl; lia).
      now apply Hreq. }
    rewrite Hres, Hcount, Hfs, Hposted. unfold w1; simpl.
    rewrite <- app_assoc. repeat split. lia.
Qed.

(** [download_random_cards(n)] makes [n] requests to the random-card URL
    and returns their answers in the order drawn; it touches no file.  For
    a count below one it returns the empty list without any request. *)
Theorem download_random_cards_draws (number_of_cards : Z) (answers : list json)
    (w : World) :
  List.length answers = Z.to_nat number_of_cards ->
  (forall i a, answers !! i = Some a ->
     requests_get_json env (http_requests w + i)%nat (SCRYFALL_RANDOM_URL web) = Ok a) ->
  fst (download_random_cards env web number_of_cards w) = Ok answers
  /\ http_requests (snd (download_random_cards env web number_of_cards w))
     = (http_requests w + Z.to_nat number_of_cards)%nat
  /\ fs (snd (download_random_cards env web number_of_cards w)) = fs w.
Proof.
  intros Hlen Hreq. unfold download_random_cards.
  destruct (draw_cards_answers (Z.to_nat number_of_cards) [] answers w Hlen Hreq)
    as (H1 & H2 & H3 & _).
  rewrite H1, H2, H3. repeat split.
Qed.

(** While a contest is live, an unforced [main] does nothing: it leaves
    through [exit(0)], and all that has happened is the warning of the
    liveness check: no card drawn, no file touched, nothing posted. *)
Theorem main_exits_while_contest_is_live (w : World) (d : gmap string json)
    (k : string) (start : datetime) :
  fs w !! TWEET_DATABASE env = Some (FJson (JDict d)) ->
  max_key (JDict d) = Ok k ->
  strptime k = Ok start ->
  year start < 9999 ->
  valid_datetime (now w) = true ->
  to_micros (now w) - to_micros start < day_micros ->
  main env web false w
  = (Ok (Exit 0),
     add_log (mkLog WARNING "Current contest from {0} still active" [JStr k]) w).
Proof.
  intros Hf Hmax Hparse Hy Hnow Hlive.
  destruct (add_one_day_ok start Hy) as [finish Hadd].
  pose proof (strptime_valid _ _ Hparse) as Hstart.
  destruct (add_one_day_to_micros _ _ Hstart Hadd) as [Hfin Hmicros].
  pose proof (dt_gtb_to_micros finish (now w) Hfin Hnow) as Hcmp.
  assert (Hgt : dt_gtb finish (now w) = true) by (apply Hcmp; lia).
  assert (Hlive' : is_active_contest_already env w
                   = (Ok true,
                      add_log (mkLog WARNING "Current contest from {0} still active"
                                 [JStr k]) w)).
  { rewrite (is_active_contest_already_parsed env w d k start finish
               Hf Hmax Hparse Hadd).
    now rewrite Hgt. }
  unfold main.
  change (if negb false then is_active_contest_already env else ret false)
    with (is_active_contest_already env).
  now rewrite (bind_ok _ _ _ _ _ Hlive').
Qed.

Lemma write_dict_entry_ok (file_name : string) (e : gmap string json)
    (w w' : World) :
  write_to_json_db file_name (JDict e) w = (Ok tt, w') ->
  exists d, fs w' !! file_name = Some (FJson (JDict d))
            /\ d !! strftime (now w') = Some (JDict e).
Proof.
  intros H.
  destruct (fs w !! file_name) as [[doc|im|]|] eqn:Hf.
  - destruct doc as [| b | n | s | l | d].
    6:{ rewrite (write_to_json_db_dict _ _ _ _ Hf) in H. injection H as <-.
        eexists. split; [simpl; apply lookup_insert_eq|]. simpl.
        apply lookup_insert_eq. }
    all: unfold write_to_json_db, bind, isfile, json_load in H;
      rewrite Hf in H; simpl in H; rewrite Hf in H; discriminate.
  - unfold write_to_json_db, bind, isfile, json_load in H.
    rewrite Hf in H. simpl in H. rewrite Hf in H. discriminate.
  - unfold write_to_json_db, bind, isfile, json_load in H.
    rewrite Hf in H. simpl in H. rewrite Hf in H. discriminate.
  - rewrite (write_to_json_db_new_dict _ _ _ Hf) in H. injection H as <-.
    eexists. split; [simpl; apply lookup_insert_eq|]. simpl.
    apply lookup_singleton_eq.
Qed.

Lemma contest_entry_inv (tweet_id card0 card1 entry : json) :
  contest_entry tweet_id [card0; card1] = Ok entry ->
  exists name0 url0 name1 url1 : json,
    getitem card0 "name" = Ok name0
    /\ getitem card0 "scryfall_uri" = Ok url0
    /\ getitem card1 "name" = Ok name1
    /\ getitem card1 "scryfall_uri" = Ok url1
    /\ entry = JDict (<["tweet_id" := tweet_id]>
                        {[ "cards" := JList [
                             JDict (<["name" := name0]> {[ "url" := url0 ]});
                             JDict (<["name" := name1]> {[ "url" := url1 ]}) ] ]}).
Proof.
  unfold contest_entry, card_ref, list_item, rbind. simpl.
  destruct (getitem card0 "name") as [name0|]; [|discriminate].
  destruct (getitem card0 "scryfall_uri") as [url0|]; [|discriminate].
  destruct (getitem card1 "name") as [name1|]; [|discriminate].
  destruct (getitem card1 "scryfall_uri") as [url1|]; [|discriminate].
  intros [= <-]. exists name0, url0, name1, url1. repeat split.
Qed.

Lemma download_contents_ok_inv (url : string) (w w' : World) (v : json) :
  download_contents env url w = (Ok v, w') ->
  requests_get_json env (http_requests w) url = Ok v
  /\ http_requests w' = S (http_requests w).
Proof.
  unfold download_contents, bind, logging, ret.
  destruct (requests_get_json env (http_requests w) url) as [a|e];
    [|discriminate].
  intros [= <- <-]. split; reflexivity.
Qed.

(** What a draw that returns has drawn. *)
Lemma draw_cards_inv (turns : nat) (acc cards : list json) (w w' : World) :
  draw_cards env web turns acc w = (Ok cards, w') ->
  exists drawn : list json,
    cards = (acc ++ drawn)%list
    /\ List.length drawn = turns
    /\ forall i c, drawn !! i = Some c ->
         requests_get_json env (http_requests w + i)%nat (SCRYFALL_RANDOM_URL web)
         = Ok c.
Proof.
  revert acc w. induction turns as [|turns IH]; intros acc w H.
  - injection H as <- _. exists []. rewrite app_nil_r.
    split; [reflexivity|]. split; [reflexivity|]. intros i c Hc. discriminate.
  - cbn [draw_cards] in H.
    apply bind_ok_inv in H as (a & w1 & Hget & H).
    apply download_contents_ok_inv in Hget as [Ha Hcount].
    destruct (IH _ _ H) as (drawn & -> & Hlen & Hdrawn).
    exists (a :: drawn). rewrite <- app_assoc.
    split; [reflexivity|]. split; [simpl; now rewrite Hlen|].
    intros [|i] c Hc; simpl in Hc.
    + injection Hc as <-. now rewrite Nat.add_0_r.
    + replace (http_requests w + S i)%nat with (http_requests w1 + i)%nat
        by (rewrite Hcount; lia).
      now apply Hdrawn.
Qed.

(** A run of [main] that returns has recorded its contest.  The two cards
    are the answers of the card database to the two requests for a random
    card that follow the clearing of the card directory; the identifier is
    the one [send_tweet] returned (the sentinel included) for the post
    that names them, with the merged image; and the entry written to the
    log is made of that identifier and of the name and the page of each
    of the two cards.  After the run the log file holds a JSON document
    and, when that document is a mapping, the entry is in it under the
    key of the clock. *)
Theorem main_records_contest_when_it_returns (force_new : bool) (w w' : World) :
  main env web force_new w = (Ok Return, w') ->
  exists (w0 w1 w2 w3 w4 w5 w6 : World)
         (card0 card1 name0 url0 name1 url1 : json)
         (line0 line1 image : string) (tweet_id doc : json),
    (if negb force_new then is_active_contest_already env else ret false) w
    = (Ok false, w0)
    /\ delete_temp_cards env w0 = (Ok tt, w1)
    /\ download_random_cards env web 2 w1 = (Ok [card0; card1], w2)
    /\ requests_get_json env (http_requests w1) (SCRYFALL_RANDOM_URL web)
       = Ok card0
    /\ requests_get_json env (S (http_requests w1)) (SCRYFALL_RANDOM_URL web)
       = Ok card1
    /\ getitem card0 "name" = Ok name0
    /\ getitem card0 "scryfall_uri" = Ok url0
    /\ getitem card1 "name" = Ok name1
    /\ getitem card1 "scryfall_uri" = Ok url1
    /\ card_line web [card0; card1] 0 = Ok line0
    /\ card_line web [card0; card1] 1 = Ok line1
    /\ log_cards [card0; card1] w2 = (Ok tt, w3)
    /\ download_and_save_card_images env web [card0; card1] w3 = (Ok tt, w4)
    /\ merge_card_images env [card0; card1] w4 = (Ok image, w5)
    /\ send_tweet env (tweet_message line0 line1) (Some image) w5
       = (Ok tweet_id, w6)
    /\ write_to_json_db (TWEET_DATABASE env)
         (JDict (<["tweet_id" := tweet_id]>
                   {[ "cards" := JList [
                        JDict (<["name" := name0]> {[ "url" := url0 ]});
                        JDict (<["name" := name1]> {[ "url" := url1 ]}) ] ]}))
         w6 = (Ok tt, w')
    /\ fs w' !! TWEET_DATABASE env = Some (FJson doc)
    /\ forall d : gmap string json, doc = JDict d ->
         d !! strftime (now w')
         = Some (JDict (<["tweet_id" := tweet_id]>
                          {[ "cards" := JList [
                               JDict (<["name" := name0]> {[ "url" := url0 ]});
                               JDict (<["name" := name1]> {[ "url" := url1 ]}) ] ]})).
Proof.
  intros H. unfold main in H.
  apply bind_ok_inv in H as (active & w0 & Hactive & H).
  destruct active; [discriminate|].
  apply bind_ok_inv in H as ([] & w1 & Hdelete & H).
  apply bind_ok_inv in H as (cards & w2 & Hdraw & H).
  apply bind_ok_inv in H as (line0 & w2a & Hline0 & H).
  apply lift_ok_inv in Hline0 as [Hline0 ->].
  apply bind_ok_inv in H as (line1 & w2b & Hline1 & H).
  apply lift_ok_inv in Hline1 as [Hline1 ->].
  apply bind_ok_inv in H as ([] & w3 & Hlog & H).
  apply bind_ok_inv in H as ([] & w4 & Hsave & H).
  apply bind_ok_inv in H as (image & w5 & Hmerge & H).
  apply bind_ok_inv in H as (tweet_id & w6 & Hsend & H).
  apply bind_ok_inv in H as (json_entry & w6a & Hentry & H).
  apply lift_ok_inv in Hentry as [Hentry ->].
  apply bind_ok_inv in H as ([] & w7 & Hwrite & H).
  injection H as <-.
  destruct (draw_cards_inv _ _ _ _ _ Hdraw) as (drawn & Hcards & Hlen & Hdrawn).
  destruct drawn as [|card0 [|card1 [|]]]; try discriminate.
  simpl in Hcards. subst cards.
  pose proof (Hdrawn 0%nat card0 eq_refl) as Hcard0.
  pose proof (Hdrawn 1%nat card1 eq_refl) as Hcard1.
  rewrite Nat.add_0_r in Hcard0. rewrite Nat.add_1_r in Hcard1.
  destruct (contest_entry_inv _ _ _ _ Hentry)
    as (name0 & url0 & name1 & url1 & Hn0 & Hu0 & Hn1 & Hu1 & ->).
  destruct (write_dict_entry_ok _ _ _ _ Hwrite) as (d & Hd & Hkey).
  exists w0, w1, w2, w3, w4, w5, w6, card0, card1, name0, url0, name1, url1,
    line0, line1, image, tweet_id, (JDict d).
  repeat (split; [assumption|]).
  now intros d' [= <-].
Qed.

(** The flag for the results needs a contest in the log.  With the log
    missing or empty, a run of the script with that flag stops with a
    [ValueError] once the scan of the replies is through: no contest is
    started, forced or not, no file is written and nothing is posted. *)
Theorem results_flag_without_contest (force_new : bool) (w : World)
    (results : list json) :
  fs w !! TWEET_DATABASE env = None
  \/ fs w !! TWEET_DATABASE env = Some (FJson (JDict ∅)) ->
  fst (get_results env w) = Ok results ->
  fst (script env web true force_new w) = Raise ValueError
  /\ fs (snd (script env web true force_new w)) = fs w
  /\ posted (snd (script env web true force_new w)) = posted w.
Proof.
  intros Hlog Hres.
  destruct (reads_only_get_results env w) as [Hfs Hposted].
  destruct (get_results env w) as [[r|e] w1] eqn:Hget; [|discriminate].
  simpl in Hres, Hfs, Hposted. injection Hres as ->.
  assert (Hlog1 : fs w1 !! TWEET_DATABASE env = None
                  \/ fs w1 !! TWEET_DATABASE env = Some (FJson (JDict ∅)))
    by now rewrite Hfs.
  assert (Heq : script env web true force_new w = (Raise ValueError, w1)).
  { unfold script. unfold bind at 1, bind at 1. rewrite Hget.
    now rewrite (write_results_no_contest env results w1 Hlog1). }
  rewrite Heq. simpl. repeat split; assumption.
Qed.

Lemma download_and_save_stores (cards : list json) (cis : list card_image)
    (w : World) :
  Forall2 describes cards cis ->
  (forall i ci, cis !! i = Some ci ->
     requests_get_raw web (http_requests w + i)%nat (image_url ci)
     = Ok (image_body ci)) ->
  NoDup (card_path env <$> cis) ->
  exists w',
    download_and_save_card_images env web cards w = (Ok tt, w')
    /\ (forall ci, ci ∈ cis -> fs w' !! card_path env ci = Some (image_body ci))
    /\ (forall p, p ∉ (card_path env <$> cis) -> fs w' !! p = fs w !! p)
    /\ http_requests w' = (http_requests w + List.length cis)%nat
    /\ posted w' = posted w.
Proof.
  intros Hdesc. revert w.
  induction Hdesc as [|card ci cards cis [Hurl Hname] _ IH]; intros w Hreq Hnodup.
  - exists w. split; [reflexivity|]. split; [|split; [|split]].
    + intros ci Hci. now apply not_elem_of_nil in Hci.
    + reflexivity.
    + simpl. lia.
    + reflexivity.
  - rewrite fmap_cons in Hnodup. apply NoDup_cons in Hnodup as [Hfresh Hnodup].
    pose proof (Hreq 0%nat ci eq_refl) as Hraw. rewrite Nat.add_0_r in Hraw.
    set (w1 := add_log (mkLog DEBUG "Saving image of card {0}" [JStr (card_name ci)])
                 (set_fs (<[card_path env ci := image_body ci]> (fs w))
                    (add_log (mkLog DEBUG "Downloaded URL {0}" [JStr (image_url ci)])
                       (count_request w)))).
    assert (Hstep : download_and_save_card_images env web (card :: cards) w
                    = download_and_save_card_images env web cards w1).
    { assert (Hget : download_contents_as env web (image_url ci) "image" w
                     = (Ok (RawResponse (image_body ci)),
                        add_log (mkLog DEBUG "Downloaded URL {0}" [JStr (image_url ci)])
                          (count_request w))).
      { unfold download_contents_as, bind, logging, ret. simpl.
        rewrite Hraw. reflexivity. }
      assert (Hfile : card_file_name card = Ok (replace_slashes (card_name ci))).
      { unfold card_file_name, rbind. now rewrite Hname. }
      cbn [download_and_save_card_images].
      rewrite (bind_ok _ _ w w (JStr (image_url ci))) by (now rewrite Hurl).
      rewrite (bind_ok _ _ _ _ _ Hget).
      rewrite Hfile, Hname. reflexivity. }
    rewrite Hstep.
    destruct (IH w1) as (w' & Hrun & Hstored & Hkept & Hcount & Hposted).
    { intros i ci' Hi.
      replace (http_requests w1 + i)%nat with (http_requests w + S i)%nat
        by (unfold w1; simpl; lia).
      now apply Hreq. }
    { exact Hnodup. }
    exists w'. split; [exact Hrun|]. split; [|split; [|split]].
    + intros ci' Hci'. apply elem_of_cons in Hci' as [->|Hci']; [|now apply Hstored].
      rewrite (Hkept _ Hfresh). unfold w1; simpl. apply lookup_insert_eq.
    + intros p Hp. rewrite fmap_cons in Hp. apply not_elem_of_cons in Hp as [Hne Hp].
      rewrite (Hkept p Hp). unfold w1; simpl. now apply lookup_insert_ne.
    + rewrite Hcount. unfold w1; simpl. lia.
    + rewrite Hposted. reflexivity.
Qed.

(** [download_and_save_card_images] stores the image of each card under
    the card directory, in the file named after the card (with [//] in the
    name replaced): when every card has its image URL and its name, every
    download comes through and no two cards share a file, each file holds
    the body downloaded for its card, with one request per card, and no
    other file is touched. *)
Theorem download_and_save_card_images_stores (cards : list json)
    (cis : list card_image) (w : World) :
  Forall2 describes cards cis ->
  (forall i ci, cis !! i = Some ci ->
     requests_get_raw web (http_requests w + i)%nat (image_url ci)
     = Ok (image_body ci)) ->
  NoDup (card_path env <$> cis) ->
  fst (download_and_save_card_images env web cards w) = Ok tt
  /\ (forall ci, ci ∈ cis ->
        fs (snd (download_and_save_card_images env web cards w)) !! card_path env ci
        = Some (image_body ci))
  /\ (forall p, p ∉ (card_path env <$> cis) ->
        fs (snd (download_and_save_card_images env web cards w)) !! p = fs w !! p)
  /\ http_requests (snd (download_and_save_card_images env web cards w))
     = (http_requests w + List.length cis)%nat.
Proof.
  intros Hdesc Hreq Hnodup.
  destruct (download_and_save_stores cards cis w Hdesc Hreq Hnodup)
    as (w' & -> & Hstored & Hkept & Hcount & _).
  simpl. repeat split; assumption.
Qed.

End MoreContest.

Lemma delete_temp_cards_removes_listed_witness :
  (NoDup (glob stale_env (fs stale_world) (TEMP_CARD_DIR stale_env ++ "/*.png"))
   /\ Forall (fun p => is_Some (fs stale_world !! p))
        (glob stale_env (fs stale_world) (TEMP_CARD_DIR stale_env ++ "/*.png")))
  /\ fst (delete_temp_cards stale_env stale_world) = Ok tt
  /\ (forall p, p ∈ glob stale_env (fs stale_world) (TEMP_CARD_DIR stale_env ++ "/*.png") ->
        fs (snd (delete_temp_cards stale_env stale_world)) !! p = None)
  /\ (forall p, p ∉ glob stale_env (fs stale_world) (TEMP_CARD_DIR stale_env ++ "/*.png") ->
        fs (snd (delete_temp_cards stale_env stale_world)) !! p = fs stale_world !! p).
Proof.
  assert (Hnodup : NoDup (glob stale_env (fs stale_world)
                            (TEMP_CARD_DIR stale_env ++ "/*.png"))).
  { apply (bool_decide_unpack _). vm_compute. exact I. }
  assert (Hthere : Forall (fun p => is_Some (fs stale_world !! p))
                     (glob stale_env (fs stale_world)
                        (TEMP_CARD_DIR stale_env ++ "/*.png"))).
  { repeat constructor; vm_compute; eauto. }
  split; [split; assumption|].
  apply (delete_temp_cards_removes_listed stale_env stale_world); assumption.
Defined.

Lemma download_random_cards_draws_witness :
  (List.length [shock; opt] = Z.to_nat 2
   /\ forall i a, [shock; opt] !! i = Some a ->
        requests_get_json run_env (http_requests (empty_world sample_start) + i)%nat
          (SCRYFALL_RANDOM_URL run_web) = Ok a)
  /\ fst (download_random_cards run_env run_web 2 (empty_world sample_start))
     = Ok [shock; opt]
  /\ http_requests (snd (download_random_cards run_env run_web 2
                           (empty_world sample_start)))
     = (http_requests (empty_world sample_start) + Z.to_nat 2)%nat
  /\ fs (snd (download_random_cards run_env run_web 2 (empty_world sample_start)))
     = fs (empty_world sample_start).
Proof.
  assert (Hdraws : forall i a, [shock; opt] !! i = Some a ->
            requests_get_json run_env (http_requests (empty_world sample_start) + i)%nat
              (SCRYFALL_RANDOM_URL run_web) = Ok a).
  { intros [|[|i]] a; simpl; intros [= <-]; reflexivity. }
  split; [split; [reflexivity | exact Hdraws]|].
  apply (download_random_cards_draws run_env run_web 2 [shock; opt]
           (empty_world sample_start)); [reflexivity | exact Hdraws].
Defined.

Lemma main_exits_while_contest_is_live_witness :
  (fs (sample_world (mkDatetime 2018 5 10 6 3 59 0)) !! TWEET_DATABASE run_env
   = Some (FJson (JDict sample_db))
   /\ max_key (JDict sample_db) = Ok "2018-05-09_07:03:59"
   /\ strptime "2018-05-09_07:03:59" = Ok sample_start
   /\ year sample_start < 9999
   /\ valid_datetime (now (sample_world (mkDatetime 2018 5 10 6 3 59 0))) = true
   /\ to_micros (now (sample_world (mkDatetime 2018 5 10 6 3 59 0)))
      - to_micros sample_start < day_micros)
  /\ main run_env run_web false (sample_world (mkDatetime 2018 5 10 6 3 59 0))
     = (Ok (Exit 0),
        add_log (mkLog WARNING "Current contest from {0} still active"
                   [JStr "2018-05-09_07:03:59"])
          (sample_world (mkDatetime 2018 5 10 6 3 59 0))).
Proof.
  split; [repeat split; vm_compute; reflexivity|].
  apply (main_exits_while_contest_is_live run_env run_web
           (sample_world (mkDatetime 2018 5 10 6 3 59 0)) sample_db
           "2018-05-09_07:03:59" sample_start);
    vm_compute; reflexivity.
Defined.

Lemma main_records_contest_when_it_returns_witness :
  main run_env run_web false (empty_world sample_start)
  = (Ok Return, snd (main run_env run_web false (empty_world sample_start)))
  /\
  exists (w0 w1 w2 w3 w4 w5 w6 : World)
         (card0 card1 name0 url0 name1 url1 : json)
         (line0 line1 image : string) (tweet_id doc : json),
    (if negb false then is_active_contest_already run_env else ret false) (empty_world sample_start)
    = (Ok false, w0)
    /\ delete_temp_cards run_env w0 = (Ok tt, w1)
    /\ download_random_cards run_env run_web 2 w1 = (Ok [card0; card1], w2)
    /\ requests_get_json run_env (http_requests w1) (SCRYFALL_RANDOM_URL run_web)
       = Ok card0
    /\ requests_get_json run_env (S (http_requests w1)) (SCRYFALL_RANDOM_URL run_web)
       = Ok card1
    /\ getitem card0 "name" = Ok name0
    /\ getitem card0 "scryfall_uri" = Ok url0
    /\ getitem card1 "name" = Ok name1
    /\ getitem card1 "scryfall_uri" = Ok url1
    /\ card_line run_web [card0; card1] 0 = Ok line0
    /\ card_line run_web [card0; card1] 1 = Ok line1
    /\ log_cards [card0; card1] w2 = (Ok tt, w3)
    /\ download_and_save_card_images run_env run_web [card0; card1] w3 = (Ok tt, w4)
    /\ merge_card_images run_env [card0; card1] w4 = (Ok image, w5)
    /\ send_tweet run_env (tweet_message line0 line1) (Some image) w5
       = (Ok tweet_id, w6)
    /\ write_to_json_db (TWEET_DATABASE run_env)
         (JDict (<["tweet_id" := tweet_id]>
                   {[ "cards" := JList [
                        JDict (<["name" := name0]> {[ "url" := url0 ]});
                        JDict (<["name" := name1]> {[ "url" := url1 ]}) ] ]}))
         w6 = (Ok tt, (snd (main run_env run_web false (empty_world sample_start))))
    /\ fs (snd (main run_env run_web false (empty_world sample_start))) !! TWEET_DATABASE run_env = Some (FJson doc)
    /\ forall d : gmap string json, doc = JDict d ->
         d !! strftime (now (snd (main run_env run_web false (empty_world sample_start))))
         = Some (JDict (<["tweet_id" := tweet_id]>
                          {[ "cards" := JList [
                               JDict (<["name" := name0]> {[ "url" := url0 ]});
                               JDict (<["name" := name1]> {[ "url" := url1 ]}) ] ]})).
Proof.
  assert (Hrun : main run_env run_web false (empty_world sample_start)
                 = (Ok Return,
                    snd (main run_env run_web false (empty_world sample_start)))).
  { vm_compute. reflexivity. }
  split; [exact Hrun|].
  apply (main_records_contest_when_it_returns run_env run_web false
           (empty_world sample_start)
           (snd (main run_env run_web false (empty_world sample_start)))).
  exact Hrun.
Defined.

Lemma results_flag_without_contest_witness :
  ((fs (empty_world sample_start) !! TWEET_DATABASE run_env = None
    \/ fs (empty_world sample_start) !! TWEET_DATABASE run_env
       = Some (FJson (JDict ∅)))
   /\ fst (get_results run_env (empty_world sample_start)) = Ok [])
  /\ fst (script run_env run_web true true (empty_world sample_start))
     = Raise ValueError
  /\ fs (snd (script run_env run_web true true (empty_world sample_start)))
     = fs (empty_world sample_start)
  /\ posted (snd (script run_env run_web true true (empty_world sample_start)))
     = posted (empty_world sample_start).
Proof.
  split; [split; [left; reflexivity | vm_compute; reflexivity]|].
  apply (results_flag_without_contest run_env run_web true
           (empty_world sample_start) []);
    [left; reflexivity | vm_compute; reflexivity].
Defined.

Lemma download_and_save_card_images_stores_witness :
  (Forall2 describes [shock; opt] [shock_image; opt_image]
   /\ (forall i ci, [shock_image; opt_image] !! i = Some ci ->
         requests_get_raw run_web (http_requests drawn_world + i)%nat (image_url ci)
         = Ok (image_body ci))
   /\ NoDup (card_path run_env <$> [shock_image; opt_image]))
  /\ fst (download_and_save_card_images run_env run_web [shock; opt] drawn_world)
     = Ok tt
  /\ (forall ci, ci ∈ [shock_image; opt_image] ->
        fs (snd (download_and_save_card_images run_env run_web [shock; opt]
                   drawn_world)) !! card_path run_env ci
        = Some (image_body ci))
  /\ (forall p, p ∉ (card_path run_env <$> [shock_image; opt_image]) ->
        fs (snd (download_and_save_card_images run_env run_web [shock; opt]
                   drawn_world)) !! p = fs drawn_world !! p)
  /\ http_requests (snd (download_and_save_card_images run_env run_web [shock; opt]
                           drawn_world))
     = (http_requests drawn_world + List.length [shock_image; opt_image])%nat.
Proof.
  assert (Hdesc : Forall2 describes [shock; opt] [shock_image; opt_image]).
  { repeat constructor. }
  assert (Hreq : forall i ci, [shock_image; opt_image] !! i = Some ci ->
            requests_get_raw run_web (http_requests drawn_world + i)%nat (image_url ci)
            = Ok (image_body ci)).
  { intros [|[|i]] ci; simpl; intros [= <-]; reflexivity. }
  assert (Hnodup : NoDup (card_path run_env <$> [shock_image; opt_image])).
  { apply (bool_decide_unpack _). vm_compute. exact I. }
  split; [repeat split; assumption|].
  apply (download_and_save_card_images_stores run_env run_web [shock; opt]
           [shock_image; opt_image] drawn_world); assumption.
Defined.
